(** * Munin dashboard: the bank-verification-gated minting pipeline

    A shallow embedding of the parts of the repository that decide the
    properties of the specification, module by module:

    - [lib/solana] ([createSPLToken], in [client/src/lib/fetchTokens.ts]):
      the transaction builder, with what the instruction builders of
      [@solana/spl-token] it calls write into the decimals byte and the
      amount bytes;
    - [components/TokenCreationForm] ([validateStep], [nextStep], [onSubmit],
      the handlers [onBankVerified] and [forceAdvance], in
      [unnamed/part_002]): the verification gate of the wizard;
    - [lib/tokenUtils] (the validators, in [unnamed/part_004]);
    - [components/FixedPlaidIntegration]: the bank-link step and its fallback;
    - [server/plaidService] ([exchangePublicToken], [getBankAccountInfo],
      [recordStablecoinMint], in [client/src/pages/MyTokens.tsx]) and
      [server/routes.ts]: the bank-link service, the mint audit trail and the
      HTTP routes;
    - [shared/schema.ts]: the two tables the service writes;
    - [createLinkToken] and the [create-link-token] route, which issue the
      link token the bank-link step mounts with;
    - [fetchWalletTokens] (in [client/src/lib/fetchTokens.ts]) and the
      registry [createSPLToken] keeps in local storage;
    - [hooks/useSolanaWallet] ([SolanaWalletProvider], in
      [unnamed/part_003]): the wallet session the form reads.

    Numbers.  On the client a JavaScript number is an IEEE-754 binary64 value
    and is embedded as a primitive [float], so that
    [parseFloat(s) * 10 ** d] is evaluated bit for bit.  On the server a
    number only travels from a JSON body to [toString()] and into a
    [decimal(12, 2)] column; there it is embedded as the rational its decimal
    text denotes, and a column value as a count of hundredths.

    Effects.  Code that can throw returns a [result]; code that updates React
    state or the database passes the state along; what comes back from the
    network is an argument of the function that awaits it.  Strings are taken
    to be ASCII, so that [length] counts characters. *)

From Stdlib Require Import ZArith QArith Floats String Ascii List Lia Bool.
From stdpp Require Import base option list strings gmap sorting.

Set Default Proof Using "Type".
Local Open Scope Z_scope.

(** ** Exceptions and fallible computations *)

Inductive exn : Type :=
| RangeError (msg : string)
| TypeError (msg : string)
| Error (msg : string).

Inductive result (A : Type) : Type :=
| Ok (a : A)
| Throw (e : exn).
Arguments Ok {A} a.
Arguments Throw {A} e.

#[global] Instance result_ret : MRet result := fun _ a => Ok a.
#[global] Instance result_bind : MBind result := fun _ _ k r =>
  match r with
  | Ok a => k a
  | Throw e => Throw e
  end.

Definition is_ok {A} (r : result A) : bool :=
  match r with Ok _ => true | Throw _ => false end.

(** ** JavaScript numbers *)

Module JsNumber.

(** The binary64 value nearest to [n / d] (ties to even).  The quotient is
    taken with at least 64 significant bits and a sticky bit, which
    [binary_normalize] then rounds once. *)
Definition round_ratio (n : Z) (d : positive) : float :=
  match n with
  | Z0 => PrimFloat.zero
  | _ =>
    let a := Z.abs n in
    let k := Z.max 0 (64 + Z.log2 (Zpos d) - Z.log2 a) in
    let num := Z.shiftl a k in
    let q := num / Zpos d in
    let sticky := if num mod Zpos d =? 0 then 0 else 1 in
    let m := 2 * q + sticky in
    SF2Prim (binary_normalize prec emax (if n <? 0 then - m else m) (- k - 1) false)
  end.

(** [Number(n)] for a BigInt [n], and the Number value of an integer literal. *)
Definition of_Z (n : Z) : float := round_ratio n 1.

(** The Number value of the decimal [m * 10^e]. *)
Definition of_decimal (m e : Z) : float :=
  if m =? 0 then PrimFloat.zero
  else if 400 <? e then (if m <? 0 then neg_infinity else infinity)
  else if e + Z.log2 (Z.abs m) + 1 <? -400 then PrimFloat.zero
  else if 0 <=? e then round_ratio (m * 10 ^ e) 1
  else round_ratio m (Z.to_pos (10 ^ (- e))).

(** [BigInt(x)]: a RangeError unless [x] is an integral Number. *)
Definition BigInt (x : float) : result Z :=
  match Prim2SF x with
  | S754_zero _ => Ok 0
  | S754_finite s m e =>
    let sign := if s then (-1) else 1 in
    if 0 <=? e then Ok (sign * (Zpos m * 2 ^ e))
    else if Zpos m mod 2 ^ (- e) =? 0 then Ok (sign * (Zpos m / 2 ^ (- e)))
    else Throw (RangeError "The number cannot be converted to a BigInt because it is not an integer")
  | S754_infinity _ | S754_nan =>
    Throw (RangeError "The number cannot be converted to a BigInt because it is not an integer")
  end.

(** [10 ** d].  The exponent always comes out of [parseInt], so it is NaN or
    integral; the result is taken correctly rounded (exact up to [10 ** 22]). *)
Definition pow10 (d : float) : float :=
  match BigInt d with
  | Ok n =>
    if 308 <? n then infinity
    else if n <? -324 then PrimFloat.zero
    else of_decimal 1 n
  | Throw _ =>
    if is_nan d then nan
    else if (d <? PrimFloat.zero)%float then PrimFloat.zero
    else infinity
  end.

(** *** Scanning numeric literals *)

(** The code unit of a character. *)
Definition code (c : ascii) : Z := Z.of_N (N_of_ascii c).

Definition is_white_space (c : ascii) : bool :=
  let n := code c in
  ((9 <=? n) && (n <=? 13)) || (n =? 32).

Fixpoint trim_start (cs : list ascii) : list ascii :=
  match cs with
  | c :: cs' => if is_white_space c then trim_start cs' else cs
  | [] => []
  end.

Definition trim_end (cs : list ascii) : list ascii :=
  rev (trim_start (rev cs)).

Definition digit_of (radix : Z) (c : ascii) : option Z :=
  let n := code c in
  let v := if (48 <=? n) && (n <=? 57) then Some (n - 48)
           else if (97 <=? n) && (n <=? 122) then Some (n - 87)
           else if (65 <=? n) && (n <=? 90) then Some (n - 55)
           else None in
  match v with
  | Some k => if k <? radix then Some k else None
  | None => None
  end.

(** The longest prefix of digits, as (value so far, number of digits, rest). *)
Fixpoint scan_digits (radix : Z) (acc : Z) (count : Z) (cs : list ascii)
  : Z * Z * list ascii :=
  match cs with
  | c :: cs' =>
    match digit_of radix c with
    | Some k => scan_digits radix (acc * radix + k) (count + 1) cs'
    | None => (acc, count, cs)
    end
  | [] => (acc, count, [])
  end.

Definition scan_sign (cs : list ascii) : bool * list ascii :=
  match cs with
  | "-"%char :: cs' => (true, cs')
  | "+"%char :: cs' => (false, cs')
  | _ => (false, cs)
  end.

(** An optional ExponentPart: [e] or [E], an optional sign, at least one
    digit.  Anything else leaves the input untouched. *)
Definition scan_exponent (cs : list ascii) : Z * list ascii :=
  match cs with
  | c :: cs' =>
    if (Ascii.eqb c "e" || Ascii.eqb c "E")%char then
      let '(neg, cs'') := scan_sign cs' in
      let '(v, n, rest) := scan_digits 10 0 0 cs'' in
      if n =? 0 then (0, cs) else ((if neg then - v else v), rest)
    else (0, cs)
  | [] => (0, [])
  end.

Inductive literal : Type :=
| LitNone
| LitInfinity (neg : bool)
| LitDecimal (neg : bool) (mantissa : Z) (exponent : Z).

Fixpoint is_prefix (p cs : list ascii) : option (list ascii) :=
  match p, cs with
  | [], _ => Some cs
  | a :: p', c :: cs' => if Ascii.eqb a c then is_prefix p' cs' else None
  | _ :: _, [] => None
  end.

(** The longest prefix that is a StrDecimalLiteral, with what follows it. *)
Definition scan_decimal_literal (cs : list ascii) : literal * list ascii :=
  let '(neg, body) := scan_sign cs in
  match is_prefix (list_ascii_of_string "Infinity") body with
  | Some rest => (LitInfinity neg, rest)
  | None =>
    let '(ip, ni, after_int) := scan_digits 10 0 0 body in
    let '(m, nf, after_frac) :=
      match after_int with
      | "."%char :: cs' =>
        let '(m, nf, rest) := scan_digits 10 ip 0 cs' in
        if (ni =? 0) && (nf =? 0) then (ip, 0, after_int) else (m, nf, rest)
      | _ => (ip, 0, after_int)
      end in
    if (ni =? 0) && (nf =? 0) then (LitNone, cs)
    else
      let '(ex, rest) := scan_exponent after_frac in
      (LitDecimal neg m (ex - nf), rest)
  end.

Definition literal_value (l : literal) : float :=
  match l with
  | LitNone => nan
  | LitInfinity neg => if neg then neg_infinity else infinity
  | LitDecimal neg m e =>
    let x := of_decimal m e in
    if neg then (- x)%float else x
  end.

(** [parseFloat(s)]. *)
Definition parseFloat (s : string) : float :=
  literal_value (fst (scan_decimal_literal (trim_start (list_ascii_of_string s)))).

(** [parseInt(s)] with no radix argument. *)
Definition parseInt (s : string) : float :=
  let '(neg, body) := scan_sign (trim_start (list_ascii_of_string s)) in
  let '(radix, digits) :=
    match body with
    | "0"%char :: x :: cs' =>
      if (Ascii.eqb x "x" || Ascii.eqb x "X")%char then (16, cs') else (10, body)
    | _ => (10, body)
    end in
  let '(v, n, _) := scan_digits radix 0 0 digits in
  if n =? 0 then nan
  else if neg then (- of_Z v)%float else of_Z v.

(** [Number(s)] for a string [s]: the whole trimmed string must be a numeric
    literal; the empty string is [0]. *)
Definition Number (s : string) : float :=
  let cs := trim_end (trim_start (list_ascii_of_string s)) in
  match cs with
  | [] => PrimFloat.zero
  | "0"%char :: x :: cs' =>
    let radix :=
      if (Ascii.eqb x "x" || Ascii.eqb x "X")%char then 16
      else if (Ascii.eqb x "o" || Ascii.eqb x "O")%char then 8
      else if (Ascii.eqb x "b" || Ascii.eqb x "B")%char then 2
      else 0 in
    if radix =? 0 then
      match scan_decimal_literal cs with
      | (l, []) => literal_value l
      | _ => nan
      end
    else
      match scan_digits radix 0 0 cs' with
      | (v, n, []) => if n =? 0 then nan else of_Z v
      | _ => nan
      end
  | _ =>
    match scan_decimal_literal cs with
    | (l, []) => literal_value l
    | _ => nan
    end
  end.

(** [a > b] on Numbers. *)
Definition gtb (a b : float) : bool := (b <? a)%float.

(** [Number.MAX_SAFE_INTEGER]. *)
Definition MAX_SAFE_INTEGER : float := of_Z (2 ^ 53 - 1).

End JsNumber.

(** ** The wizard's form data ([types/index.ts]) *)

Inductive MintAuthorityChoice : Type := keep | transfer.

#[global] Instance MintAuthorityChoice_eq_dec : EqDecision MintAuthorityChoice.
Proof. solve_decision. Defined.

Record TokenFormData : Type := mkTokenFormData {
  tokenName : string;
  tokenSymbol : string;
  tokenDescription : option string;
  tokenSupply : string;
  tokenDecimals : string;
  mintAuthority : MintAuthorityChoice;
  recipientAddress : string;
  freezeAuthority : bool;
}.

(** [a || b] on strings: the empty string is falsy. *)
Definition or_else (a b : string) : string :=
  if String.eqb a "" then b else a.

(** ** The minting pipeline ([createSPLToken]) *)

(** What the pipeline uses of [@solana/web3.js]: public keys, their base58
    text and the [PublicKey] constructor, which throws on text that is not a
    key and reads back any key's own text. *)
Class Web3 : Type := {
  PublicKey : Type;
  toString : PublicKey -> string;
  newPublicKey : string -> result PublicKey;
  newPublicKey_toString : forall k, newPublicKey (toString k) = Ok k;
  TOKEN_PROGRAM_ID : PublicKey;
}.

Module Solana.
Section Pipeline.
Context `{W : Web3}.

Definition MINT_SIZE : Z := 82.

Inductive AuthorityType : Type := MintTokens | FreezeAccount | AccountOwner | CloseAccount.

(** An instruction, with the numbers its data bytes hold: the decimals of
    [InitializeMint] are one byte, the amount of [MintTo] is eight. *)
Inductive Instruction : Type :=
| CreateAccount (fromPubkey newAccountPubkey : PublicKey) (space lamports : Z)
    (programId : PublicKey)
| InitializeMint (mint : PublicKey) (decimals : Z) (mintAuthority : PublicKey)
    (freezeAuthority : option PublicKey)
| CreateAssociatedTokenAccount (payer associatedToken owner mint : PublicKey)
| MintTo (mint destination authority : PublicKey) (amount : Z)
| SetAuthority (account currentAuthority : PublicKey) (authorityType : AuthorityType)
    (newAuthority : option PublicKey).

(** The byte the [u8] layout writes for a Number: [writeUIntLE] refuses a
    value above 255 or below 0 and stores the integer part of any other; NaN
    passes both comparisons and is stored as 0. *)
Definition u8 (x : float) : result Z :=
  if ((JsNumber.of_Z 255 <? x) || (x <? PrimFloat.zero))%float
  then Throw (RangeError (String "034" ("value" ++ String "034" " argument is out of bounds")))
  else
    match Prim2SF x with
    | S754_finite _ m e => Ok (if 0 <=? e then Zpos m * 2 ^ e else Zpos m / 2 ^ (- e))
    | _ => Ok 0
    end.

(** The number of hexadecimal digits of [n.toString(16)], for [0 <= n]. *)
Definition hexDigits (n : Z) : Z := if n =? 0 then 1 else Z.log2 n / 4 + 1.

(** The eight bytes the [u64] layout writes for a BigInt, read back as a
    number.  The bytes are made from the hexadecimal text of the BigInt,
    padded with zeros on the left to sixteen digits and cut after the
    sixteenth: a number of [2 ^ 64] or more keeps its leading sixteen digits.
    The text of a negative number starts with a sign, which is no digit; the
    buffer then comes out short and the layout refuses it. *)
Definition u64 (n : Z) : result Z :=
  if n <? 0
  then Throw (TypeError "Blob.encode[amount] requires (length 8) Uint8Array as src")
  else Ok (n / 16 ^ Z.max 0 (hexDigits n - 16)).

(** [createInitializeMintInstruction]: the data is encoded when the
    instruction is made. *)
Definition createInitializeMintInstruction (mint : PublicKey) (decimals : float)
    (mintAuthority : PublicKey) (freezeAuthority : option PublicKey) : result Instruction :=
  decimals ← u8 decimals;
  mret (InitializeMint mint decimals mintAuthority freezeAuthority).

(** [createMintToInstruction]: the amount is encoded as [BigInt(amount)]. *)
Definition createMintToInstruction (mint destination authority : PublicKey)
    (amount : float) : result Instruction :=
  amount ← JsNumber.BigInt amount;
  amount ← u64 amount;
  mret (MintTo mint destination authority amount).

Record Transaction : Type := mkTransaction {
  instructions : list Instruction;
  feePayer : option PublicKey;
  recentBlockhash : option string;
  signatures : list PublicKey;
}.

Definition newTransaction : Transaction := mkTransaction [] None None [].

(** [transaction.add(i)] appends. *)
Definition add (t : Transaction) (i : Instruction) : Transaction :=
  mkTransaction (instructions t ++ [i]) (feePayer t) (recentBlockhash t) (signatures t).

Record TokenDetails : Type := mkTokenDetails {
  tokenAddress : string;
  detailsMintAuthority : string;
  detailsFreezeAuthority : option string;
  supply : string;
  decimals : float;
  transactionId : string;
}.

(** One run's view of the network and of the key generator. *)
Record Connection : Type := mkConnection {
  generate : PublicKey;
  getMinimumBalanceForRentExemptMint : result Z;
  getAssociatedTokenAddress : PublicKey -> PublicKey -> result PublicKey;
  getLatestBlockhash : result (string * Z);
  sendRawTransaction : Transaction -> result string;
  confirmTransaction : string -> string -> Z -> result (option string);
}.

(** Lines 202-209: the recipient defaults to the payer when the address is
    empty, and falls back to the payer when the constructor throws. *)
Definition resolveRecipient (payer : PublicKey) (formData : TokenFormData) : PublicKey :=
  match newPublicKey (or_else (recipientAddress formData) (toString payer)) with
  | Ok k => k
  | Throw _ => payer
  end.

(** Line 231: [BigInt(parseFloat(formData.tokenSupply) * 10 ** decimals)]. *)
Definition initialSupply (formData : TokenFormData) : result Z :=
  let decimals := JsNumber.parseInt (tokenDecimals formData) in
  JsNumber.BigInt (JsNumber.parseFloat (tokenSupply formData) * JsNumber.pow10 decimals)%float.

(** Line 253: the condition under which mint authority is handed over. *)
Definition transfersAuthority (payer recipientPubkey : PublicKey)
    (formData : TokenFormData) : bool :=
  bool_decide (mintAuthority formData = transfer)
  && negb (String.eqb (toString recipientPubkey) (toString payer)).

(** Lines 168-263: everything up to the complete instruction list. *)
Definition buildTransaction (connection : Connection) (payer : PublicKey)
    (formData : TokenFormData) : result Transaction :=
  let mintAccount := generate connection in
  let decimals := JsNumber.parseInt (tokenDecimals formData) in
  rentExemptBalance ← getMinimumBalanceForRentExemptMint connection;
  let transaction := newTransaction in
  let transaction :=
    add transaction
      (CreateAccount payer mintAccount MINT_SIZE rentExemptBalance TOKEN_PROGRAM_ID) in
  initializeMint ←
    createInitializeMintInstruction mintAccount decimals payer
      (if freezeAuthority formData then Some payer else None);
  let transaction := add transaction initializeMint in
  let recipientPubkey := resolveRecipient payer formData in
  associatedTokenAddress ← getAssociatedTokenAddress connection mintAccount recipientPubkey;
  let transaction :=
    add transaction
      (CreateAssociatedTokenAccount payer associatedTokenAddress recipientPubkey mintAccount) in
  supply ← initialSupply formData;
  mintTo ←
    createMintToInstruction mintAccount associatedTokenAddress payer (JsNumber.of_Z supply);
  let transaction := add transaction mintTo in
  let transaction :=
    if transfersAuthority payer recipientPubkey formData
    then add transaction (SetAuthority mintAccount payer MintTokens (Some recipientPubkey))
    else transaction in
  mret transaction.

(** [createSPLToken]: build, sign, send, confirm.  The outer [catch] logs and
    rethrows; the write to local storage sits in its own [try] and cannot
    change the result. *)
Definition createSPLToken (connection : Connection) (payer : PublicKey)
    (signTransaction : Transaction -> result Transaction)
    (formData : TokenFormData) : result TokenDetails :=
  let mintAccount := generate connection in
  let decimals := JsNumber.parseInt (tokenDecimals formData) in
  let recipientPubkey := resolveRecipient payer formData in
  transaction ← buildTransaction connection payer formData;
  let transaction :=
    mkTransaction (instructions transaction) (Some payer)
      (recentBlockhash transaction) (signatures transaction) in
  '(blockhash, lastValidBlockHeight) ← getLatestBlockhash connection;
  let transaction :=
    mkTransaction (instructions transaction) (feePayer transaction)
      (Some blockhash) (signatures transaction) in
  let transaction :=
    mkTransaction (instructions transaction) (feePayer transaction)
      (recentBlockhash transaction) (signatures transaction ++ [mintAccount]) in
  signedTransaction ← signTransaction transaction;
  signature ← sendRawTransaction connection signedTransaction;
  confirmation ← confirmTransaction connection signature blockhash lastValidBlockHeight;
  match confirmation with
  | Some err => Throw (Error ("Transaction failed: " ++ err))
  | None =>
    mret (mkTokenDetails
            (toString mintAccount)
            (match mintAuthority formData with
             | transfer => toString recipientPubkey
             | keep => toString payer
             end)
            (if freezeAuthority formData then Some (toString payer) else None)
            (tokenSupply formData)
            decimals
            signature)
  end.

End Pipeline.
End Solana.

(** ** Form validation ([lib/tokenUtils.ts]) *)

Module TokenUtils.

Definition trim (s : string) : string :=
  string_of_list_ascii
    (JsNumber.trim_end (JsNumber.trim_start (list_ascii_of_string s))).

Definition length (s : string) : Z := Z.of_nat (String.length s).

Definition is_upper_alnum (c : ascii) : bool :=
  let n := JsNumber.code c in
  ((65 <=? n) && (n <=? 90)) || ((48 <=? n) && (n <=? 57)).

Definition is_alnum (c : ascii) : bool :=
  let n := JsNumber.code c in
  is_upper_alnum c || ((97 <=? n) && (n <=? 122)).

Definition remove_commas (s : string) : string :=
  string_of_list_ascii
    (filter (fun c => c <> ","%char) (list_ascii_of_string s)).

Definition validateTokenName (name : string) : option string :=
  if String.eqb (trim name) "" then Some "Token name is required"
  else if 50 <? length name then Some "Token name must be less than 50 characters"
  else None.

(** The test [/^[A-Z0-9]+$/]; the symbol cannot be empty here. *)
Definition validateTokenSymbol (symbol : string) : option string :=
  if String.eqb (trim symbol) "" then Some "Token symbol is required"
  else if 10 <? length symbol then Some "Token symbol must be less than 10 characters"
  else if negb (forallb is_upper_alnum (list_ascii_of_string symbol))
  then Some "Token symbol must contain only uppercase letters and numbers"
  else None.

Definition validateTokenSupply (supply : string) : option string :=
  if String.eqb supply "" then Some "Token supply is required"
  else
    let num := JsNumber.Number (remove_commas supply) in
    if is_nan num then Some "Supply must be a valid number"
    else if (num <=? PrimFloat.zero)%float then Some "Supply must be greater than 0"
    else if JsNumber.gtb num JsNumber.MAX_SAFE_INTEGER then Some "Supply is too high"
    else None.

(** The test [/^[A-Za-z0-9]{32,44}$/] on the trimmed address. *)
Definition validateRecipientAddress (address : string) : option string :=
  if String.eqb (trim address) "" then None
  else
    let t := trim address in
    if forallb is_alnum (list_ascii_of_string t) && (32 <=? length t) && (length t <=? 44)
    then None
    else Some "Invalid Solana address format".

End TokenUtils.

(** ** The verified bank snapshot held by the client *)

Record BankAccount : Type := mkBankAccount {
  institutionName : string;
  accountName : string;
  accountMask : string;
  currentBalance : float;
  availableBalance : float;
}.

(** The snapshot both fallback paths fabricate. *)
Definition fallbackBankAccount : BankAccount :=
  mkBankAccount "Bank of America" "Checking Account" "1234"
    (JsNumber.of_Z 5000) (JsNumber.of_Z 5000).

(** ** The creation wizard ([TokenCreationForm]) *)

Module Form.
Section Wizard.
Context `{W : Web3}.

Inductive Toast : Type :=
| ToastBankVerificationRequired
| ToastSupplyExceedsBalance (requestedAmount available : float)
| ToastValidationError
| ToastInsufficientBankBalance (available : float)
| ToastVerificationSuccessful (bankInfo : BankAccount)
| ToastTokenCreationFailed (message : string).

(** The texts kept in [errors]; the mint limit is a template over the balance. *)
Inductive ErrorText : Type :=
| Message (text : string)
| MintLimit (available : float).

Record State : Type := mkState {
  currentStep : Z;
  errors : gmap string ErrorText;
  verifiedBankAccount : option BankAccount;
  toasts : list Toast;
}.

Definition initialState : State := mkState 1 ∅ None [].

Definition setCurrentStep (n : Z) (st : State) : State :=
  mkState n (errors st) (verifiedBankAccount st) (toasts st).
Definition setErrors (e : gmap string ErrorText) (st : State) : State :=
  mkState (currentStep st) e (verifiedBankAccount st) (toasts st).
Definition setVerifiedBankAccount (b : BankAccount) (st : State) : State :=
  mkState (currentStep st) (errors st) (Some b) (toasts st).
Definition toast (t : Toast) (st : State) : State :=
  mkState (currentStep st) (errors st) (verifiedBankAccount st) (toasts st ++ [t]).

Definition set_error (key : string) (e : option string)
    (acc : bool * gmap string ErrorText) : bool * gmap string ErrorText :=
  match e with
  | Some text => (false, <[key := Message text]> (snd acc))
  | None => acc
  end.

(** [validateStep(step)]: the verdict and the state after its updates. *)
Definition validateStep (formData : TokenFormData) (step : Z) (st : State)
  : bool * State :=
  if step =? 1 then
    let acc := (true, ∅) in
    let acc := set_error "tokenName" (TokenUtils.validateTokenName (tokenName formData)) acc in
    let acc := set_error "tokenSymbol" (TokenUtils.validateTokenSymbol (tokenSymbol formData)) acc in
    (fst acc, setErrors (snd acc) st)
  else if step =? 2 then
    let acc := set_error "tokenSupply"
                 (TokenUtils.validateTokenSupply (tokenSupply formData)) (true, ∅) in
    (fst acc, setErrors (snd acc) st)
  else if step =? 3 then
    match verifiedBankAccount st with
    | None => (false, setErrors ∅ (toast ToastBankVerificationRequired st))
    | Some bank =>
      let requestedAmount := JsNumber.parseFloat (tokenSupply formData) in
      if JsNumber.gtb requestedAmount (availableBalance bank) then
        (false,
         setErrors {[ "tokenSupply" := MintLimit (availableBalance bank) ]}
           (setCurrentStep 2
              (toast (ToastSupplyExceedsBalance requestedAmount (availableBalance bank)) st)))
      else (true, setErrors ∅ st)
    end
  else if step =? 4 then
    let acc := set_error "recipientAddress"
                 (TokenUtils.validateRecipientAddress (recipientAddress formData)) (true, ∅) in
    (fst acc, setErrors (snd acc) st)
  else (true, setErrors ∅ st).

(** [nextStep]: the step counter read by the closure is the one before
    [validateStep] ran. *)
Definition nextStep (formData : TokenFormData) (st : State) : State :=
  let '(isValid, st') := validateStep formData (currentStep st) st in
  if isValid then setCurrentStep (currentStep st + 1) st'
  else toast ToastValidationError st'.

Definition prevStep (st : State) : State :=
  setCurrentStep (currentStep st - 1) st.

(** The two checks [onSubmit] makes before it mints anything. *)
Inductive Gate : Type :=
| NotConnected
| VerificationRequired
| InsufficientBalance
| Proceed.

Definition submitGate (connected : bool) (data : TokenFormData) (st : State)
  : Gate * State :=
  if negb connected then (NotConnected, st)
  else
    match verifiedBankAccount st with
    | None => (VerificationRequired, setCurrentStep 3 (toast ToastBankVerificationRequired st))
    | Some bank =>
      if JsNumber.gtb (JsNumber.parseFloat (tokenSupply data)) (availableBalance bank)
      then (InsufficientBalance,
            setCurrentStep 2 (toast (ToastInsufficientBankBalance (availableBalance bank)) st))
      else (Proceed, st)
    end.

(** The body of the [record-mint] request the client sends. *)
Record RecordMintRequest : Type := mkRecordMintRequest {
  reqWalletAddress : string;
  reqTokenAddress : string;
  reqAmount : float;
  reqTransactionId : string;
}.

Inductive Outcome : Type :=
| Returned
| TokenCreated (details : Solana.TokenDetails) (recorded : bool)
| CreationFailed.

Definition message (e : exn) : string :=
  match e with RangeError m | TypeError m | Error m => m end.

(** [onSubmit(data)].  [wallet] is the connected wallet's [signTransaction];
    a signing failure is rethrown as "not approved".  A failed [record-mint]
    request is logged and ignored. *)
Definition onSubmit (connection : Solana.Connection) (publicKey : option PublicKey)
    (wallet : option (Solana.Transaction -> result Solana.Transaction))
    (apiRequest : RecordMintRequest -> result ())
    (data : TokenFormData) (st : State) : Outcome * State :=
  match publicKey, wallet with
  | Some publicKey, Some wallet =>
    match submitGate true data st with
    | (Proceed, st) =>
      let signTransaction transaction :=
        match wallet transaction with
        | Ok signed => Ok signed
        | Throw _ => Throw (Error "Transaction was not approved by the wallet")
        end in
      match Solana.createSPLToken connection publicKey signTransaction data with
      | Ok tokenDetails =>
        let request :=
          mkRecordMintRequest (toString publicKey) (Solana.tokenAddress tokenDetails)
            (JsNumber.parseFloat (tokenSupply data)) (Solana.transactionId tokenDetails) in
        (TokenCreated tokenDetails (is_ok (apiRequest request)), st)
      | Throw e =>
        let text := if String.eqb (message e) "" then
                      "An error occurred while creating your token"
                    else message e in
        (CreationFailed, toast (ToastTokenCreationFailed text) st)
      end
    | (_, st) => (Returned, st)
    end
  | _, _ => (Returned, st)
  end.

(** The [onBankVerified] handler passed to the bank-link step. *)
Definition onBankVerified (bankInfo : BankAccount) (st : State) : State :=
  setCurrentStep 4 (toast (ToastVerificationSuccessful bankInfo) (setVerifiedBankAccount bankInfo st)).

(** The [forceAdvance] handler passed to the bank-link step. *)
Definition forceAdvance (st : State) : State :=
  let st :=
    match verifiedBankAccount st with
    | None => setVerifiedBankAccount fallbackBankAccount st
    | Some _ => st
    end in
  setCurrentStep 4 st.

End Wizard.
End Form.

(** ** The bank-link step ([FixedPlaidIntegration]) *)

Module PlaidLink.
Section Component.
(** The parent's state and the two handlers it passes down as props. *)
Context {S : Type}.
Variable onBankVerified : BankAccount -> S -> result S.
Variable forceAdvance : option (S -> S).

Inductive Request : Type :=
| CreateLinkToken (walletAddress : string)
| ExchangeToken (walletAddress publicToken : string).

(** What [fetch('/api/plaid/create-link-token')] can come back with. *)
Inductive LinkTokenResponse : Type :=
| LinkFetchRejected
| LinkNotOk (status : Z)
| LinkUnparsable
| LinkBody (link_token : string).

(** A balance field of the exchange response as JSON carries it: absent or
    [null], a number, or a string; a value of another kind is read through
    the text [String] makes of it, as a string is. *)
Inductive JsonBalance : Type :=
| BalanceAbsent
| BalanceNumber (x : float)
| BalanceText (s : string).

(** A name field of the exchange response as JSON carries it: absent or
    falsy ([null], [false], [0]), a string, or another truthy value - a
    number, [true], an array, an object - which is given by the text
    [String] makes of it.  That text can be empty: an array is turned into
    the texts of its elements joined by commas, so [[]] gives the empty
    text. *)
Inductive JsonName : Type :=
| NameAbsent
| NameText (s : string)
| NameOther (text : string).

Record ExchangeBankAccount : Type := mkExchangeBankAccount {
  exInstitutionName : JsonName;
  exAccountName : JsonName;
  exAccountMask : JsonName;
  exCurrentBalance : JsonBalance;
  exAvailableBalance : JsonBalance;
}.

(** What [fetch('/api/plaid/exchange-token')] can come back with. *)
Inductive ExchangeResponse : Type :=
| ExchangeFetchRejected
| ExchangeUnparsable
| ExchangeBody (success : bool) (bankAccount : option ExchangeBankAccount).

Record Component : Type := mkComponent {
  token : string;
  loading : bool;
  error : option string;
  fallbackMode : bool;
  success : bool;
}.

Record Page : Type := mkPage {
  parent : S;
  component : Component;
  requests : list Request;
}.

Definition initialComponent : Component := mkComponent "" true None false false.

Definition setToken (t : string) (c : Component) : Component :=
  mkComponent t (loading c) (error c) (fallbackMode c) (success c).
Definition setLoading (b : bool) (c : Component) : Component :=
  mkComponent (token c) b (error c) (fallbackMode c) (success c).
Definition setError (e : option string) (c : Component) : Component :=
  mkComponent (token c) (loading c) e (fallbackMode c) (success c).
Definition setFallbackMode (b : bool) (c : Component) : Component :=
  mkComponent (token c) (loading c) (error c) b (success c).
Definition setSuccess (b : bool) (c : Component) : Component :=
  mkComponent (token c) (loading c) (error c) (fallbackMode c) b.

Definition update (f : Component -> Component) (p : Page) : Page :=
  mkPage (parent p) (f (component p)) (requests p).
Definition send (r : Request) (p : Page) : Page :=
  mkPage (parent p) (component p) (requests p ++ [r]).

(** The mount effect [getLinkToken]. *)
Definition getLinkToken (publicKey : option string) (response : LinkTokenResponse)
    (p : Page) : Page :=
  match publicKey with
  | None =>
    update (setError (Some "Please connect your wallet to continue."))
      (update (setLoading false) p)
  | Some walletAddress =>
    let p := update (setLoading true) p in
    let p := send (CreateLinkToken walletAddress) p in
    let failed :=
      update (setFallbackMode true)
        (update (setError (Some "Could not initialize bank connection. Use fallback method instead.")) p) in
    let p :=
      match response with
      | LinkBody link_token =>
        if String.eqb link_token "" then failed else update (setToken link_token) p
      | _ => failed
      end in
    update (setLoading false) p
  end.

(** [x || 0] on Numbers: NaN and both zeros are falsy. *)
Definition or_zero (x : float) : float :=
  if is_nan x || (x =? PrimFloat.zero)%float then PrimFloat.zero else x.

(** [typeof x === 'number' ? x : parseFloat(String(x || 0)) || 0]. *)
Definition coerceBalance (x : JsonBalance) : float :=
  match x with
  | BalanceNumber x => x
  | BalanceText s => or_zero (JsNumber.parseFloat (or_else s "0"))
  | BalanceAbsent => or_zero (JsNumber.parseFloat "0")
  end.

(** [String(x || fallback)]: the empty string is falsy, every other string
    and every array or object is truthy. *)
Definition coerceName (x : JsonName) (fallback : string) : string :=
  match x with
  | NameAbsent => fallback
  | NameText s => or_else s fallback
  | NameOther text => text
  end.

(** Runs a verified snapshot through [onBankVerified]; if the handler throws
    and [forceAdvance] was given, that runs instead. *)
Definition notify (bankAccount : BankAccount) (p : Page) : Page :=
  match onBankVerified bankAccount (parent p) with
  | Ok s => mkPage s (component p) (requests p)
  | Throw _ =>
    match forceAdvance with
    | Some f => mkPage (f (parent p)) (component p) (requests p)
    | None => p
    end
  end.

(** The Plaid Link [onSuccess] callback [handleSuccess]. *)
Definition handleSuccess (publicKey : option string) (publicToken : string)
    (response : ExchangeResponse) (p : Page) : Page :=
  match publicKey with
  | None => update (setError (Some "Wallet connection required")) p
  | Some walletAddress =>
    let p := update (setLoading true) p in
    let p := send (ExchangeToken walletAddress publicToken) p in
    let failed :=
      update (setLoading false)
        (update (setFallbackMode true)
           (update (setError (Some "Failed to complete verification. Please try the fallback method.")) p)) in
    match response with
    | ExchangeBody true (Some b) =>
      let bankAccount :=
        mkBankAccount
          (coerceName (exInstitutionName b) "Your Bank")
          (coerceName (exAccountName b) "Bank Account")
          (coerceName (exAccountMask b) "0000")
          (coerceBalance (exCurrentBalance b))
          (coerceBalance (exAvailableBalance b)) in
      notify bankAccount (update (setSuccess true) p)
    | _ => failed
    end
  end.

(** The "Use Fallback Method" button, [handleFallbackVerification]: no request
    is made; the fabricated snapshot goes to [onBankVerified]. *)
Definition handleFallbackVerification (p : Page) : Page :=
  let p := update (setLoading true) p in
  let p := update (setSuccess true) p in
  notify fallbackBankAccount p.

(** The "Try Again" button of the plain error screen. *)
Definition tryAgain (publicKey : option string) (response : LinkTokenResponse)
    (p : Page) : Page :=
  let p := update (setLoading true) (update (setError None) p) in
  match publicKey with
  | None => update (setLoading false) (update (setError (Some "Wallet connection required")) p)
  | Some walletAddress =>
    let p := send (CreateLinkToken walletAddress) p in
    let failed :=
      update (setLoading false)
        (update (setFallbackMode true)
           (update (setError (Some "Could not initialize bank connection. Please try again.")) p)) in
    match response with
    | LinkBody link_token =>
      if String.eqb link_token "" then failed
      else update (setLoading false) (update (setToken link_token) p)
    | LinkNotOk _ | LinkFetchRejected | LinkUnparsable => failed
    end
  end.

(** The Plaid Link [onExit] callback. *)
Definition handleExit (err : bool) (p : Page) : Page :=
  let p := update (setLoading false) p in
  if err then update (setError (Some "Connection interrupted. Please try again.")) p
  else p.

(** Which screen the component renders. *)
Inductive View : Type :=
| SuccessView
| LoadingView
| FallbackOffered
| ErrorView
| MainView.

Definition truthy (e : option string) : bool :=
  match e with
  | Some s => negb (String.eqb s "")
  | None => false
  end.

Definition view (c : Component) : View :=
  if success c then SuccessView
  else if loading c then LoadingView
  else if truthy (error c) && fallbackMode c then FallbackOffered
  else if truthy (error c) then ErrorView
  else MainView.

(** The responses after which the component offers the fallback. *)
Definition linkFailed (r : LinkTokenResponse) : bool :=
  match r with
  | LinkBody link_token => String.eqb link_token ""
  | _ => true
  end.

Definition exchangeFailed (r : ExchangeResponse) : bool :=
  match r with
  | ExchangeBody true (Some _) => false
  | _ => true
  end.

End Component.
End PlaidLink.

(** ** The two tables of [shared/schema.ts] *)

Module Schema.

(** A [decimal(12, 2)] value, held in hundredths. *)
Definition numeric : Type := Z.

(** Storing the decimal text of [q] in a [decimal(12, 2)] column: the value is
    rounded to two places, half away from zero, and rejected when the rounded
    value needs more than ten integer digits. *)
Definition round_hundredths (q : Q) : Z :=
  let n := Qnum q * 100 in
  let d := Zpos (Qden q) in
  Z.sgn n * ((2 * Z.abs n + d) / (2 * d)).

Definition to_numeric (q : Q) : result numeric :=
  let c := round_hundredths q in
  if Z.abs c <? 10 ^ 12 then Ok c
  else Throw (Error "numeric field overflow").

Definition to_numeric_opt (q : option Q) : result (option numeric) :=
  match q with
  | Some q => c ← to_numeric q; mret (Some c)
  | None => mret None
  end.

(** The number a stored [numeric] reads back as. *)
Definition numeric_value (c : numeric) : Q := c # 100.

Record PlaidItem : Type := mkPlaidItem {
  id : Z;
  wallet_address : string;
  item_id : string;
  access_token : string;
  institution_id : option string;
  institution_name : option string;
  account_id : option string;
  account_name : option string;
  account_mask : option string;
  current_balance : option numeric;
  available_balance : option numeric;
  last_updated : Z;
  created_at : Z;
}.

Record StablecoinMint : Type := mkStablecoinMint {
  mint_id : Z;
  mint_wallet_address : string;
  plaid_item_id : option Z;
  token_address : string;
  amount_minted : numeric;
  status : string;
  transaction_id : option string;
  mint_created_at : Z;
  completed_at : option Z;
}.

(** The values of an insert into, or an update of, [plaid_items]; balances are
    the texts [toString()] produced, or null. *)
Record PlaidItemValues : Type := mkPlaidItemValues {
  v_wallet_address : string;
  v_item_id : string;
  v_access_token : string;
  v_institution_id : option string;
  v_institution_name : option string;
  v_account_id : option string;
  v_account_name : option string;
  v_account_mask : option string;
  v_current_balance : option Q;
  v_available_balance : option Q;
}.

Record StablecoinMintValues : Type := mkStablecoinMintValues {
  v_mint_wallet_address : string;
  v_plaid_item_id : option Z;
  v_token_address : string;
  v_amount_minted : Q;
  v_status : string;
  v_transaction_id : option string;
  v_completed_at : option Z;
}.

Record Database : Type := mkDatabase {
  plaid_items : list PlaidItem;
  plaid_items_id_seq : Z;
  stablecoin_mints : list StablecoinMint;
  stablecoin_mints_id_seq : Z;
}.

Definition empty : Database := mkDatabase [] 1 [] 1.

(** The unique indexes of [plaid_items]: [item_id] and [wallet_address]. *)
Definition unique_ok (rows : list PlaidItem) : bool :=
  bool_decide (NoDup (map item_id rows)) && bool_decide (NoDup (map wallet_address rows)).

(** [db.select().from(plaidItems).where(eq(wallet_address, w)).limit(1)]. *)
Definition selectPlaidItem (db : Database) (w : string) : list PlaidItem :=
  take 1 (filter (fun r => wallet_address r = w) (plaid_items db)).

(** [db.insert(plaidItems).values(v)] at time [now].  The serial id is the
    next unused one; that Postgres leaves a gap in the sequence after a
    rejected insert is not modelled, the ids serving only as keys. *)
Definition insertPlaidItem (now : Z) (v : PlaidItemValues) (db : Database)
  : result Database :=
  current ← to_numeric_opt (v_current_balance v);
  available ← to_numeric_opt (v_available_balance v);
  let row :=
    mkPlaidItem (plaid_items_id_seq db) (v_wallet_address v) (v_item_id v)
      (v_access_token v) (v_institution_id v) (v_institution_name v) (v_account_id v)
      (v_account_name v) (v_account_mask v) current available now now in
  let rows := plaid_items db ++ [row] in
  if unique_ok rows
  then mret (mkDatabase rows (plaid_items_id_seq db + 1)
               (stablecoin_mints db) (stablecoin_mints_id_seq db))
  else Throw (Error "duplicate key value violates unique constraint").

Definition setPlaidItem (v : PlaidItemValues) (current available : option numeric)
    (r : PlaidItem) : PlaidItem :=
  mkPlaidItem (id r) (v_wallet_address v) (v_item_id v) (v_access_token v)
    (v_institution_id v) (v_institution_name v) (v_account_id v) (v_account_name v)
    (v_account_mask v) current available (last_updated r) (created_at r).

(** [db.update(plaidItems).set(v).where(eq(id, i))]. *)
Definition updatePlaidItem (i : Z) (v : PlaidItemValues) (db : Database)
  : result Database :=
  current ← to_numeric_opt (v_current_balance v);
  available ← to_numeric_opt (v_available_balance v);
  let rows :=
    map (fun r => if bool_decide (id r = i) then setPlaidItem v current available r else r)
      (plaid_items db) in
  if unique_ok rows
  then mret (mkDatabase rows (plaid_items_id_seq db)
               (stablecoin_mints db) (stablecoin_mints_id_seq db))
  else Throw (Error "duplicate key value violates unique constraint").

(** [db.update(plaidItems).set({current_balance, available_balance,
    last_updated}).where(eq(id, i))]. *)
Definition updateBalances (i : Z) (current available : option Q) (now : Z)
    (db : Database) : result Database :=
  current ← to_numeric_opt current;
  available ← to_numeric_opt available;
  let rows :=
    map (fun r =>
           if bool_decide (id r = i)
           then mkPlaidItem (id r) (wallet_address r) (item_id r) (access_token r)
                  (institution_id r) (institution_name r) (account_id r) (account_name r)
                  (account_mask r) current available now (created_at r)
           else r)
      (plaid_items db) in
  mret (mkDatabase rows (plaid_items_id_seq db)
          (stablecoin_mints db) (stablecoin_mints_id_seq db)).

(** [db.insert(stablecoinMints).values(v)] at time [now]; the foreign key must
    name a row of [plaid_items]. *)
Definition insertStablecoinMint (now : Z) (v : StablecoinMintValues) (db : Database)
  : result Database :=
  amount ← to_numeric (v_amount_minted v);
  let references_ok :=
    match v_plaid_item_id v with
    | Some i => bool_decide (i ∈ map id (plaid_items db))
    | None => true
    end in
  if references_ok then
    let row :=
      mkStablecoinMint (stablecoin_mints_id_seq db) (v_mint_wallet_address v)
        (v_plaid_item_id v) (v_token_address v) amount (v_status v)
        (v_transaction_id v) now (v_completed_at v) in
    mret (mkDatabase (plaid_items db) (plaid_items_id_seq db)
            (stablecoin_mints db ++ [row]) (stablecoin_mints_id_seq db + 1))
  else Throw (Error "insert violates foreign key constraint").

(** Insertion into a list ordered by [mint_created_at], after equal keys. *)
Fixpoint insert_by_created_at (r : StablecoinMint) (l : list StablecoinMint)
  : list StablecoinMint :=
  match l with
  | [] => [r]
  | x :: l' =>
    if mint_created_at r <? mint_created_at x then r :: l
    else x :: insert_by_created_at r l'
  end.

Definition orderBy_created_at (l : list StablecoinMint) : list StablecoinMint :=
  foldr insert_by_created_at [] (rev l).

(** [db.select().from(stablecoinMints).where(eq(wallet_address, w))
    .orderBy(created_at)]. *)
Definition selectMints (db : Database) (w : string) : list StablecoinMint :=
  orderBy_created_at (filter (fun r => mint_wallet_address r = w) (stablecoin_mints db)).

End Schema.

(** ** The bank-link service ([server/plaidService.ts]) *)

Module PlaidService.
Import Schema.

Record Balances : Type := mkBalances {
  current : option Q;
  available : option Q;
}.

Record Account : Type := mkAccount {
  acc_account_id : string;
  acc_name : string;
  acc_mask : option string;
  acc_type : string;
  acc_subtype : option string;
  acc_balances : Balances;
}.

(** The aggregator as one call of the service sees it. *)
Record PlaidApi : Type := mkPlaidApi {
  itemPublicTokenExchange : string -> result (string * string);
  itemGet : string -> result (option string);
  institutionsGetById : string -> result string;
  accountsGet : string -> result (list Account);
  accountsBalanceGet : string -> list string -> result (list Account);
}.

(** Truthiness of a nullable number, of a nullable string and of a string. *)
Definition truthy (x : option Q) : bool :=
  match x with
  | Some q => negb (Qnum q =? 0)
  | None => false
  end.

Definition truthy_string (s : string) : bool := negb (String.eqb s "").

Definition truthy_opt_string (s : option string) : bool :=
  match s with
  | Some s => truthy_string s
  | None => false
  end.

Definition nonfalsy (s : string) : option string :=
  if truthy_string s then Some s else None.

(** [current ? current.toString() : null]. *)
Definition currentBalanceColumn (b : Balances) : option Q :=
  if truthy (current b) then current b else None.

(** [available ? available.toString()
               : (current ? current.toString() : null)]. *)
Definition availableBalanceColumn (b : Balances) : option Q :=
  if truthy (available b) then available b
  else if truthy (current b) then current b else None.

Definition isCheckingOrSavings (acc : Account) : bool :=
  String.eqb (acc_type acc) "depository"
  && (bool_decide (acc_subtype acc = Some "checking")
      || bool_decide (acc_subtype acc = Some "savings")).

(** [accounts.find(...) || accounts[0]]. *)
Definition pickAccount (accounts : list Account) : option Account :=
  match find isCheckingOrSavings accounts with
  | Some acc => Some acc
  | None => head accounts
  end.

Definition firstBalances (accounts : list Account) : result Balances :=
  match accounts with
  | acc :: _ => Ok (acc_balances acc)
  | [] => Throw (Error "Cannot read properties of undefined (reading 'balances')")
  end.

Record ExchangeResult : Type := mkExchangeResult {
  itemId : string;
  accessToken : string;
  res_institutionName : string;
  res_accountName : string;
  res_accountMask : string;
  res_currentBalance : Q;
  res_availableBalance : Q;
}.

(** Lines 339-352: update the wallet's row if there is one, insert otherwise. *)
Definition storePlaidItem (now : Z) (plaidItem : PlaidItemValues) (db : Database)
  : result Database :=
  match selectPlaidItem db (v_wallet_address plaidItem) with
  | existingItem :: _ => updatePlaidItem (id existingItem) plaidItem db
  | [] => insertPlaidItem now plaidItem db
  end.

(** The row values [exchangePublicToken] assembles. *)
Definition plaidItemOf (walletAddress itemId accessToken : string)
    (institutionId : option string) (institutionName : string) (account : Account)
    (accountBalance : Balances) : PlaidItemValues :=
  mkPlaidItemValues walletAddress itemId accessToken
    (if truthy_opt_string institutionId then institutionId else None)
    (nonfalsy institutionName)
    (Some (acc_account_id account)) (Some (acc_name account)) (acc_mask account)
    (currentBalanceColumn accountBalance)
    (availableBalanceColumn accountBalance).

(** Everything [exchangePublicToken] learns from the aggregator before it
    touches the database; any failure here is rethrown. *)
Definition fetchLinkedAccount (plaid : PlaidApi) (publicToken : string)
  : result (string * string * option string * string * Account * Balances) :=
  '(accessToken, itemId) ← itemPublicTokenExchange plaid publicToken;
  institutionId ← itemGet plaid accessToken;
  let institutionName :=
    match institutionId with
    | Some i =>
      if truthy_string i then
        match institutionsGetById plaid i with
        | Ok name => name
        | Throw _ => "Sandbox Bank"
        end
      else "Sandbox Bank"
    | None => "Sandbox Bank"
    end in
  accounts ← accountsGet plaid accessToken;
  match pickAccount accounts with
  | None => Throw (Error "No suitable account found")
  | Some account =>
    balanceAccounts ← accountsBalanceGet plaid accessToken [acc_account_id account];
    accountBalance ← firstBalances balanceAccounts;
    mret (accessToken, itemId, institutionId, institutionName, account, accountBalance)
  end.

(** [exchangePublicToken(publicToken, walletAddress)]: a database error while
    storing the item is logged and the call goes on to return the snapshot. *)
Definition exchangePublicToken (plaid : PlaidApi) (now : Z)
    (publicToken walletAddress : string) (db : Database)
  : result ExchangeResult * Database :=
  match fetchLinkedAccount plaid publicToken with
  | Throw e => (Throw e, db)
  | Ok (accessToken, itemId, institutionId, institutionName, account, accountBalance) =>
    let plaidItem :=
      plaidItemOf walletAddress itemId accessToken institutionId institutionName
        account accountBalance in
    let db :=
      match storePlaidItem now plaidItem db with
      | Ok db' => db'
      | Throw _ => db
      end in
    let currentBalance := default (1000 # 1) (current accountBalance) in
    let availableBalance :=
      match available accountBalance with
      | Some a => a
      | None => default (1000 # 1) (current accountBalance)
      end in
    (Ok (mkExchangeResult itemId accessToken
           (or_else institutionName "Your Bank")
           (or_else (acc_name account) "Bank Account")
           (or_else (default "" (acc_mask account)) "0000")
           currentBalance availableBalance),
     db)
  end.

Record AccountInfo : Type := mkAccountInfo {
  info_institutionName : option string;
  info_accountName : option string;
  info_accountMask : option string;
  info_currentBalance : option Q;
  info_availableBalance : option Q;
}.

(** [getBankAccountInfo(walletAddress)]; [Ok None] is the [null] it returns
    for a wallet without a row.  A failed balance write is logged and ignored;
    anything else thrown after the lookup is rethrown as a database error. *)
Definition getBankAccountInfo (plaid : PlaidApi) (now : Z) (walletAddress : string)
    (db : Database) : result (option AccountInfo) * Database :=
  match selectPlaidItem db walletAddress with
  | [] => (Ok None, db)
  | item :: _ =>
    match
      balanceAccounts ← accountsBalanceGet plaid (access_token item)
                          [default "" (account_id item)];
      firstBalances balanceAccounts
    with
    | Throw _ =>
      (Throw (Error "Database error: Unable to access bank account information"), db)
    | Ok accountBalance =>
      let db :=
        match updateBalances (id item) (currentBalanceColumn accountBalance)
                (availableBalanceColumn accountBalance) now db with
        | Ok db' => db'
        | Throw _ => db
        end in
      (Ok (Some (mkAccountInfo (institution_name item) (account_name item)
                   (account_mask item) (current accountBalance)
                   (if truthy (available accountBalance)
                    then available accountBalance else current accountBalance))),
       db)
    end
  end.

(** [recordStablecoinMint(walletAddress, tokenAddress, amount, status,
    transactionId)]. *)
Definition recordStablecoinMint (now : Z) (walletAddress tokenAddress : string)
    (amount : Q) (status : string) (transactionId : option string) (db : Database)
  : result Database :=
  match selectPlaidItem db walletAddress with
  | [] => Throw (Error "No Plaid item found for wallet address")
  | plaidItem :: _ =>
    insertStablecoinMint now
      (mkStablecoinMintValues walletAddress (Some (id plaidItem)) tokenAddress amount
         status
         (if truthy_opt_string transactionId then transactionId else None)
         (if String.eqb status "completed" then Some now else None))
      db
  end.

End PlaidService.

(** ** The HTTP routes ([server/routes.ts]) *)

Module Routes.
Import Schema PlaidService.

(** A field of a request body as [JSON.parse] delivers it. *)
Inductive Json : Type :=
| JUndefined
| JNull
| JBool (b : bool)
| JNumber (q : Q)
| JString (s : string)
| JOther.

Record Body : Type := mkBody {
  walletAddress : Json;
  publicToken : Json;
  tokenAddress : Json;
  amount : Json;
  transactionId : Json;
}.

Inductive Payload : Type :=
| InvalidRequestBody
| ErrorMessage (error : string)
| BankAccountPayload (bankAccount : AccountInfo)
| ExchangePayload (institutionName accountName accountMask : string)
    (currentBalance availableBalance : Q)
| SuccessPayload
| HistoryPayload (history : list StablecoinMint).

Record Response : Type := mkResponse {
  statusCode : Z;
  payload : Payload;
}.

(** [z.string().min(32).max(44)]. *)
Definition addressField (j : Json) : option string :=
  match j with
  | JString s =>
    if (32 <=? TokenUtils.length s) && (TokenUtils.length s <=? 44) then Some s else None
  | _ => None
  end.

(** [z.string()]. *)
Definition stringField (j : Json) : option string :=
  match j with JString s => Some s | _ => None end.

(** [z.number().positive()]. *)
Definition positiveField (j : Json) : option Q :=
  match j with
  | JNumber q => if 0 <? Qnum q then Some q else None
  | _ => None
  end.

(** [z.string().optional()]; the outer option is the verdict. *)
Definition optionalStringField (j : Json) : option (option string) :=
  match j with
  | JUndefined => Some None
  | JString s => Some (Some s)
  | _ => None
  end.

Definition walletAddressSchema (b : Body) : option string :=
  addressField (walletAddress b).

Definition exchangeTokenSchema (b : Body) : option (string * string) :=
  w ← addressField (walletAddress b);
  t ← stringField (publicToken b);
  mret (w, t).

Definition mintStablecoinSchema (b : Body)
  : option (string * string * Q * option string) :=
  w ← addressField (walletAddress b);
  t ← addressField (tokenAddress b);
  a ← positiveField (amount b);
  i ← optionalStringField (transactionId b);
  mret (w, t, a, i).

Definition invalid : Response := mkResponse 400 InvalidRequestBody.

(** [POST /api/plaid/exchange-token]. *)
Definition exchangeToken (plaid : PlaidApi) (now : Z) (body : Body) (db : Database)
  : Response * Database :=
  match exchangeTokenSchema body with
  | None => (invalid, db)
  | Some (walletAddress, publicToken) =>
    match exchangePublicToken plaid now publicToken walletAddress db with
    | (Ok result, db') =>
      (mkResponse 200
         (ExchangePayload
            (or_else (res_institutionName result) "Your Bank")
            (or_else (res_accountName result) "Bank Account")
            (or_else (res_accountMask result) "0000")
            (res_currentBalance result) (res_availableBalance result)),
       db')
    | (Throw _, db') => (mkResponse 500 (ErrorMessage "Failed to exchange token"), db')
    end
  end.

(** [POST /api/plaid/account-info]. *)
Definition accountInfo (plaid : PlaidApi) (now : Z) (body : Body) (db : Database)
  : Response * Database :=
  match walletAddressSchema body with
  | None => (invalid, db)
  | Some walletAddress =>
    match getBankAccountInfo plaid now walletAddress db with
    | (Ok None, db') =>
      (mkResponse 404 (ErrorMessage "No linked bank account found"), db')
    | (Ok (Some info), db') => (mkResponse 200 (BankAccountPayload info), db')
    | (Throw _, db') =>
      (mkResponse 500 (ErrorMessage "Failed to get account information"), db')
    end
  end.

(** [POST /api/plaid/record-mint]. *)
Definition recordMint (now : Z) (body : Body) (db : Database) : Response * Database :=
  match mintStablecoinSchema body with
  | None => (invalid, db)
  | Some (walletAddress, tokenAddress, amount, transactionId) =>
    match recordStablecoinMint now walletAddress tokenAddress amount "completed"
            transactionId db with
    | Ok db' => (mkResponse 200 SuccessPayload, db')
    | Throw _ => (mkResponse 500 (ErrorMessage "Failed to record stablecoin mint"), db)
    end
  end.

(** [POST /api/plaid/mint-history]. *)
Definition mintHistory (body : Body) (db : Database) : Response :=
  match walletAddressSchema body with
  | None => invalid
  | Some walletAddress => mkResponse 200 (HistoryPayload (selectMints db walletAddress))
  end.

End Routes.

(** ** The bank-link step as the wizard mounts it

    [TokenCreationForm] renders [FixedPlaidIntegration] at step 3 and passes
    its own [onBankVerified] and [forceAdvance] down. *)

Module BankStep.

Definition Page : Type := PlaidLink.Page (S := Form.State).

Definition onBankVerified (bankInfo : BankAccount) (st : Form.State)
  : result Form.State :=
  Ok (Form.onBankVerified bankInfo st).

Definition forceAdvance : option (Form.State -> Form.State) := Some Form.forceAdvance.

Definition mount (st : Form.State) : Page :=
  PlaidLink.mkPage st PlaidLink.initialComponent [].

Definition handleSuccess (publicKey : option string) (publicToken : string)
    (response : PlaidLink.ExchangeResponse) (p : Page) : Page :=
  PlaidLink.handleSuccess onBankVerified forceAdvance publicKey publicToken response p.

Definition handleFallbackVerification (p : Page) : Page :=
  PlaidLink.handleFallbackVerification onBankVerified forceAdvance p.

End BankStep.

(** ** Sequences of link calls

    A call of [exchangePublicToken] together with the aggregator it talks to
    and the time it runs at. *)

Module Links.
Import Schema PlaidService.

Record Call : Type := mkCall {
  call_plaid : PlaidApi;
  call_now : Z;
  call_publicToken : string;
  call_walletAddress : string;
}.

Definition run (c : Call) (db : Database) : result ExchangeResult * Database :=
  exchangePublicToken (call_plaid c) (call_now c) (call_publicToken c)
    (call_walletAddress c) db.

Definition runAll (calls : list Call) (db : Database) : Database :=
  foldl (fun db c => snd (run c db)) db calls.

(** The row values a call assembles, when the aggregator answered. *)
Definition values (c : Call) : option PlaidItemValues :=
  match fetchLinkedAccount (call_plaid c) (call_publicToken c) with
  | Ok (accessToken, itemId, institutionId, institutionName, account, accountBalance) =>
    Some (plaidItemOf (call_walletAddress c) itemId accessToken institutionId
            institutionName account accountBalance)
  | Throw _ => None
  end.

(** The values of the call, when the database accepted its write. *)
Definition accepted (c : Call) (db : Database) : option PlaidItemValues :=
  match values c with
  | Some v => if is_ok (storePlaidItem (call_now c) v db) then Some v else None
  | None => None
  end.

(** Per wallet, the values of the most recent call whose write was accepted. *)
Fixpoint lastAccepted (calls : list Call) (db : Database)
    (m : gmap string PlaidItemValues) : gmap string PlaidItemValues :=
  match calls with
  | [] => m
  | c :: calls' =>
    lastAccepted calls' (snd (run c db))
      (match accepted c db with
       | Some v => <[call_walletAddress c := v]> m
       | None => m
       end)
  end.

(** The rows of a wallet. *)
Definition rowsOf (w : string) (db : Database) : list PlaidItem :=
  filter (fun r => wallet_address r = w) (plaid_items db).

(** A row holds the values [v]: every column [exchangePublicToken] sets, with
    the balances as the [decimal(12, 2)] columns store them. *)
Definition holds (r : PlaidItem) (v : PlaidItemValues) : Prop :=
  wallet_address r = v_wallet_address v /\
  item_id r = v_item_id v /\
  access_token r = v_access_token v /\
  institution_id r = v_institution_id v /\
  institution_name r = v_institution_name v /\
  account_id r = v_account_id v /\
  account_name r = v_account_name v /\
  account_mask r = v_account_mask v /\
  to_numeric_opt (v_current_balance v) = Ok (current_balance r) /\
  to_numeric_opt (v_available_balance v) = Ok (available_balance r).

(** What the table guarantees between calls: the unique index on
    [wallet_address], and serial ids below the sequence. *)
Definition consistent (db : Database) : Prop :=
  NoDup (map wallet_address (plaid_items db)) /\
  NoDup (map id (plaid_items db)) /\
  forall r, r ∈ plaid_items db -> id r < plaid_items_id_seq db.

(** The table tracks a map from wallets to row values. *)
Definition tracks (db : Database) (m : gmap string PlaidItemValues) : Prop :=
  forall w,
    match m !! w with
    | Some v => exists r, rowsOf w db = [r] /\ holds r v
    | None => rowsOf w db = []
    end.

End Links.

(** ** A stand-in for [@solana/web3.js], used to run the pipeline

    Keys are their own text, 32 to 44 characters long; the constructor accepts
    exactly the texts of that length (the library's decodes base58 and asks
    for 32 bytes; the runs below use no text on which the two differ). *)

Module Demo.

Definition wellformed (s : string) : Prop :=
  Is_true (Nat.leb 32 (String.length s) && Nat.leb (String.length s) 44).

Definition Key : Type := dsig wellformed.

Definition parse (s : string) : result Key :=
  match decide (wellformed s) with
  | left H => Ok (dexist s H)
  | right _ => Throw (Error "Invalid public key input")
  end.

Lemma parse_text (k : Key) : parse (`k) = Ok k.
Proof.
  unfold parse. destruct (decide (wellformed (`k))) as [H | H].
  - f_equal. now apply dsig_eq.
  - destruct H. apply (proj2_dsig k).
Qed.

Definition tokenProgram : Key :=
  dexist "TokenkegQfeZyiNwAJbNbGKPFXCWuBvf9Ss623VQ5DA" I.

Definition web3 : Web3 :=
  {| PublicKey := Key;
     toString := fun k => `k;
     newPublicKey := parse;
     newPublicKey_toString := parse_text;
     TOKEN_PROGRAM_ID := tokenProgram |}.

Definition payer : Key := dexist "7xKXtg2CW87d97TXJSDpbD5jBkheTqA83TZRuJosgAsU" I.
Definition recipient : Key := dexist "9WzDXwBbmkg8ZTbNMqUxvQRAyrZzDsGYdLVL9zYtAWWM" I.
Definition mint : Key := dexist "So11111111111111111111111111111111111111112" I.
Definition holding : Key := dexist "4Nd1mBQtrMJVYVfKf2PJy9NZUZdTAsp7D4xWLs4gDB4T" I.

(** A network on which every call succeeds. *)
Definition connection : @Solana.Connection web3 :=
  @Solana.mkConnection web3 mint (Ok 1461600) (fun _ _ => Ok holding)
    (Ok ("EkSnNWid2cvwEVnVx9aBqawnmiCNiDgp3gUdkDPTKN1N", 1000))
    (fun _ => Ok "5VERv8NMvzbJMEkV8xnrLkEaWRtSz9CosKDYjCJjBRnbJLgp8uirBgmQpjKhoR4tjF3ZpRzrFmBV6UjKdiSZkQUW")
    (fun _ _ _ => Ok None).

Definition formData : TokenFormData :=
  mkTokenFormData "Munin Dollar" "MUSD" None "5000" "6" transfer
    "9WzDXwBbmkg8ZTbNMqUxvQRAyrZzDsGYdLVL9zYtAWWM" true.

(** A supply within the fallback balance, at the largest precision the
    wizard offers. *)
Definition overflowing : TokenFormData :=
  mkTokenFormData "Munin Dollar" "MUSD" None "5000" "18" keep "" false.

(** The transaction the pipeline builds from [formData] on [connection]. *)
Definition transaction : @Solana.Transaction web3 :=
  @Solana.mkTransaction web3
    [ @Solana.CreateAccount web3 payer mint 82 1461600 tokenProgram;
      @Solana.InitializeMint web3 mint 6 payer (Some payer);
      @Solana.CreateAssociatedTokenAccount web3 payer holding recipient mint;
      @Solana.MintTo web3 mint holding payer 5000000000;
      @Solana.SetAuthority web3 mint payer (@Solana.MintTokens) (Some recipient) ]
    None None [].

(** The wizard at the review step, after a balance of 500.00 was verified,
    submitting a supply on a wallet that signs everything and a server that
    records the mint. *)
Definition verified : Form.State :=
  Form.onBankVerified
    (mkBankAccount "First Platypus Bank" "Plaid Checking" "0000"
       (JsNumber.of_Z 500) (JsNumber.of_Z 500))
    (Form.setCurrentStep 3 Form.initialState).

Definition submit (supply : string) : Form.Outcome * Form.State :=
  @Form.onSubmit web3 connection (Some payer) (Some (fun t => Ok t))
    (fun _ => Ok ())
    (mkTokenFormData "Munin Dollar" "MUSD" None supply "6" keep "" false)
    (Form.setCurrentStep 5 verified).

End Demo.

(** ** A sandbox aggregator, used to run the service *)

Module Sandbox.
Import Schema PlaidService.

Definition checking (balances : Balances) : Account :=
  mkAccount "acc-checking-0000" "Plaid Checking" (Some "0000") "depository"
    (Some "checking") balances.

(** An aggregator with one checking account whose balances are [balances] and
    whose exchanges all yield the item [itemId]. *)
Definition plaid (itemId : string) (balances : Balances) : PlaidApi :=
  mkPlaidApi
    (fun _ => Ok (String.append "access-sandbox-" itemId, itemId))
    (fun _ => Ok (Some "ins_109508"))
    (fun _ => Ok "First Platypus Bank")
    (fun _ => Ok [checking balances])
    (fun _ _ => Ok [checking balances]).

Definition wallet : string := "7xKXtg2CW87d97TXJSDpbD5jBkheTqA83TZRuJosgAsU".
Definition otherWallet : string := "9WzDXwBbmkg8ZTbNMqUxvQRAyrZzDsGYdLVL9zYtAWWM".
Definition tokenMint : string := "So11111111111111111111111111111111111111112".
Definition signature : string :=
  "5VERv8NMvzbJMEkV8xnrLkEaWRtSz9CosKDYjCJjBRnbJLgp8uirBgmQpjKhoR4tjF3ZpRzrFmBV6UjKdiSZkQUW".

Definition link (itemId : string) (balances : Balances) (now : Z) (w : string)
  : Links.Call :=
  Links.mkCall (plaid itemId balances) now "public-sandbox-token" w.

(** The database after [wallet] linked an account holding 500.00. *)
Definition linked : Database :=
  Links.runAll [link "item-1" (mkBalances (Some (500 # 1)) (Some (500 # 1))) 1 wallet] empty.

Definition walletBody (w : string) : Routes.Body :=
  Routes.mkBody (Routes.JString w) Routes.JUndefined Routes.JUndefined
    Routes.JUndefined Routes.JUndefined.

Definition mintBody (w : string) (amount : Q) : Routes.Body :=
  Routes.mkBody (Routes.JString w) Routes.JUndefined (Routes.JString tokenMint)
    (Routes.JNumber amount) (Routes.JString signature).

End Sandbox.

(** ** More on numeric literals *)

(** The characters at which the scan of a decimal literal always stops: no
    digit, sign, point or exponent mark, and no letter of [Infinity]. *)
Definition inert (c : ascii) : bool :=
  negb (existsb (Ascii.eqb c) (list_ascii_of_string "0123456789+-.eEInfinity")).

(** Case analysis on a character [c] constrained by a boolean test [H]: the
    characters that fail the test are discarded. *)
Ltac by_cases_on c H :=
  revert H; destruct c as [[] [] [] [] [] [] [] []];
  intros H; try discriminate H.

(** A text [Number] reads as a hexadecimal, octal or binary literal. *)
Definition radixPrefixed (s : string) : bool :=
  match JsNumber.trim_end (JsNumber.trim_start (list_ascii_of_string s)) with
  | "0"%char :: x :: _ =>
    existsb (Ascii.eqb x) (list_ascii_of_string "xXoObB")
  | _ => false
  end.

(** ** More of the wizard *)

(** [setValue("tokenSupply", value)] (lines 610 and 616 of the form): the
    form data with another supply text. *)
Definition setTokenSupply (value : string) (d : TokenFormData) : TokenFormData :=
  mkTokenFormData (tokenName d) (tokenSymbol d) (tokenDescription d) value
    (tokenDecimals d) (mintAuthority d) (recipientAddress d) (freezeAuthority d).

(** ** The demo run's token *)

Module DemoToken.

Definition sign (t : @Solana.Transaction Demo.web3) : result (@Solana.Transaction Demo.web3) :=
  Ok t.

(** The details [createSPLToken] returns for [Demo.formData] on
    [Demo.connection] with a wallet that signs. *)
Definition details : @Solana.TokenDetails :=
  Solana.mkTokenDetails
    "So11111111111111111111111111111111111111112"
    "9WzDXwBbmkg8ZTbNMqUxvQRAyrZzDsGYdLVL9zYtAWWM"
    (Some "7xKXtg2CW87d97TXJSDpbD5jBkheTqA83TZRuJosgAsU")
    "5000" (JsNumber.of_Z 6)
    "5VERv8NMvzbJMEkV8xnrLkEaWRtSz9CosKDYjCJjBRnbJLgp8uirBgmQpjKhoR4tjF3ZpRzrFmBV6UjKdiSZkQUW".

End DemoToken.

(** ** The wizard under its handlers *)

Module Wizard.
Section Events.
Context `{W : Web3}.

(** What can happen to the mounted form: the two navigation buttons (with
    the form data watched at that moment), a submission, and the two
    callbacks handed to the bank-link step. *)
Inductive Event : Type :=
| ClickNext (formData : TokenFormData)
| ClickPrev
| SubmitForm (connection : Solana.Connection) (publicKey : option PublicKey)
    (wallet : option (Solana.Transaction -> result Solana.Transaction))
    (apiRequest : Form.RecordMintRequest -> result ()) (data : TokenFormData)
| BankVerified (bankInfo : BankAccount)
| ForceAdvance.

Definition handle (st : Form.State) (e : Event) : Form.State :=
  match e with
  | ClickNext formData => Form.nextStep formData st
  | ClickPrev => Form.prevStep st
  | SubmitForm connection publicKey wallet apiRequest data =>
    snd (Form.onSubmit connection publicKey wallet apiRequest data st)
  | BankVerified bankInfo => Form.onBankVerified bankInfo st
  | ForceAdvance => Form.forceAdvance st
  end.

Definition run (events : list Event) (st : Form.State) : Form.State :=
  foldl handle st events.

Definition isBankVerified (e : Event) : bool :=
  match e with BankVerified _ => true | _ => false end.

End Events.
End Wizard.

(** ** The bank-link step under its callbacks *)

Module LinkEvents.
Section Events.
Context {S : Type}.
Variable onBankVerified : BankAccount -> S -> result S.
Variable forceAdvance : option (S -> S).

(** What can happen to the mounted component: the mount effect with the
    answer to its request, the two Plaid Link callbacks, and the two buttons
    of the error screens. *)
Inductive Event : Type :=
| Mounted (publicKey : option string) (response : PlaidLink.LinkTokenResponse)
| LinkSucceeded (publicKey : option string) (publicToken : string)
    (response : PlaidLink.ExchangeResponse)
| LinkExited (err : bool)
| UseFallback
| TryAgain (publicKey : option string) (response : PlaidLink.LinkTokenResponse).

Definition handle (p : PlaidLink.Page (S := S)) (e : Event) : PlaidLink.Page (S := S) :=
  match e with
  | Mounted publicKey response => PlaidLink.getLinkToken publicKey response p
  | LinkSucceeded publicKey publicToken response =>
    PlaidLink.handleSuccess onBankVerified forceAdvance publicKey publicToken response p
  | LinkExited err => PlaidLink.handleExit err p
  | UseFallback => PlaidLink.handleFallbackVerification onBankVerified forceAdvance p
  | TryAgain publicKey response => PlaidLink.tryAgain publicKey response p
  end.

Definition run (events : list Event) (p : PlaidLink.Page (S := S)) : PlaidLink.Page (S := S) :=
  foldl handle p events.

(** The events whose request failed. *)
Definition failed (e : Event) : bool :=
  match e with
  | Mounted (Some _) response | TryAgain (Some _) response => PlaidLink.linkFailed response
  | LinkSucceeded (Some _) _ response => PlaidLink.exchangeFailed response
  | _ => false
  end.

(** The request an event sends, if any. *)
Definition request (e : Event) : option PlaidLink.Request :=
  match e with
  | Mounted (Some walletAddress) _ | TryAgain (Some walletAddress) _ =>
    Some (PlaidLink.CreateLinkToken walletAddress)
  | LinkSucceeded (Some walletAddress) publicToken _ =>
    Some (PlaidLink.ExchangeToken walletAddress publicToken)
  | _ => None
  end.

(** A balance as [JSON.parse] can yield it: a JSON number is never NaN. *)
Definition parsedBalance (j : PlaidLink.JsonBalance) : bool :=
  match j with
  | PlaidLink.BalanceNumber x => negb (is_nan x)
  | _ => true
  end.

Definition parsed (e : Event) : bool :=
  match e with
  | LinkSucceeded _ _ (PlaidLink.ExchangeBody _ (Some b)) =>
    parsedBalance (PlaidLink.exCurrentBalance b)
    && parsedBalance (PlaidLink.exAvailableBalance b)
  | _ => true
  end.

(** A name as the exchange route sends it: a string, or nothing. *)
Definition textualName (j : PlaidLink.JsonName) : bool :=
  match j with
  | PlaidLink.NameOther _ => false
  | _ => true
  end.

Definition textual (e : Event) : bool :=
  match e with
  | LinkSucceeded _ _ (PlaidLink.ExchangeBody _ (Some b)) =>
    textualName (PlaidLink.exInstitutionName b)
    && textualName (PlaidLink.exAccountName b)
    && textualName (PlaidLink.exAccountMask b)
  | _ => true
  end.

End Events.
End LinkEvents.

(** A snapshot the wizard can compare a supply against: texts to show and
    balances that are numbers. *)
Definition wellFormed (b : BankAccount) : Prop :=
  institutionName b <> "" /\ accountName b <> "" /\ accountMask b <> ""
  /\ is_nan (currentBalance b) = false /\ is_nan (availableBalance b) = false.

(** ** The server under its routes *)

Module Server.
Import Schema PlaidService Routes.

(** A request to one of the four bank routes, with the aggregator that
    answers during it and the time it is served at. *)
Inductive Request : Type :=
| PostExchangeToken (plaid : PlaidApi) (now : Z) (body : Body)
| PostAccountInfo (plaid : PlaidApi) (now : Z) (body : Body)
| PostRecordMint (now : Z) (body : Body)
| PostMintHistory (body : Body).

Definition handle (db : Database) (r : Request) : Response * Database :=
  match r with
  | PostExchangeToken plaid now body => exchangeToken plaid now body db
  | PostAccountInfo plaid now body => accountInfo plaid now body db
  | PostRecordMint now body => recordMint now body db
  | PostMintHistory body => (mintHistory body db, db)
  end.

Definition serve (requests : list Request) (db : Database) : Database :=
  foldl (fun db r => snd (handle db r)) db requests.

(** What the two tables satisfy between requests: the unique indexes and
    serial ids of [plaid_items]; every mint record references a link row of
    its own wallet, is completed with a completion time, and holds a
    non-negative amount that fits the column. *)
Record sound (db : Database) : Prop := mkSound {
  sound_wallets : NoDup (map wallet_address (plaid_items db));
  sound_items : NoDup (map item_id (plaid_items db));
  sound_ids : NoDup (map id (plaid_items db));
  sound_seq : forall r, r ∈ plaid_items db -> id r < plaid_items_id_seq db;
  sound_mint_ids : NoDup (map mint_id (stablecoin_mints db));
  sound_mint_seq : forall m, m ∈ stablecoin_mints db -> mint_id m < stablecoin_mints_id_seq db;
  sound_references :
    forall m, m ∈ stablecoin_mints db ->
      exists r, r ∈ plaid_items db /\ plaid_item_id m = Some (id r)
                /\ wallet_address r = mint_wallet_address m;
  sound_completed :
    forall m, m ∈ stablecoin_mints db ->
      status m = "completed" /\ is_Some (completed_at m)
      /\ 0 <= amount_minted m < 10 ^ 12;
}.

End Server.

(** Two link rows that differ at most in their balances and in the time of
    the last update. *)
Definition sameLink (r r' : Schema.PlaidItem) : Prop :=
  Schema.id r' = Schema.id r
  /\ Schema.wallet_address r' = Schema.wallet_address r
  /\ Schema.item_id r' = Schema.item_id r
  /\ Schema.access_token r' = Schema.access_token r
  /\ Schema.institution_id r' = Schema.institution_id r
  /\ Schema.institution_name r' = Schema.institution_name r
  /\ Schema.account_id r' = Schema.account_id r
  /\ Schema.account_name r' = Schema.account_name r
  /\ Schema.account_mask r' = Schema.account_mask r
  /\ Schema.created_at r' = Schema.created_at r.

(** ** Issuing a link token ([createLinkToken] and its route) *)

Module LinkToken.

(** The data of an error response of the aggregator. *)
Record PlaidErrorData : Type := mkPlaidErrorData {
  error_message : string;
  error_type : string;
  error_code : string;
}.

(** What the aggregator's client throws: a message and, for an error answer
    of the API, the data of that answer. *)
Record Failure : Type := mkFailure {
  failure_message : string;
  failure_data : option PlaidErrorData;
}.

(** One answer of [plaidClient.linkTokenCreate]: a response whose [data] may
    be missing and may lack its [link_token], or a rejection. *)
Inductive Answer : Type :=
| Resolved (data : option (option string))
| Rejected (error : Failure).

(** [process.env], as far as the route reads it. *)
Record Env : Type := mkEnv {
  PLAID_CLIENT_ID : option string;
  PLAID_SECRET : option string;
}.

Definition configured (env : Env) : bool :=
  PlaidService.truthy_opt_string (PLAID_CLIENT_ID env)
  && PlaidService.truthy_opt_string (PLAID_SECRET env).

(** [createLinkToken(walletAddress)]: the data of the response when it holds
    a link token; every failure is logged and rethrown. *)
Definition createLinkToken (linkTokenCreate : string -> Answer) (walletAddress : string)
  : Failure + string :=
  match linkTokenCreate walletAddress with
  | Resolved (Some (Some link_token)) =>
    if PlaidService.truthy_string link_token then inr link_token
    else inl (mkFailure "Invalid link token response" None)
  | Resolved _ => inl (mkFailure "Invalid link token response" None)
  | Rejected error => inl error
  end.

Inductive Body : Type :=
| InvalidRequestBody
| ErrorBody (error : string)
| DataBody (data : option (option string)).

Record Reply : Type := mkReply {
  status : Z;
  body : Body;
}.

(** [POST /api/plaid/create-link-token]; [linkTokenCreate n] is the
    aggregator's answer to the route's call number [n]. *)
Definition route (env : Env) (linkTokenCreate : nat -> string -> Answer)
    (request : Routes.Body) : Reply :=
  match Routes.walletAddressSchema request with
  | None => mkReply 400 InvalidRequestBody
  | Some walletAddress =>
    if negb (configured env) then
      mkReply 500 (ErrorBody "PLAID_ERROR: Banking service configuration is missing")
    else
      match createLinkToken (linkTokenCreate 0%nat) walletAddress with
      | inr link_token => mkReply 200 (DataBody (Some (Some link_token)))
      | inl _ =>
        match linkTokenCreate 1%nat walletAddress with
        | Resolved data => mkReply 200 (DataBody data)
        | Rejected error =>
          match failure_data error with
          | Some plaidError =>
            mkReply 500
              (ErrorBody (String.append "Plaid API Error: "
                            (or_else (error_message plaidError) (error_type plaidError))))
          | None =>
            mkReply 500
              (ErrorBody (or_else (failure_message error) "Failed to create bank link token"))
          end
        end
      end
  end.

(** The reply as the component's [fetch] sees it: [response.ok] is a status
    of 200, a body that was never written does not parse, and a missing
    [link_token] reads as a falsy one. *)
Definition received (reply : Reply) : PlaidLink.LinkTokenResponse :=
  if status reply =? 200 then
    match body reply with
    | DataBody (Some (Some link_token)) => PlaidLink.LinkBody link_token
    | DataBody (Some None) => PlaidLink.LinkBody ""
    | DataBody None => PlaidLink.LinkUnparsable
    | _ => PlaidLink.LinkUnparsable
    end
  else PlaidLink.LinkNotOk (status reply).

(** The request body the component posts. *)
Definition posted (walletAddress : string) : Routes.Body :=
  Routes.mkBody (Routes.JString walletAddress) Routes.JUndefined Routes.JUndefined
    Routes.JUndefined Routes.JUndefined.

(** The bank-link step of a wizard in state [st] after its mount effect ran
    against the route. *)
Definition mounted (env : Env) (linkTokenCreate : nat -> string -> Answer)
    (walletAddress : string) (st : Form.State) : BankStep.Page :=
  PlaidLink.getLinkToken (Some walletAddress)
    (received (route env linkTokenCreate (posted walletAddress)))
    (BankStep.mount st).

End LinkToken.

(** ** The wallet session ([SolanaWalletProvider]) *)

Module WalletSession.
Section Provider.
Context `{W : Web3}.

(** [window.solana] as one handler sees it. *)
Record Phantom : Type := mkPhantom {
  isPhantom : bool;
  phantomKey : option PublicKey;
  isConnected : bool;
}.

(** The provider's state; [wallet] tells whether the extension was found. *)
Record State : Type := mkState {
  wallet : bool;
  publicKey : option PublicKey;
  connected : bool;
  connecting : bool;
  connectionError : option string;
  toasts : list string;
}.

Definition initialState : State := mkState false None false false None [].

Definition setWallet (b : bool) (st : State) : State :=
  mkState b (publicKey st) (connected st) (connecting st) (connectionError st) (toasts st).
Definition setPublicKey (k : option PublicKey) (st : State) : State :=
  mkState (wallet st) k (connected st) (connecting st) (connectionError st) (toasts st).
Definition setConnected (b : bool) (st : State) : State :=
  mkState (wallet st) (publicKey st) b (connecting st) (connectionError st) (toasts st).
Definition setConnecting (b : bool) (st : State) : State :=
  mkState (wallet st) (publicKey st) (connected st) b (connectionError st) (toasts st).
Definition setConnectionError (e : option string) (st : State) : State :=
  mkState (wallet st) (publicKey st) (connected st) (connecting st) e (toasts st).
Definition toast (text : string) (st : State) : State :=
  mkState (wallet st) (publicKey st) (connected st) (connecting st) (connectionError st)
    (toasts st ++ [text]).

(** The mount effect. *)
Definition mount (solana : option Phantom) (st : State) : State :=
  match solana with
  | Some solana =>
    if isPhantom solana then
      let st := setWallet true st in
      match phantomKey solana with
      | Some k =>
        if isConnected solana then setConnected true (setPublicKey (Some k) st) else st
      | None => st
      end
    else st
  | None => st
  end.

(** The listener of the extension's [connect] event; it is registered only
    when the extension was found.  [args] is the event's argument and, inside
    it, the text of its [publicKey]. *)
Definition onConnect (args : option (option string)) (st : State) : State :=
  if negb (wallet st) then st
  else
    match args with
    | Some (Some text) =>
      match newPublicKey text with
      | Ok k =>
        setConnectionError None
          (setConnecting false (setConnected true (setPublicKey (Some k) st)))
      | Throw _ =>
        setConnecting false (setConnectionError (Some "Failed to connect to wallet") st)
      end
    | _ => setConnecting false (setConnected true st)
    end.

(** The listener of the extension's [disconnect] event. *)
Definition onDisconnect (st : State) : State :=
  if negb (wallet st) then st
  else setConnected false (setPublicKey None st).

(** [connect()]: [before] and [after] are the extension's [publicKey] before
    and after its own [connect()], whose outcome is [response]. *)
Definition connect (before : option PublicKey) (response : result (option PublicKey))
    (after : option PublicKey) (st : State) : State :=
  if negb (wallet st) then
    let errorMessage :=
      "Phantom wallet not found! Please install the Phantom browser extension." in
    toast errorMessage (setConnectionError (Some errorMessage) st)
  else
    let st := setConnectionError None (setConnecting true st) in
    let st :=
      match before with
      | Some k => setConnecting false (setConnected true (setPublicKey (Some k) st))
      | None =>
        match response with
        | Ok (Some k) => setConnected true (setPublicKey (Some k) st)
        | Ok None =>
          match after with
          | Some k => setConnected true (setPublicKey (Some k) st)
          | None => st
          end
        | Throw e =>
          let errorMessage := or_else (Form.message e) "Failed to connect to wallet" in
          toast errorMessage (setConnectionError (Some errorMessage) st)
        end
      end in
    setConnecting false st.

(** [disconnect()]; when the extension's own [disconnect()] rejects, nothing
    is reset. *)
Definition disconnect (answer : result ()) (st : State) : State :=
  if wallet st then
    match answer with
    | Ok _ => setConnected false (setPublicKey None st)
    | Throw _ => st
    end
  else st.

Inductive Event : Type :=
| Mounted (solana : option Phantom)
| ConnectEvent (args : option (option string))
| DisconnectEvent
| Connect (before : option PublicKey) (response : result (option PublicKey))
    (after : option PublicKey)
| Disconnect (answer : result ()).

Definition handle (st : State) (e : Event) : State :=
  match e with
  | Mounted solana => mount solana st
  | ConnectEvent args => onConnect args st
  | DisconnectEvent => onDisconnect st
  | Connect before response after => connect before response after st
  | Disconnect answer => disconnect answer st
  end.

Definition run (events : list Event) (st : State) : State :=
  foldl handle st events.

End Provider.
End WalletSession.

(** ** The wallet's tokens ([lib/fetchTokens.ts]) *)

Module Tokens.
Section Fetch.
Context `{W : Web3}.

Record TokenAmount : Type := mkTokenAmount {
  uiAmount : option float;
  uiAmountString : string;
}.

(** [account.account.data.parsed.info] of a token account. *)
Record TokenAccount : Type := mkTokenAccount {
  mint : string;
  tokenAmount : option TokenAmount;
}.

Record MintInfo : Type := mkMintInfo {
  mintDecimals : float;
  mintSupply : Z;
}.

(** An entry of the registry kept under [created_tokens]. *)
Record StoredToken : Type := mkStoredToken {
  storedName : string;
  storedSymbol : string;
  storedDecimals : float;
  storedCreatedAt : string;
}.

(** The item [created_tokens] of local storage: absent, a text that does not
    parse to an object, or the registry. *)
Inductive Storage : Type :=
| Absent
| Garbage
| Registry (entries : gmap string StoredToken).

(** [storedTokensStr ? JSON.parse(storedTokensStr) : {}]. *)
Definition storedTokens (storage : Storage) : result (gmap string StoredToken) :=
  match storage with
  | Absent => Ok ∅
  | Garbage => Throw (Error "Unexpected token in JSON")
  | Registry entries => Ok entries
  end.

Record TokenData : Type := mkTokenData {
  name : string;
  symbol : string;
  address : string;
  totalSupply : string;
  decimals : float;
  createdAt : string;
}.

(** The network as one call sees it. *)
Record Chain : Type := mkChain {
  getParsedTokenAccountsByOwner : PublicKey -> result (list TokenAccount);
  getMint : PublicKey -> result MintInfo;
}.

(** [s.substring(0, n)] and [s.substring(s.length - n)]. *)
Definition first (n : nat) (s : string) : string := String.substring 0 n s.
Definition last (n : nat) (s : string) : string :=
  String.substring (String.length s - n) n s.

(** The label of a mint the registry does not know. *)
Definition shortAddr (text : string) : string :=
  String.append (first 6 text) (String.append "..." (last 4 text)).

(** [amount && amount.uiAmount > 0]. *)
Definition positive (account : TokenAccount) : bool :=
  match tokenAmount account with
  | Some amount =>
    match uiAmount amount with
    | Some x => JsNumber.gtb x PrimFloat.zero
    | None => false
    end
  | None => false
  end.

(** The body of the [map] over the token accounts: the [PublicKey]
    constructor runs before the inner [try], whose failures yield [null]. *)
Definition describe (chain : Chain) (storage : Storage) (today : string)
    (account : TokenAccount) : result (option TokenData) :=
  tokenMint ← newPublicKey (mint account);
  match
    mintInfo ← getMint chain tokenMint;
    registry ← storedTokens storage;
    mret (mintInfo, registry)
  with
  | Ok (mintInfo, registry) =>
    let text := toString tokenMint in
    let '(name, symbol) :=
      match registry !! text with
      | Some stored => (storedName stored, storedSymbol stored)
      | None =>
        (String.append "SPL Token " (shortAddr text),
         String.append "SPL" (first 4 (shortAddr text)))
      end in
    mret (Some (mkTokenData name symbol text
                  (or_else (default "" (uiAmountString <$> tokenAmount account)) "0")
                  (mintDecimals mintInfo) today))
  | Throw _ => mret None
  end.

(** [Promise.all] over the mapped accounts: the first rejection rejects all. *)
Fixpoint all {A B : Type} (f : A -> result B) (l : list A) : result (list B) :=
  match l with
  | [] => mret []
  | x :: l' => y ← f x; ys ← all f l'; mret (y :: ys)
  end.

(** [fetchWalletTokens(connection, walletAddress)]. *)
Definition fetchWalletTokens (chain : Chain) (storage : Storage) (today : string)
    (walletAddress : PublicKey) : result (list TokenData) :=
  tokenAccounts ← getParsedTokenAccountsByOwner chain walletAddress;
  tokensWithNulls ← all (describe chain storage today)
                        (filter (fun account => positive account = true) tokenAccounts);
  mret (omap (M := list) (fun token : option TokenData => token) tokensWithNulls).

(** Lines 302-321 of [createSPLToken]: the write to the registry, in a
    [try] of its own. *)
Definition remember (today : string) (formData : TokenFormData) (tokenAddress : string)
    (storage : Storage) : Storage :=
  match storedTokens storage with
  | Ok registry =>
    Registry (<[tokenAddress :=
                  mkStoredToken (tokenName formData) (tokenSymbol formData)
                    (JsNumber.parseInt (tokenDecimals formData)) today]> registry)
  | Throw _ => storage
  end.

(** [createSPLToken] together with what it leaves in local storage. *)
Definition createSPLToken (connection : Solana.Connection) (payer : PublicKey)
    (signTransaction : Solana.Transaction -> result Solana.Transaction)
    (formData : TokenFormData) (today : string) (storage : Storage)
  : result Solana.TokenDetails * Storage :=
  match Solana.createSPLToken connection payer signTransaction formData with
  | Ok details => (Ok details, remember today formData (Solana.tokenAddress details) storage)
  | Throw e => (Throw e, storage)
  end.

End Fetch.
End Tokens.

(** ** The demo run's wallet *)

Module DemoTokens.

(** A network on which the payer's wallet holds 5000 of the demo mint and an
    emptied account of another, and every mint can be read. *)
Definition chain : @Tokens.Chain Demo.web3 :=
  Tokens.mkChain
    (fun _ =>
       Ok [Tokens.mkTokenAccount "So11111111111111111111111111111111111111112"
             (Some (Tokens.mkTokenAmount (Some (JsNumber.of_Z 5000)) "5000"));
           Tokens.mkTokenAccount "4Nd1mBQtrMJVYVfKf2PJy9NZUZdTAsp7D4xWLs4gDB4T"
             (Some (Tokens.mkTokenAmount (Some PrimFloat.zero) "0"))])
    (fun _ => Ok (Tokens.mkMintInfo (JsNumber.of_Z 6) 5000000000)).

(** Local storage after the demo token was created on a fresh browser. *)
Definition storage : Tokens.Storage :=
  snd (Tokens.createSPLToken Demo.connection Demo.payer DemoToken.sign Demo.formData
         "2024-05-01" Tokens.Absent).

Definition listed : Tokens.TokenData :=
  Tokens.mkTokenData "Munin Dollar" "MUSD" "So11111111111111111111111111111111111111112"
    "5000" (JsNumber.of_Z 6) "2024-05-02".

End DemoTokens.

(** ** The sandbox wallet links again *)

Module Relinked.
Import Schema PlaidService.

(** The values of a second exchange for [Sandbox.wallet], now with the item
    [item-2] and a balance of 750.00. *)
Definition values : PlaidItemValues :=
  plaidItemOf Sandbox.wallet "item-2" "access-sandbox-item-2" (Some "ins_109508")
    "First Platypus Bank" (Sandbox.checking (mkBalances (Some (750 # 1)) None))
    (mkBalances (Some (750 # 1)) None).

(** The wallet's row before, and the database after. *)
Definition row : PlaidItem :=
  mkPlaidItem 1 Sandbox.wallet "item-1" "access-sandbox-item-1" (Some "ins_109508")
    (Some "First Platypus Bank") (Some "acc-checking-0000") (Some "Plaid Checking")
    (Some "0000") (Some 50000) (Some 50000) 1 1.

Definition database : Database :=
  mkDatabase
    [mkPlaidItem 1 Sandbox.wallet "item-2" "access-sandbox-item-2" (Some "ins_109508")
       (Some "First Platypus Bank") (Some "acc-checking-0000") (Some "Plaid Checking")
       (Some "0000") (Some 75000) (Some 75000) 1 1]
    2 [] 1.

End Relinked.

(** ** Two wallets with several mints *)

Module Minted.
Import Schema PlaidService Routes Server.

Definition exchangeBody (w : string) : Body :=
  mkBody (JString w) (JString "public-sandbox-token") JUndefined JUndefined JUndefined.

(** Two wallets link an account each, then mints are recorded: three for
    [Sandbox.wallet], one for [Sandbox.otherWallet].  The times are the ones
    the server's clock gave at each insert; they are not taken to increase
    from one request to the next. *)
Definition requests : list Request :=
  [ PostExchangeToken
      (Sandbox.plaid "item-1" (mkBalances (Some (500 # 1)) (Some (500 # 1)))) 1
      (exchangeBody Sandbox.wallet);
    PostExchangeToken
      (Sandbox.plaid "item-2" (mkBalances (Some (900 # 1)) (Some (900 # 1)))) 2
      (exchangeBody Sandbox.otherWallet);
    PostRecordMint 7 (Sandbox.mintBody Sandbox.wallet (250 # 1));
    PostRecordMint 4 (Sandbox.mintBody Sandbox.otherWallet (100 # 1));
    PostRecordMint 9 (Sandbox.mintBody Sandbox.wallet (50 # 1));
    PostRecordMint 5 (Sandbox.mintBody Sandbox.wallet (125 # 1)) ].

Definition database : Database := serve requests empty.

End Minted.

(** * Properties *)

(** ** Comparison of Numbers *)

Section Comparison.

Lemma SFcompare_nan_iff (x y : spec_float) :
  SFcompare x y = None <-> x = S754_nan \/ y = S754_nan.
Proof.
  split.
  - destruct x as [sx| sx | |sx mx ex], y as [sy| sy | |sy my ey];
      cbn; intros H; try discriminate; auto.
  - intros [-> | ->]; [reflexivity|]. now destruct x.
Qed.

Lemma SFcompare_antisym (x y : spec_float) :
  SFcompare y x = CompOpp <$> SFcompare x y.
Proof.
  destruct x as [sx| sx | |sx mx ex], y as [sy| sy | |sy my ey]; cbn;
    try reflexivity;
    try (destruct sx; reflexivity);
    try (destruct sy; reflexivity);
    try (destruct sx, sy; reflexivity).
  f_equal.
  rewrite (Z.compare_antisym ex ey).
  pose proof (Pos.compare_cont_antisym mx my Eq) as H. cbn in H.
  destruct sx, sy; try reflexivity;
    destruct (ex ?= ey)%Z; cbn; try reflexivity.
  all: rewrite <- H; rewrite ?CompOpp_involutive; reflexivity.
Qed.

Lemma is_nan_Prim2SF (x : float) :
  is_nan x = true <-> Prim2SF x = S754_nan.
Proof.
  unfold is_nan. rewrite FloatAxioms.eqb_spec. unfold SFeqb.
  destruct (Prim2SF x) as [s| s | |s m e] eqn:E; cbn.
  - split; discriminate.
  - destruct s; split; discriminate.
  - split; reflexivity.
  - rewrite Z.compare_refl, Pos.compare_cont_refl.
    destruct s; split; discriminate.
Qed.

(** On Numbers other than NaN, [a > b] fails exactly when [a <= b]. *)
Lemma gtb_false_iff_leb (a b : float) :
  is_nan a = false -> is_nan b = false ->
  JsNumber.gtb a b = false <-> (a <=? b)%float = true.
Proof.
  intros Ha Hb. unfold JsNumber.gtb.
  rewrite FloatAxioms.ltb_spec, FloatAxioms.leb_spec. unfold SFltb, SFleb.
  rewrite (SFcompare_antisym (Prim2SF a) (Prim2SF b)).
  destruct (SFcompare (Prim2SF a) (Prim2SF b)) as [[]|] eqn:E; cbn;
    try (split; (reflexivity || discriminate)).
  apply SFcompare_nan_iff in E.
  destruct E as [E | E]; apply is_nan_Prim2SF in E; congruence.
Qed.

(** [a <= b] alone already excludes NaN on both sides. *)
Lemma leb_gtb_false (a b : float) :
  (a <=? b)%float = true -> JsNumber.gtb a b = false.
Proof.
  unfold JsNumber.gtb. rewrite FloatAxioms.ltb_spec, FloatAxioms.leb_spec. unfold SFltb, SFleb.
  rewrite (SFcompare_antisym (Prim2SF a) (Prim2SF b)).
  destruct (SFcompare (Prim2SF a) (Prim2SF b)) as [[]|]; cbn; congruence.
Qed.


(** A NaN on the left makes [a > b] false. *)
Lemma gtb_nan_l (a b : float) :
  is_nan a = true -> JsNumber.gtb a b = false.
Proof.
  intros Ha. apply is_nan_Prim2SF in Ha.
  unfold JsNumber.gtb. rewrite FloatAxioms.ltb_spec. unfold SFltb.
  rewrite Ha. now destruct (Prim2SF b).
Qed.

End Comparison.

(** ** The verification gate *)

Section Gate.



(** What the two checks do with a supply text that is no number: the
    comparison [NaN > b] is false, so neither check objects. *)
Lemma gate_passes_nan (formData : TokenFormData) (bank : BankAccount) (st : Form.State) :
  Form.verifiedBankAccount st = Some bank ->
  is_nan (JsNumber.parseFloat (tokenSupply formData)) = true ->
  fst (Form.validateStep formData 3 st) = true /\
  fst (Form.submitGate true formData st) = Form.Proceed.
Proof.
  intros Hbank Hnan.
  pose proof (gtb_nan_l _ (availableBalance bank) Hnan) as Hgt.
  unfold Form.validateStep, Form.submitGate, JsNumber.gtb in *. cbn. rewrite Hbank.
  now rewrite Hgt.
Qed.

(** A supply above the balance sends the wizard back to the supply step. *)
Lemma gate_routes_back (formData : TokenFormData) (bank : BankAccount) (st : Form.State) :
  Form.verifiedBankAccount st = Some bank ->
  JsNumber.gtb (JsNumber.parseFloat (tokenSupply formData)) (availableBalance bank) = true ->
  Form.currentStep (snd (Form.validateStep formData 3 st)) = 2 /\
  Form.currentStep (snd (Form.submitGate true formData st)) = 2.
Proof.
  intros Hbank Hgt.
  unfold Form.validateStep, Form.submitGate, JsNumber.gtb in *. cbn.
  rewrite Hbank, Hgt. now cbn.
Qed.

(** A snapshot assembled from an exchange response carries Numbers: JSON has
    no NaN, and a balance that is absent or text is coerced with [|| 0]. *)
Lemma coerceBalance_is_number (j : PlaidLink.JsonBalance) :
  (forall x, j = PlaidLink.BalanceNumber x -> is_nan x = false) ->
  is_nan (PlaidLink.coerceBalance j) = false.
Proof.
  assert (Hzero : forall y, is_nan (PlaidLink.or_zero y) = false).
  { intros y. unfold PlaidLink.or_zero.
    destruct (is_nan y) eqn:Hy; [reflexivity|]. cbn [orb].
    destruct (y =? PrimFloat.zero)%float; [reflexivity | exact Hy]. }
  intros Hj. destruct j as [|x|s]; cbn [PlaidLink.coerceBalance].
  - apply Hzero.
  - now apply Hj.
  - apply Hzero.
Qed.

End Gate.

(** ** The minting pipeline *)

Section PipelineFacts.
Context `{W : Web3}.

Lemma toString_inj (k1 k2 : PublicKey) : toString k1 = toString k2 -> k1 = k2.
Proof.
  intros H. pose proof (newPublicKey_toString k1) as H1.
  rewrite H, newPublicKey_toString in H1. congruence.
Qed.

Lemma transfersAuthority_spec (payer recipientPubkey : PublicKey) (formData : TokenFormData) :
  Solana.transfersAuthority payer recipientPubkey formData = true <->
  mintAuthority formData = transfer /\ recipientPubkey <> payer.
Proof.
  unfold Solana.transfersAuthority.
  rewrite andb_true_iff, bool_decide_eq_true, negb_true_iff, String.eqb_neq.
  split; intros [H1 H2]; split; auto.
  - intros ->. now apply H2.
  - intros H. now apply H2, toString_inj.
Qed.

(** C6. When the recipient address is absent (empty) or is rejected by the
    public-key constructor, the resolved recipient is the payer; resolution
    is a total function, so nothing is thrown from it. *)
Theorem recipient_defaults_to_payer (payer : PublicKey) (formData : TokenFormData) :
  recipientAddress formData = "" \/
  is_ok (newPublicKey (recipientAddress formData)) = false ->
  Solana.resolveRecipient payer formData = payer.
Proof.
  unfold Solana.resolveRecipient, or_else.
  intros [-> | H].
  - cbn. now rewrite newPublicKey_toString.
  - destruct (String.eqb (recipientAddress formData) "").
    + now rewrite newPublicKey_toString.
    + now destruct (newPublicKey (recipientAddress formData)).
Qed.





Lemma createMintToInstruction_ok (mint destination authority : PublicKey)
    (x : float) (i : Solana.Instruction) :
  Solana.createMintToInstruction mint destination authority x = Ok i ->
  exists n amount,
    JsNumber.BigInt x = Ok n /\ Solana.u64 n = Ok amount /\
    i = Solana.MintTo mint destination authority amount.
Proof.
  unfold Solana.createMintToInstruction. intros H.
  destruct (JsNumber.BigInt x) as [n|]; [|discriminate]. cbn in H.
  destruct (Solana.u64 n) as [amount|] eqn:Hamount; [|discriminate]. cbn in H.
  injection H as <-. now exists n, amount.
Qed.

Lemma createInitializeMintInstruction_ok (mint : PublicKey) (x : float)
    (authority : PublicKey) (freeze : option PublicKey) (i : Solana.Instruction) :
  Solana.createInitializeMintInstruction mint x authority freeze = Ok i ->
  exists decimals,
    Solana.u8 x = Ok decimals /\ i = Solana.InitializeMint mint decimals authority freeze.
Proof.
  unfold Solana.createInitializeMintInstruction. intros H.
  destruct (Solana.u8 x) as [decimals|] eqn:Hdecimals; [|discriminate]. cbn in H.
  injection H as <-. now exists decimals.
Qed.

(** The shape of every transaction the pipeline builds. *)
Lemma buildTransaction_ok (connection : Solana.Connection) (payer : PublicKey)
    (formData : TokenFormData) (transaction : Solana.Transaction) :
  Solana.buildTransaction connection payer formData = Ok transaction ->
  exists rent decimals ata supply n amount,
    Solana.getMinimumBalanceForRentExemptMint connection = Ok rent /\
    Solana.u8 (JsNumber.parseInt (tokenDecimals formData)) = Ok decimals /\
    Solana.getAssociatedTokenAddress connection (Solana.generate connection)
      (Solana.resolveRecipient payer formData) = Ok ata /\
    Solana.initialSupply formData = Ok supply /\
    JsNumber.BigInt (JsNumber.of_Z supply) = Ok n /\
    Solana.u64 n = Ok amount /\
    transaction =
      Solana.mkTransaction
        ([ Solana.CreateAccount payer (Solana.generate connection) Solana.MINT_SIZE rent
             TOKEN_PROGRAM_ID;
           Solana.InitializeMint (Solana.generate connection) decimals payer
             (if freezeAuthority formData then Some payer else None);
           Solana.CreateAssociatedTokenAccount payer ata
             (Solana.resolveRecipient payer formData) (Solana.generate connection);
           Solana.MintTo (Solana.generate connection) ata payer amount ]
         ++ (if Solana.transfersAuthority payer (Solana.resolveRecipient payer formData) formData
             then [Solana.SetAuthority (Solana.generate connection) payer Solana.MintTokens
                     (Some (Solana.resolveRecipient payer formData))]
             else []))
        None None [].
Proof.
  unfold Solana.buildTransaction. intros H.
  destruct (Solana.getMinimumBalanceForRentExemptMint connection) as [rent|]; [|discriminate].
  cbn in H.
  destruct (Solana.createInitializeMintInstruction _ _ _ _) as [i|] eqn:Hinit;
    [|discriminate].
  apply createInitializeMintInstruction_ok in Hinit as (decimals & Hdecimals & ->).
  cbn in H.
  destruct (Solana.getAssociatedTokenAddress _ _ _) as [ata|]; [|discriminate].
  cbn in H.
  destruct (Solana.initialSupply formData) as [supply|]; [|discriminate].
  cbn in H.
  destruct (Solana.createMintToInstruction _ _ _ _) as [i|] eqn:Hmint; [|discriminate].
  apply createMintToInstruction_ok in Hmint as (n & amount & Hn & Hamount & ->).
  cbn in H. exists rent, decimals, ata, supply, n, amount. repeat split; try assumption.
  destruct (Solana.transfersAuthority _ _ _); injection H as <-; reflexivity.
Qed.

(** The pipeline builds a transaction as soon as each of its steps answers. *)
Lemma buildTransaction_complete (connection : Solana.Connection) (payer : PublicKey)
    (formData : TokenFormData) (rent decimals : Z) (ata : PublicKey) (supply n amount : Z) :
  Solana.getMinimumBalanceForRentExemptMint connection = Ok rent ->
  Solana.u8 (JsNumber.parseInt (tokenDecimals formData)) = Ok decimals ->
  Solana.getAssociatedTokenAddress connection (Solana.generate connection)
    (Solana.resolveRecipient payer formData) = Ok ata ->
  Solana.initialSupply formData = Ok supply ->
  JsNumber.BigInt (JsNumber.of_Z supply) = Ok n ->
  Solana.u64 n = Ok amount ->
  exists transaction,
    Solana.buildTransaction connection payer formData = Ok transaction /\
    Solana.instructions transaction !! 3%nat
      = Some (Solana.MintTo (Solana.generate connection) ata payer amount).
Proof.
  intros Hrent Hdecimals Hata Hsupply Hn Hamount.
  unfold Solana.buildTransaction, Solana.createInitializeMintInstruction,
    Solana.createMintToInstruction.
  rewrite Hrent. cbn. rewrite Hdecimals. cbn. rewrite Hata. cbn.
  rewrite Hsupply. cbn. rewrite Hn. cbn. rewrite Hamount. cbn.
  destruct (Solana.transfersAuthority _ _ _); eexists; split; reflexivity.
Qed.


(** The transaction handed to the wallet for signing carries the same
    instructions as the one built. *)
Lemma signed_transaction_is_the_built_one
    (connection : Solana.Connection) (payer : PublicKey)
    (signTransaction : Solana.Transaction -> result Solana.Transaction)
    (formData : TokenFormData) (details : Solana.TokenDetails) :
  Solana.createSPLToken connection payer signTransaction formData = Ok details ->
  exists transaction blockhash,
    Solana.buildTransaction connection payer formData = Ok transaction /\
    is_ok (signTransaction
             (Solana.mkTransaction (Solana.instructions transaction) (Some payer)
                (Some blockhash) [Solana.generate connection])) = true.
Proof.
  unfold Solana.createSPLToken. intros H.
  destruct (Solana.buildTransaction connection payer formData)
    as [transaction|] eqn:Hbuild; [|discriminate].
  cbn in H.
  destruct (Solana.getLatestBlockhash connection) as [[blockhash height]|]; [|discriminate].
  cbn in H.
  exists transaction, blockhash. split; [reflexivity|].
  assert (Hsig : Solana.signatures transaction = []).
  { apply buildTransaction_ok in Hbuild
      as (rent & decimals & ata & supply & n & amount & _ & _ & _ & _ & _ & _ & ->).
    reflexivity. }
  rewrite Hsig in H. cbn in H.
  now destruct (signTransaction _).
Qed.

End PipelineFacts.

Section DemoRun.
#[local] Existing Instance Demo.web3.

Lemma recipient_defaults_to_payer_witness :
  Solana.resolveRecipient Demo.payer
    (mkTokenFormData "Munin Dollar" "MUSD" None "5000" "6" keep "not a key" false)
  = Demo.payer.
Proof.
  apply recipient_defaults_to_payer. right. reflexivity.
Defined.


End DemoRun.

(** ** Scaling the supply to base units *)

Section Scaling.
Context `{W : Web3}.

(** With the wizard's defaults - a whole supply and six decimals - the
    scaling is exact. *)
Example initialSupply_default :
  Solana.initialSupply
    (mkTokenFormData "Munin Dollar" "MUSD" None "1000000" "6" keep "" false)
  = Ok (1000000 * 10 ^ 6).
Proof. vm_compute. reflexivity. Qed.

(** The product is taken in binary64: [4.1 * 10 ** 6] is
    [4099999.9999999995], which is not an integer. *)
Example product_4_1_e6 :
  Prim2SF (JsNumber.parseFloat "4.1" * JsNumber.pow10 (JsNumber.parseInt "6"))%float
  = S754_finite false 8804682956799999 (-31).
Proof. vm_compute. reflexivity. Qed.

(** At eighteen decimals the product of [1.1] is integral but is not
    [11 * 10 ^ 17]. *)
Example initialSupply_drifts :
  Solana.initialSupply
    (mkTokenFormData "Munin Dollar" "MUSD" None "1.1" "18" keep "" false)
  = Ok (11 * 10 ^ 17 + 128).
Proof. vm_compute. reflexivity. Qed.

(** C2, at a supply the supply step accepts: for the supply ["4.1"] and six
    decimals the scaling [BigInt(parseFloat(supply) * 10 ** decimals)] throws
    a RangeError, and [createSPLToken] never returns token details, whatever
    the network answers. *)
Theorem scaling_throws_on_fractional_product
    (connection : Solana.Connection) (payer : PublicKey)
    (signTransaction : Solana.Transaction -> result Solana.Transaction)
    (name symbol : string) (description : option string)
    (authority : MintAuthorityChoice) (recipient : string) (freeze : bool) :
  let formData :=
    mkTokenFormData name symbol description "4.1" "6" authority recipient freeze in
  TokenUtils.validateTokenSupply (tokenSupply formData) = None /\
  Solana.initialSupply formData
    = Throw (RangeError "The number cannot be converted to a BigInt because it is not an integer") /\
  is_ok (Solana.buildTransaction connection payer formData) = false /\
  is_ok (Solana.createSPLToken connection payer signTransaction formData) = false.
Proof.
  intros formData.
  assert (Hsupply : Solana.initialSupply formData
    = Throw (RangeError "The number cannot be converted to a BigInt because it is not an integer")).
  { vm_compute. reflexivity. }
  assert (Hbuild : is_ok (Solana.buildTransaction connection payer formData) = false).
  { destruct (Solana.buildTransaction connection payer formData) as [transaction|] eqn:H;
      [|reflexivity].
    apply buildTransaction_ok in H
      as (rent & decimals & ata & supply & n & amount & _ & _ & _ & H & _).
    rewrite Hsupply in H. discriminate. }
  split; [vm_compute; reflexivity|]. split; [exact Hsupply|]. split; [exact Hbuild|].
  unfold Solana.createSPLToken.
  destruct (Solana.buildTransaction connection payer formData); [discriminate|reflexivity].
Qed.

(** C3, at a supply and a precision the wizard offers: for the supply
    ["5000"] and eighteen decimals the scaled supply is [5000 * 10 ^ 18],
    which is [2 ^ 64] or more.  The supply step accepts the text, and the
    pipeline builds its transaction on every network that answers; the
    mint-to instruction of that transaction carries 1220703125000000000, the
    leading sixteen hexadecimal digits of the scaled supply, and not the
    scaled supply. *)
Theorem mint_to_amount_overflows_u64
    (connection : Solana.Connection) (payer : PublicKey)
    (name symbol : string) (description : option string)
    (authority : MintAuthorityChoice) (recipient : string) (freeze : bool)
    (rentExemptBalance : Z) (associatedTokenAddress : PublicKey) :
  let formData :=
    mkTokenFormData name symbol description "5000" "18" authority recipient freeze in
  Solana.getMinimumBalanceForRentExemptMint connection = Ok rentExemptBalance ->
  Solana.getAssociatedTokenAddress connection (Solana.generate connection)
    (Solana.resolveRecipient payer formData) = Ok associatedTokenAddress ->
  TokenUtils.validateTokenSupply (tokenSupply formData) = None /\
  Solana.initialSupply formData = Ok (5000 * 10 ^ 18) /\
  2 ^ 64 <= 5000 * 10 ^ 18 /\
  exists transaction,
    Solana.buildTransaction connection payer formData = Ok transaction /\
    Solana.instructions transaction !! 3%nat
      = Some (Solana.MintTo (Solana.generate connection) associatedTokenAddress payer
                1220703125000000000) /\
    forall mint destination signer,
      Solana.MintTo mint destination signer (5000 * 10 ^ 18)
        ∉ Solana.instructions transaction.
Proof.
  intros formData Hrent Hata.
  assert (Hsupply : Solana.initialSupply formData = Ok (5000 * 10 ^ 18))
    by (vm_compute; reflexivity).
  split; [vm_compute; reflexivity|]. split; [exact Hsupply|]. split; [lia|].
  destruct (buildTransaction_complete connection payer formData rentExemptBalance 18
              associatedTokenAddress (5000 * 10 ^ 18) (5000 * 10 ^ 18) 1220703125000000000)
    as (transaction & Hbuild & Hfourth);
    try assumption; try (vm_compute; reflexivity).
  exists transaction. split; [exact Hbuild|]. split; [exact Hfourth|].
  intros mint destination signer Hin.
  apply buildTransaction_ok in Hbuild
    as (rent & decimals & ata & supply & n & amount & _ & _ & _ & Hsupply' & Hn & Hamount & ->).
  rewrite Hsupply in Hsupply'. injection Hsupply' as <-.
  assert (Hn' : JsNumber.BigInt (JsNumber.of_Z (5000 * 10 ^ 18)) = Ok (5000 * 10 ^ 18))
    by (vm_compute; reflexivity).
  rewrite Hn' in Hn. injection Hn as <-.
  assert (Hamount' : Solana.u64 (5000 * 10 ^ 18) = Ok 1220703125000000000)
    by (vm_compute; reflexivity).
  rewrite Hamount' in Hamount. injection Hamount as <-.
  cbn [Solana.instructions] in Hin.
  destruct (Solana.transfersAuthority _ _ _); cbn [app] in Hin;
    rewrite !elem_of_cons in Hin;
    repeat (destruct Hin as [Hin | Hin]; [discriminate Hin || (injection Hin; lia)|]);
    now apply elem_of_nil in Hin.
Qed.

End Scaling.

Section ScalingRun.
#[local] Existing Instance Demo.web3.

Lemma mint_to_amount_overflows_u64_witness :
  fst (Form.submitGate true Demo.overflowing
         (Form.setVerifiedBankAccount fallbackBankAccount Form.initialState))
    = Form.Proceed /\
  exists transaction,
    Solana.buildTransaction Demo.connection Demo.payer Demo.overflowing = Ok transaction /\
    Solana.instructions transaction !! 3%nat
      = Some (Solana.MintTo Demo.mint Demo.holding Demo.payer 1220703125000000000).
Proof.
  split; [vm_compute; reflexivity|].
  destruct (mint_to_amount_overflows_u64 Demo.connection Demo.payer
              "Munin Dollar" "MUSD" None keep "" false 1461600 Demo.holding)
    as (_ & _ & _ & transaction & Hbuild & Hfourth & _);
    [reflexivity | reflexivity |].
  exists transaction. split; [exact Hbuild | exact Hfourth].
Defined.

End ScalingRun.

(** ** The fallback path of the bank-link step *)

Section Fallback.

(** C9. After a failed link-token request, or a failed token exchange, the
    component offers the fallback; taking it makes no request at all and
    leaves the form with the fabricated snapshot (Bank of America, Checking
    Account, 1234, balances 5000) as its verified bank account, at step 4.
    From then on both checks of the gate let every supply up to 5000 through,
    whichever wallet is connected. *)
Theorem fallback_marks_verification_complete
    (walletAddress : string) (p0 p : BankStep.Page) :
  PlaidLink.success (PlaidLink.component p0) = false ->
  (exists response,
     PlaidLink.linkFailed response = true /\
     p = PlaidLink.getLinkToken (Some walletAddress) response p0) \/
  (exists publicToken response,
     PlaidLink.exchangeFailed response = true /\
     p = BankStep.handleSuccess (Some walletAddress) publicToken response p0) ->
  PlaidLink.view (PlaidLink.component p) = PlaidLink.FallbackOffered /\
  let p' := BankStep.handleFallbackVerification p in
  Form.verifiedBankAccount (PlaidLink.parent p') = Some fallbackBankAccount /\
  fallbackBankAccount =
    mkBankAccount "Bank of America" "Checking Account" "1234"
      (JsNumber.of_Z 5000) (JsNumber.of_Z 5000) /\
  Form.currentStep (PlaidLink.parent p') = 4 /\
  PlaidLink.requests p' = PlaidLink.requests p /\
  forall formData : TokenFormData,
    (JsNumber.parseFloat (tokenSupply formData) <=? JsNumber.of_Z 5000)%float = true ->
    fst (Form.validateStep formData 3 (PlaidLink.parent p')) = true /\
    fst (Form.submitGate true formData (PlaidLink.parent p')) = Form.Proceed.
Proof.
  intros Hsuccess Hfailed.
  assert (Hview : PlaidLink.view (PlaidLink.component p) = PlaidLink.FallbackOffered).
  { destruct Hfailed as [(response & Hr & ->) | (publicToken & response & Hr & ->)].
    - unfold PlaidLink.view, PlaidLink.getLinkToken.
      destruct response as [| status | | link_token]; cbn in Hr |- *;
        rewrite ?Hr; cbn; rewrite Hsuccess; reflexivity.
    - unfold PlaidLink.view, BankStep.handleSuccess, PlaidLink.handleSuccess.
      destruct response as [| | [] [b|]]; cbn in Hr |- *;
        try discriminate; rewrite Hsuccess; reflexivity. }
  split; [exact Hview|].
  cbn. do 4 (split; [reflexivity|]).
  intros formData Hle.
  unfold Form.validateStep, Form.submitGate. cbn.
  apply leb_gtb_false in Hle. unfold JsNumber.gtb in Hle.
  change (availableBalance fallbackBankAccount) with (JsNumber.of_Z 5000).
  rewrite Hle. split; reflexivity.
Qed.

Lemma fallback_marks_verification_complete_witness :
  let p :=
    PlaidLink.getLinkToken (Some "7xKXtg2CW87d97TXJSDpbD5jBkheTqA83TZRuJosgAsU")
      (PlaidLink.LinkNotOk 500)
      (BankStep.mount (Form.setCurrentStep 3 Form.initialState)) in
  let p' := BankStep.handleFallbackVerification p in
  PlaidLink.view (PlaidLink.component p) = PlaidLink.FallbackOffered /\
  Form.verifiedBankAccount (PlaidLink.parent p') = Some fallbackBankAccount /\
  PlaidLink.requests p' =
    [PlaidLink.CreateLinkToken "7xKXtg2CW87d97TXJSDpbD5jBkheTqA83TZRuJosgAsU"] /\
  fst (Form.submitGate true Demo.formData (PlaidLink.parent p')) = Form.Proceed.
Proof.
  intros p p'.
  destruct (fallback_marks_verification_complete
              "7xKXtg2CW87d97TXJSDpbD5jBkheTqA83TZRuJosgAsU"
              (BankStep.mount (Form.setCurrentStep 3 Form.initialState))
              p eq_refl)
    as (Hview & Hbank & _ & _ & Hreq & Hgate).
  { left. exists (PlaidLink.LinkNotOk 500). split; reflexivity. }
  split; [exact Hview|]. split; [exact Hbank|]. split; [exact Hreq|].
  apply (Hgate Demo.formData). reflexivity.
Defined.

(** The form's own [forceAdvance] fabricates the same snapshot when nothing
    was verified, and keeps a snapshot that is already there. *)
Lemma forceAdvance_fabricates (st : Form.State) :
  Form.verifiedBankAccount (Form.forceAdvance st)
    = Some (default fallbackBankAccount (Form.verifiedBankAccount st)) /\
  Form.currentStep (Form.forceAdvance st) = 4.
Proof.
  unfold Form.forceAdvance.
  destruct (Form.verifiedBankAccount st) eqn:E; cbn; rewrite ?E; split; reflexivity.
Qed.

(** Above 5000 the fabricated snapshot blocks, like any other. *)
Lemma fallback_blocks_above_5000 (formData : TokenFormData) (st : Form.State) :
  Form.verifiedBankAccount st = Some fallbackBankAccount ->
  JsNumber.gtb (JsNumber.parseFloat (tokenSupply formData)) (JsNumber.of_Z 5000) = true ->
  fst (Form.submitGate true formData st) = Form.InsufficientBalance.
Proof.
  intros Hbank Hgt. unfold Form.submitGate. cbn [negb]. rewrite Hbank.
  change (availableBalance fallbackBankAccount) with (JsNumber.of_Z 5000).
  now rewrite Hgt.
Qed.

End Fallback.

(** ** The bank-link service and its routes *)

Section Service.
Import Schema PlaidService.

Lemma selectPlaidItem_nil (db : Database) (w : string) :
  Links.rowsOf w db = [] -> selectPlaidItem db w = [].
Proof.
  unfold selectPlaidItem, Links.rowsOf. now intros ->.
Qed.

Lemma selectPlaidItem_cons (db : Database) (w : string) (item : PlaidItem)
    (rest : list PlaidItem) :
  selectPlaidItem db w = item :: rest ->
  item ∈ plaid_items db /\ wallet_address item = w /\ rest = [].
Proof.
  unfold selectPlaidItem. intros H.
  destruct (filter (fun r => wallet_address r = w) (plaid_items db))
    as [|r rows] eqn:Hf; [discriminate|].
  cbn in H. rewrite take_0 in H. injection H as <- <-.
  assert (Hin : r ∈ filter (fun r => wallet_address r = w) (plaid_items db)).
  { rewrite Hf. now left. }
  apply list_elem_of_filter in Hin. tauto.
Qed.

(** C8. For a wallet address without a row in [plaid_items],
    [getBankAccountInfo] returns [null] and throws nothing, whatever the
    aggregator would answer, and [/api/plaid/account-info], called with that
    address, answers 404. *)
Theorem account_info_not_found
    (plaid : PlaidApi) (now : Z) (w : string) (db : Database) :
  Links.rowsOf w db = [] ->
  getBankAccountInfo plaid now w db = (Ok None, db) /\
  forall body : Routes.Body,
    Routes.walletAddress body = Routes.JString w ->
    32 <= TokenUtils.length w <= 44 ->
    Routes.accountInfo plaid now body db
      = (Routes.mkResponse 404 (Routes.ErrorMessage "No linked bank account found"), db).
Proof.
  intros Hno.
  assert (Hget : getBankAccountInfo plaid now w db = (Ok None, db)).
  { unfold getBankAccountInfo. now rewrite (selectPlaidItem_nil db w Hno). }
  split; [exact Hget|].
  intros body Hbody Hlen.
  unfold Routes.accountInfo, Routes.walletAddressSchema, Routes.addressField.
  rewrite Hbody.
  destruct (Z.leb_spec 32 (TokenUtils.length w)); [|lia].
  destruct (Z.leb_spec (TokenUtils.length w) 44); [|lia].
  cbn. now rewrite Hget.
Qed.

Lemma account_info_not_found_witness :
  Routes.accountInfo (Sandbox.plaid "item-1" (mkBalances (Some (500 # 1)) None)) 2
    (Sandbox.walletBody Sandbox.otherWallet) Sandbox.linked
  = (Routes.mkResponse 404 (Routes.ErrorMessage "No linked bank account found"),
     Sandbox.linked).
Proof.
  apply (account_info_not_found _ 2 Sandbox.otherWallet Sandbox.linked).
  - vm_compute. reflexivity.
  - reflexivity.
  - vm_compute. split; discriminate.
Defined.

(** *** Balances that are zero *)

Lemma truthy_zero (q : Q) : (q == 0)%Q -> truthy (Some q) = false.
Proof.
  unfold Qeq, truthy. cbn. intros H.
  replace (Qnum q) with 0 by lia. reflexivity.
Qed.

Lemma updateBalances_row (i : Z) (c a : option Q) (c' a' : option numeric) (now : Z)
    (db : Database) (item : PlaidItem) :
  to_numeric_opt c = Ok c' ->
  to_numeric_opt a = Ok a' ->
  item ∈ plaid_items db ->
  id item = i ->
  exists db' r',
    updateBalances i c a now db = Ok db' /\
    r' ∈ plaid_items db' /\ id r' = i /\ wallet_address r' = wallet_address item /\
    current_balance r' = c' /\ available_balance r' = a' /\ last_updated r' = now.
Proof.
  intros Hc Ha Hin Hid. unfold updateBalances. rewrite Hc. cbn. rewrite Ha. cbn.
  eexists. eexists. split; [reflexivity|]. cbn.
  split.
  - apply list_elem_of_fmap. exists item. split; [|exact Hin].
    rewrite bool_decide_eq_true_2 by exact Hid. reflexivity.
  - cbn. auto.
Qed.

(** C10, as the code has it. With the refreshed balances [b] of a linked
    wallet: when the available balance is 0, [getBankAccountInfo] returns the
    current balance as [availableBalance]; the value written to
    [current_balance] is null when the current balance is 0; the value
    written to [available_balance], when the available balance is 0, is the
    one written to [current_balance] - the current balance, and null only if
    that is 0 or absent too; and when both values fit their columns the
    wallet's row holds them afterwards. *)
Theorem zero_balance_falls_back_to_current
    (plaid : PlaidApi) (now : Z) (w : string) (db : Database)
    (item : PlaidItem) (rest : list PlaidItem) (account : Account)
    (others : list Account) :
  selectPlaidItem db w = item :: rest ->
  accountsBalanceGet plaid (access_token item) [default "" (account_id item)]
    = Ok (account :: others) ->
  let b := acc_balances account in
  let zero (x : option Q) := exists q, x = Some q /\ (q == 0)%Q in
  (exists info,
     fst (getBankAccountInfo plaid now w db) = Ok (Some info) /\
     info_currentBalance info = current b /\
     (zero (available b) -> info_availableBalance info = current b)) /\
  (zero (current b) -> currentBalanceColumn b = None) /\
  (zero (available b) -> availableBalanceColumn b = currentBalanceColumn b) /\
  (forall c a,
     to_numeric_opt (currentBalanceColumn b) = Ok c ->
     to_numeric_opt (availableBalanceColumn b) = Ok a ->
     exists r',
       r' ∈ plaid_items (snd (getBankAccountInfo plaid now w db)) /\
       id r' = id item /\ wallet_address r' = w /\
       current_balance r' = c /\ available_balance r' = a).
Proof.
  intros Hsel Hplaid b zero.
  destruct (selectPlaidItem_cons db w item rest Hsel) as (Hin & Hw & _).
  unfold getBankAccountInfo. rewrite Hsel, Hplaid. cbn. fold b.
  split; [|split; [|split]].
  - eexists. split; [reflexivity|]. cbn. split; [reflexivity|].
    intros (q & Hq & Hz). rewrite Hq, (truthy_zero q Hz). reflexivity.
  - intros (q & Hq & Hz). unfold currentBalanceColumn.
    rewrite Hq, (truthy_zero q Hz). reflexivity.
  - intros (q & Hq & Hz). unfold availableBalanceColumn, currentBalanceColumn.
    rewrite Hq, (truthy_zero q Hz). reflexivity.
  - intros c a Hc Ha.
    destruct (updateBalances_row (id item) _ _ c a now db item Hc Ha Hin eq_refl)
      as (db' & r' & Hup & Hr' & Hid & Hw' & Hcur & Hav & _).
    rewrite Hup. cbn. exists r'. repeat split; try assumption. congruence.
Qed.

Lemma zero_balance_falls_back_to_current_witness :
  exists info,
    fst (getBankAccountInfo (Sandbox.plaid "item-1" (mkBalances (Some (100 # 1)) (Some 0%Q)))
           2 Sandbox.wallet Sandbox.linked) = Ok (Some info) /\
    info_currentBalance info = Some (100 # 1).
Proof.
  destruct (zero_balance_falls_back_to_current
              (Sandbox.plaid "item-1" (mkBalances (Some (100 # 1)) (Some 0%Q)))
              2 Sandbox.wallet Sandbox.linked
              (mkPlaidItem 1 Sandbox.wallet "item-1" "access-sandbox-item-1"
                 (Some "ins_109508") (Some "First Platypus Bank")
                 (Some "acc-checking-0000") (Some "Plaid Checking") (Some "0000")
                 (Some 50000) (Some 50000) 1 1)
              []
              (Sandbox.checking (mkBalances (Some (100 # 1)) (Some 0%Q)))
              [])
    as ((info & Hinfo & Hcur & _) & _).
  - vm_compute. reflexivity.
  - reflexivity.
  - exists info. split; [exact Hinfo | exact Hcur].
Defined.

(** C10, as stated, fails for [available_balance]: with a current balance of
    100 and an available balance of 0 the column is written 100.00, not
    null. *)
Lemma available_balance_column_not_null :
  let b := mkBalances (Some (100 # 1)) (Some 0%Q) in
  let db' := snd (getBankAccountInfo (Sandbox.plaid "item-1" b) 2 Sandbox.wallet
                    Sandbox.linked) in
  available b = Some 0%Q /\
  availableBalanceColumn b = Some (100 # 1) /\
  map available_balance (Links.rowsOf Sandbox.wallet db') = [Some 10000] /\
  map available_balance (Links.rowsOf Sandbox.wallet db') <> [None].
Proof.
  vm_compute. repeat split. discriminate.
Qed.

End Service.

(** ** The mint audit trail *)

Section MintTrail.
Import Schema PlaidService.

Lemma elem_of_insert_by_created_at (r x : StablecoinMint) (l : list StablecoinMint) :
  r ∈ insert_by_created_at x l <-> r = x \/ r ∈ l.
Proof.
  induction l as [|y l IH]; cbn.
  - rewrite list_elem_of_singleton. rewrite elem_of_nil. tauto.
  - destruct (mint_created_at x <? mint_created_at y).
    + rewrite !elem_of_cons. tauto.
    + rewrite !elem_of_cons, IH. tauto.
Qed.

Lemma elem_of_orderBy_created_at (r : StablecoinMint) (l : list StablecoinMint) :
  r ∈ orderBy_created_at l <-> r ∈ l.
Proof.
  unfold orderBy_created_at.
  assert (H : forall l', r ∈ foldr insert_by_created_at [] l' <-> r ∈ l').
  { induction l' as [|y l' IH]; cbn; [reflexivity|].
    rewrite elem_of_insert_by_created_at, elem_of_cons, IH. tauto. }
  rewrite H, rev_alt. apply elem_of_reverse.
Qed.

(** A value with at most two decimals is stored as it is. *)
Lemma round_hundredths_exact (q : Q) (c : Z) :
  (q == c # 100)%Q -> round_hundredths q = c.
Proof.
  unfold Qeq, round_hundredths. cbn [Qnum Qden]. intros H.
  set (d := Zpos (Qden q)) in *.
  assert (Hd : 0 < d) by (unfold d; lia).
  replace (Qnum q * 100) with (c * d) by lia.
  rewrite Z.sgn_mul, Z.abs_mul, (Z.sgn_pos d Hd), (Z.abs_eq d) by lia.
  replace ((2 * (Z.abs c * d) + d) / (2 * d)) with (Z.abs c).
  - destruct c; cbn; lia.
  - apply (Z.div_unique_pos _ _ _ d); lia.
Qed.

Lemma insertStablecoinMint_ok (now : Z) (v : StablecoinMintValues) (db db' : Database) :
  insertStablecoinMint now v db = Ok db' ->
  exists amount,
    to_numeric (v_amount_minted v) = Ok amount /\
    db' = mkDatabase (plaid_items db) (plaid_items_id_seq db)
            (stablecoin_mints db ++
               [mkStablecoinMint (stablecoin_mints_id_seq db) (v_mint_wallet_address v)
                  (v_plaid_item_id v) (v_token_address v) amount (v_status v)
                  (v_transaction_id v) now (v_completed_at v)])
            (stablecoin_mints_id_seq db + 1).
Proof.
  unfold insertStablecoinMint.
  destruct (to_numeric (v_amount_minted v)) as [amount|]; [|discriminate]. cbn.
  destruct (match v_plaid_item_id v with
            | Some i => bool_decide (i ∈ map id (plaid_items db))
            | None => true
            end); [|discriminate].
  intros [= <-]. exists amount. split; reflexivity.
Qed.

Lemma to_numeric_ok (q : Q) (c : numeric) :
  to_numeric q = Ok c <-> c = round_hundredths q /\ Z.abs (round_hundredths q) < 10 ^ 12.
Proof.
  unfold to_numeric.
  destruct (Z.ltb_spec (Z.abs (round_hundredths q)) (10 ^ 12)); split.
  - intros [= <-]. auto.
  - intros [-> _]. reflexivity.
  - discriminate.
  - lia.
Qed.

(** C5, as the code has it. After [recordStablecoinMint(walletAddress,
    tokenAddress, amount, "completed", transactionId)] has succeeded, the
    wallet's mint history contains a completed record with that wallet
    address, that token address and that transaction id (null if the id is
    the empty string), whose amount is [amount] rounded to two decimals, as
    the [decimal(12, 2)] column stores it; an amount with at most two
    decimals is reproduced exactly. *)
Theorem recorded_mint_is_read_back
    (now : Z) (w t : string) (amount : Q) (transactionId : string) (db db' : Database) :
  recordStablecoinMint now w t amount "completed" (Some transactionId) db = Ok db' ->
  (exists r,
     r ∈ selectMints db' w /\
     mint_wallet_address r = w /\
     token_address r = t /\
     status r = "completed" /\
     transaction_id r = (if String.eqb transactionId "" then None else Some transactionId) /\
     amount_minted r = round_hundredths amount /\
     (forall c : Z, (amount == c # 100)%Q -> (numeric_value (amount_minted r) == amount)%Q)) /\
  forall body : Routes.Body,
    Routes.walletAddressSchema body = Some w ->
    Routes.mintHistory body db'
      = Routes.mkResponse 200 (Routes.HistoryPayload (selectMints db' w)).
Proof.
  unfold recordStablecoinMint. intros H.
  destruct (selectPlaidItem db w) as [|plaidItem rest]; [discriminate|].
  apply insertStablecoinMint_ok in H. cbn in H.
  destruct H as (stored & Hstored & ->).
  apply to_numeric_ok in Hstored. destruct Hstored as [-> _].
  split.
  - eexists. split.
    + unfold selectMints. apply elem_of_orderBy_created_at. cbn.
      apply list_elem_of_filter. split; [|apply elem_of_app; right; now left].
      reflexivity.
    + cbn. repeat split.
      * unfold truthy_string. now destruct (String.eqb transactionId "").
      * intros c Hc. rewrite (round_hundredths_exact amount c Hc).
        unfold numeric_value. now symmetry.
  - intros body Hbody. unfold Routes.mintHistory. now rewrite Hbody.
Qed.

Lemma recorded_mint_is_read_back_witness :
  exists db' r,
    recordStablecoinMint 2 Sandbox.wallet Sandbox.tokenMint (500 # 1) "completed"
      (Some Sandbox.signature) Sandbox.linked = Ok db' /\
    r ∈ selectMints db' Sandbox.wallet /\
    amount_minted r = 50000.
Proof.
  eexists.
  assert (Hrecord :
    recordStablecoinMint 2 Sandbox.wallet Sandbox.tokenMint (500 # 1) "completed"
      (Some Sandbox.signature) Sandbox.linked
    = Ok (mkDatabase (plaid_items Sandbox.linked) 2
            [mkStablecoinMint 1 Sandbox.wallet (Some 1) Sandbox.tokenMint 50000
               "completed" (Some Sandbox.signature) 2 (Some 2)]
            2)) by (vm_compute; reflexivity).
  destruct (recorded_mint_is_read_back 2 Sandbox.wallet Sandbox.tokenMint (500 # 1)
              Sandbox.signature Sandbox.linked _ Hrecord)
    as ((r & Hin & _ & _ & _ & _ & Hamount & _) & _).
  exists r. split; [exact Hrecord|]. split; [exact Hin | exact Hamount].
Defined.

(** C5, as stated, fails on the amount: a mint of 0.001 is recorded and read
    back as 0.00. *)
Lemma recorded_amount_is_rounded :
  exists db',
    recordStablecoinMint 2 Sandbox.wallet Sandbox.tokenMint (1 # 1000) "completed"
      (Some Sandbox.signature) Sandbox.linked = Ok db' /\
    map amount_minted (selectMints db' Sandbox.wallet) = [0] /\
    forall r, r ∈ selectMints db' Sandbox.wallet ->
      ~ (numeric_value (amount_minted r) == 1 # 1000)%Q.
Proof.
  eexists. split; [vm_compute; reflexivity|].
  split; [vm_compute; reflexivity|].
  intros r Hr.
  assert (Hall : Forall (fun r => amount_minted r = 0)
                   (selectMints
                      (mkDatabase (plaid_items Sandbox.linked) 2
                         [mkStablecoinMint 1 Sandbox.wallet (Some 1) Sandbox.tokenMint 0
                            "completed" (Some Sandbox.signature) 2 (Some 2)]
                         2)
                      Sandbox.wallet)).
  { vm_compute. repeat constructor. }
  rewrite Forall_forall in Hall. rewrite (Hall r Hr). discriminate.
Qed.

End MintTrail.

(** ** Recording a mint *)

Section RecordMint.
Import Schema PlaidService.

Lemma select_map (f : PlaidItem -> PlaidItem) (w : string) (rows : list PlaidItem) :
  (forall r, wallet_address (f r) = wallet_address r) ->
  take 1 (filter (fun r => wallet_address r = w) (map f rows))
  = map f (take 1 (filter (fun r => wallet_address r = w) rows)).
Proof.
  intros Hf. induction rows as [|r rows IH]; [reflexivity|].
  cbn [map]. rewrite !filter_cons, Hf.
  destruct (decide (wallet_address r = w)); [|exact IH].
  cbn. now rewrite !take_0.
Qed.

(** C7, as the code has it. For a request that passes the schema, from a
    wallet that has a row in [plaid_items], with an amount that fits the
    [decimal(12, 2)] column, [/api/plaid/record-mint] answers 200 and appends
    a completed record of that amount.  The balances of the wallet's row are
    not read: the statement holds whatever they are, and a copy of the
    database with other balances gets the same answer and the same record. *)
Theorem record_mint_does_not_check_balance
    (now : Z) (body : Routes.Body) (db : Database)
    (w t : string) (a : Q) (i : option string)
    (item : PlaidItem) (rest : list PlaidItem) :
  Routes.mintStablecoinSchema body = Some (w, t, a, i) ->
  selectPlaidItem db w = item :: rest ->
  Z.abs (round_hundredths a) < 10 ^ 12 ->
  let record :=
    mkStablecoinMint (stablecoin_mints_id_seq db) w (Some (id item)) t
      (round_hundredths a) "completed"
      (if truthy_opt_string i then i else None) now (Some now) in
  Routes.recordMint now body db
    = (Routes.mkResponse 200 Routes.SuccessPayload,
       mkDatabase (plaid_items db) (plaid_items_id_seq db)
         (stablecoin_mints db ++ [record]) (stablecoin_mints_id_seq db + 1)) /\
  forall (current' available' : option numeric),
    let db2 :=
      mkDatabase
        (map (fun r => mkPlaidItem (id r) (wallet_address r) (item_id r) (access_token r)
                         (institution_id r) (institution_name r) (account_id r)
                         (account_name r) (account_mask r) current' available'
                         (last_updated r) (created_at r))
           (plaid_items db))
        (plaid_items_id_seq db) (stablecoin_mints db) (stablecoin_mints_id_seq db) in
    fst (Routes.recordMint now body db2) = Routes.mkResponse 200 Routes.SuccessPayload /\
    stablecoin_mints (snd (Routes.recordMint now body db2))
      = stablecoin_mints db ++ [record].
Proof.
  intros Hschema Hsel Hfit record.
  destruct (selectPlaidItem_cons db w item rest Hsel) as (Hin & Hw & _).
  assert (Hnum : to_numeric a = Ok (round_hundredths a)).
  { apply to_numeric_ok. auto. }
  split.
  - unfold Routes.recordMint. rewrite Hschema.
    unfold recordStablecoinMint. rewrite Hsel.
    unfold insertStablecoinMint. cbn. rewrite Hnum. cbn.
    rewrite bool_decide_eq_true_2; [reflexivity|].
    apply list_elem_of_fmap. now exists item.
  - intros current' available' db2.
    set (f := fun r => mkPlaidItem (id r) (wallet_address r) (item_id r) (access_token r)
                         (institution_id r) (institution_name r) (account_id r)
                         (account_name r) (account_mask r) current' available'
                         (last_updated r) (created_at r)) in *.
    assert (Hsel2 : selectPlaidItem db2 w = map f (selectPlaidItem db w)).
    { unfold selectPlaidItem. cbn [plaid_items db2].
      apply select_map. reflexivity. }
    rewrite Hsel in Hsel2. cbn [map] in Hsel2.
    unfold Routes.recordMint. rewrite Hschema.
    unfold recordStablecoinMint. rewrite Hsel2.
    unfold insertStablecoinMint. cbn. rewrite Hnum. cbn.
    rewrite bool_decide_eq_true_2; [split; reflexivity|].
    apply list_elem_of_fmap. exists (f item). split; [reflexivity|].
    apply list_elem_of_fmap. now exists item.
Qed.

(** A mint of 600 is recorded for the wallet whose row holds a balance of
    500.00. *)
Lemma record_mint_does_not_check_balance_witness :
  map available_balance (Links.rowsOf Sandbox.wallet Sandbox.linked) = [Some 50000] /\
  fst (Routes.recordMint 2 (Sandbox.mintBody Sandbox.wallet (600 # 1)) Sandbox.linked)
    = Routes.mkResponse 200 Routes.SuccessPayload /\
  map amount_minted
    (stablecoin_mints
       (snd (Routes.recordMint 2 (Sandbox.mintBody Sandbox.wallet (600 # 1)) Sandbox.linked)))
    = [60000].
Proof.
  assert (Hsel : selectPlaidItem Sandbox.linked Sandbox.wallet
                 = [mkPlaidItem 1 Sandbox.wallet "item-1" "access-sandbox-item-1"
                      (Some "ins_109508") (Some "First Platypus Bank")
                      (Some "acc-checking-0000") (Some "Plaid Checking") (Some "0000")
                      (Some 50000) (Some 50000) 1 1]) by (vm_compute; reflexivity).
  destruct (record_mint_does_not_check_balance 2
              (Sandbox.mintBody Sandbox.wallet (600 # 1)) Sandbox.linked
              Sandbox.wallet Sandbox.tokenMint (600 # 1) (Some Sandbox.signature)
              _ _ eq_refl Hsel) as [Hrun _].
  { vm_compute. reflexivity. }
  split; [vm_compute; reflexivity|].
  rewrite Hrun. split; reflexivity.
Defined.

(** C7, as stated, fails for a wallet that has no row: the request passes the
    schema, the answer is 500 and nothing is recorded. *)
Lemma record_mint_needs_a_bank_link :
  let body := Sandbox.mintBody Sandbox.otherWallet (600 # 1) in
  is_Some (Routes.mintStablecoinSchema body) /\
  Routes.recordMint 2 body Sandbox.linked
    = (Routes.mkResponse 500 (Routes.ErrorMessage "Failed to record stablecoin mint"),
       Sandbox.linked) /\
  stablecoin_mints Sandbox.linked = [].
Proof.
  split; [eexists; vm_compute; reflexivity|].
  split; vm_compute; reflexivity.
Qed.

(** Nor is an amount of ten billion recorded: it does not fit the column. *)
Lemma record_mint_amount_overflow :
  fst (Routes.recordMint 2 (Sandbox.mintBody Sandbox.wallet (10000000000 # 1))
         Sandbox.linked)
  = Routes.mkResponse 500 (Routes.ErrorMessage "Failed to record stablecoin mint").
Proof. vm_compute. reflexivity. Qed.

End RecordMint.

(** ** Linking a bank account twice *)

Section Upsert.
Import Schema PlaidService Links.

Lemma consistent_empty : consistent empty.
Proof.
  repeat split; cbn; try constructor. intros r Hr. inversion Hr.
Qed.

Lemma tracks_empty : tracks empty ∅.
Proof. intros w. now rewrite lookup_empty. Qed.

Lemma unique_ok_wallets (rows : list PlaidItem) :
  unique_ok rows = true -> NoDup (map wallet_address rows).
Proof.
  unfold unique_ok. rewrite andb_true_iff, !bool_decide_eq_true. tauto.
Qed.

Lemma same_id_same_row (rows : list PlaidItem) (r1 r2 : PlaidItem) :
  NoDup (map id rows) -> r1 ∈ rows -> r2 ∈ rows -> id r1 = id r2 -> r1 = r2.
Proof.
  induction rows as [|r rows IH]; intros Hnd H1 H2 Hid.
  - inversion H1.
  - cbn in Hnd. apply NoDup_cons in Hnd as [Hnotin Hnd].
    apply elem_of_cons in H1 as [-> | H1]; apply elem_of_cons in H2 as [-> | H2].
    + reflexivity.
    + destruct Hnotin. rewrite Hid. change (map id rows) with (id <$> rows).
      now apply list_elem_of_fmap_2.
    + destruct Hnotin. rewrite <- Hid. change (map id rows) with (id <$> rows).
      now apply list_elem_of_fmap_2.
    + now apply IH.
Qed.

Lemma filter_map_commute (P : PlaidItem -> Prop) `{forall r, Decision (P r)}
    (g : PlaidItem -> PlaidItem) (rows : list PlaidItem) :
  (forall r, r ∈ rows -> P (g r) <-> P r) ->
  filter P (map g rows) = map g (filter P rows).
Proof.
  induction rows as [|r rows IH]; intros Hg; [reflexivity|].
  cbn [map]. rewrite !filter_cons.
  assert (Hr : P (g r) <-> P r) by (apply Hg; now left).
  assert (IH' : filter P (map g rows) = map g (filter P rows)).
  { apply IH. intros r' Hr'. apply Hg. now right. }
  destruct (decide (P (g r))), (decide (P r)); try tauto; cbn; now rewrite IH'.
Qed.

Lemma map_fixed (g : PlaidItem -> PlaidItem) (rows : list PlaidItem) :
  (forall r, r ∈ rows -> g r = r) -> map g rows = rows.
Proof.
  induction rows as [|r rows IH]; intros Hg; [reflexivity|].
  cbn. rewrite Hg by now left. f_equal. apply IH. intros r' Hr'. apply Hg. now right.
Qed.

Lemma to_numeric_opt_inv (q : option Q) (k : option numeric -> result Database)
    (db' : Database) :
  (to_numeric_opt q ≫= k) = Ok db' ->
  exists c, to_numeric_opt q = Ok c /\ k c = Ok db'.
Proof.
  destruct (to_numeric_opt q) as [c|]; cbn; [|discriminate]. eauto.
Qed.

(** An accepted insert appends the row. *)
Lemma insertPlaidItem_ok (now : Z) (v : PlaidItemValues) (db db' : Database) :
  insertPlaidItem now v db = Ok db' ->
  exists r,
    holds r v /\ id r = plaid_items_id_seq db /\
    plaid_items db' = plaid_items db ++ [r] /\
    plaid_items_id_seq db' = plaid_items_id_seq db + 1 /\
    NoDup (map wallet_address (plaid_items db')).
Proof.
  unfold insertPlaidItem. intros H.
  apply to_numeric_opt_inv in H as (c & Hc & H).
  apply to_numeric_opt_inv in H as (a & Ha & H).
  destruct (unique_ok _) eqn:Hu; [|discriminate].
  injection H as <-.
  exists (mkPlaidItem (plaid_items_id_seq db) (v_wallet_address v) (v_item_id v)
            (v_access_token v) (v_institution_id v) (v_institution_name v)
            (v_account_id v) (v_account_name v) (v_account_mask v) c a now now).
  split; [|split; [reflexivity|]].
  - unfold holds. cbn. repeat split; assumption.
  - cbn. repeat split. now apply unique_ok_wallets.
Qed.

(** An accepted update rewrites the rows with the given id. *)
Lemma updatePlaidItem_ok (i : Z) (v : PlaidItemValues) (db db' : Database) :
  updatePlaidItem i v db = Ok db' ->
  exists c a,
    to_numeric_opt (v_current_balance v) = Ok c /\
    to_numeric_opt (v_available_balance v) = Ok a /\
    plaid_items db' =
      map (fun r => if bool_decide (id r = i) then setPlaidItem v c a r else r)
        (plaid_items db) /\
    plaid_items_id_seq db' = plaid_items_id_seq db /\
    NoDup (map wallet_address (plaid_items db')).
Proof.
  unfold updatePlaidItem. intros H.
  apply to_numeric_opt_inv in H as (c & Hc & H).
  apply to_numeric_opt_inv in H as (a & Ha & H).
  destruct (unique_ok _) eqn:Hu; [|discriminate].
  injection H as <-. exists c, a. cbn. repeat split; try assumption.
  now apply unique_ok_wallets.
Qed.

Lemma holds_setPlaidItem (v : PlaidItemValues) (c a : option numeric) (r : PlaidItem) :
  to_numeric_opt (v_current_balance v) = Ok c ->
  to_numeric_opt (v_available_balance v) = Ok a ->
  holds (setPlaidItem v c a r) v.
Proof. intros Hc Ha. unfold holds. cbn. repeat split; assumption. Qed.

Lemma selectPlaidItem_rowsOf (db : Database) (w : string) :
  selectPlaidItem db w = take 1 (rowsOf w db).
Proof. reflexivity. Qed.

(** The upsert of lines 339-352, when the database accepts it. *)
Lemma storePlaidItem_tracks (now : Z) (v : PlaidItemValues) (db db' : Database)
    (m : gmap string PlaidItemValues) :
  consistent db -> tracks db m ->
  storePlaidItem now v db = Ok db' ->
  consistent db' /\ tracks db' (<[v_wallet_address v := v]> m).
Proof.
  intros (Hwallets & Hids & Hseq) Htracks Hstore.
  unfold storePlaidItem in Hstore.
  set (w := v_wallet_address v) in *.
  destruct (selectPlaidItem db w) as [|existing rest] eqn:Hsel.
  - (* insert *)
    apply insertPlaidItem_ok in Hstore as (r & Hholds & Hid & Hrows & Hseq' & Hnd).
    assert (Hnone : rowsOf w db = []).
    { rewrite selectPlaidItem_rowsOf in Hsel.
      destruct (rowsOf w db); [reflexivity | discriminate]. }
    split.
    + split; [exact Hnd|]. split.
      * rewrite Hrows, map_app. cbn. apply NoDup_app. split; [exact Hids|].
        split; [|apply NoDup_singleton].
        intros x Hx Hx'. apply list_elem_of_singleton in Hx'. subst x.
        change (map id (plaid_items db)) with (id <$> plaid_items db) in Hx.
        apply list_elem_of_fmap in Hx as (r0 & Hr0 & Hin).
        specialize (Hseq r0 Hin). lia.
      * intros r0. rewrite Hrows, Hseq', elem_of_app, list_elem_of_singleton.
        intros [Hin | ->]; [specialize (Hseq r0 Hin)|]; lia.
    + intros w'. unfold rowsOf. rewrite Hrows, filter_app.
      destruct (decide (w = w')) as [<- | Hne].
      * rewrite lookup_insert_eq. exists r.
        fold (rowsOf w db). rewrite Hnone.
        rewrite (filter_cons_True _ r []) by apply Hholds.
        split; [reflexivity | exact Hholds].
      * rewrite lookup_insert_ne by exact Hne.
        rewrite (filter_cons_False _ r []).
        -- rewrite app_nil_r. apply (Htracks w').
        -- destruct Hholds as [-> _]. exact Hne.
  - (* update *)
    destruct (selectPlaidItem_cons db w existing rest Hsel) as (Hin & Hw & _).
    apply updatePlaidItem_ok in Hstore as (c & a & Hc & Ha & Hrows & Hseq' & Hnd).
    set (g := fun r => if bool_decide (id r = id existing) then setPlaidItem v c a r else r)
      in *.
    assert (Hg_id : forall r, id (g r) = id r).
    { intros r. unfold g. now destruct (bool_decide (id r = id existing)). }
    assert (Hg_existing : forall r, r ∈ plaid_items db -> id r = id existing -> r = existing).
    { intros r Hr Hid. now apply (same_id_same_row (plaid_items db)). }
    assert (Hg_wallet : forall w' r, r ∈ plaid_items db ->
              wallet_address (g r) = w' <-> wallet_address r = w').
    { intros w' r Hr. unfold g. destruct (bool_decide_reflect (id r = id existing)) as [Hid|];
        [|reflexivity].
      rewrite (Hg_existing r Hr Hid). cbn. fold w. now rewrite Hw. }
    split.
    + split; [exact Hnd|]. split.
      * rewrite Hrows. rewrite map_map.
        erewrite map_ext; [exact Hids|]. intros r. cbn. apply Hg_id.
      * intros r. rewrite Hrows, Hseq'.
        change (map g (plaid_items db)) with (g <$> plaid_items db).
        intros Hr. apply list_elem_of_fmap in Hr as (r0 & -> & Hr0).
        rewrite Hg_id. now apply Hseq.
    + intros w'. unfold rowsOf. rewrite Hrows.
      rewrite (filter_map_commute (fun r => wallet_address r = w') g)
        by (intros r Hr; now apply Hg_wallet).
      fold (rowsOf w' db).
      destruct (decide (w = w')) as [<- | Hne].
      * rewrite lookup_insert_eq.
        assert (Hone : rowsOf w db = [existing]).
        { specialize (Htracks w). rewrite selectPlaidItem_rowsOf in Hsel.
          destruct (m !! w) as [v0|].
          - destruct Htracks as (r0 & Hr0 & _). rewrite Hr0 in Hsel |- *.
            cbn in Hsel. congruence.
          - rewrite Htracks in Hsel. discriminate. }
        rewrite Hone. cbn. exists (g existing). split; [reflexivity|].
        unfold g. rewrite bool_decide_eq_true_2 by reflexivity.
        now apply holds_setPlaidItem.
      * rewrite lookup_insert_ne by exact Hne.
        rewrite map_fixed; [apply (Htracks w')|].
        intros r Hr. apply list_elem_of_filter in Hr as [Hrw Hr].
        unfold g. destruct (bool_decide_reflect (id r = id existing)) as [Hid|];
          [|reflexivity].
        rewrite (Hg_existing r Hr Hid) in Hrw. congruence.
Qed.

(** One call keeps the table consistent and in step with the map of accepted
    values. *)
Lemma run_tracks (c : Call) (db : Database) (m : gmap string PlaidItemValues) :
  consistent db -> tracks db m ->
  consistent (snd (run c db)) /\
  tracks (snd (run c db))
    (match accepted c db with
     | Some v => <[call_walletAddress c := v]> m
     | None => m
     end).
Proof.
  intros Hc Ht. unfold run, accepted, values, exchangePublicToken.
  destruct (fetchLinkedAccount (call_plaid c) (call_publicToken c))
    as [[[[[[accessToken itemId] institutionId] institutionName] account] accountBalance]|];
    [|now cbn].
  cbn [snd].
  set (v := plaidItemOf (call_walletAddress c) itemId accessToken institutionId
              institutionName account accountBalance).
  destruct (storePlaidItem (call_now c) v db) as [db'|] eqn:Hstore; cbn; [|now split].
  change (call_walletAddress c) with (v_wallet_address v).
  exact (storePlaidItem_tracks (call_now c) v db db' m Hc Ht Hstore).
Qed.

Lemma runAll_tracks (calls : list Call) (db : Database) (m : gmap string PlaidItemValues) :
  consistent db -> tracks db m ->
  consistent (runAll calls db) /\ tracks (runAll calls db) (lastAccepted calls db m).
Proof.
  revert db m. induction calls as [|c calls IH]; intros db m Hc Ht; [now split|].
  cbn. destruct (run_tracks c db m Hc Ht) as [Hc' Ht'].
  now apply IH.
Qed.

(** C4, as the code has it. After any sequence of [exchangePublicToken]
    calls on an empty table, a wallet has at most one row; it has exactly one
    as soon as the database accepted the write of a call for it, and that row
    holds the values of the most recent such call. *)
Theorem one_row_per_wallet (calls : list Call) (w : string) :
  let db := runAll calls empty in
  (length (rowsOf w db) <= 1)%nat /\
  match lastAccepted calls empty ∅ !! w with
  | Some v => exists r, rowsOf w db = [r] /\ holds r v
  | None => rowsOf w db = []
  end.
Proof.
  intros db.
  destruct (runAll_tracks calls empty ∅ consistent_empty tracks_empty) as [_ Ht].
  specialize (Ht w). fold db in Ht. split; [|exact Ht].
  destruct (lastAccepted calls empty ∅ !! w).
  - destruct Ht as (r & -> & _). cbn. lia.
  - rewrite Ht. cbn. lia.
Qed.

Lemma lastAccepted_app (calls1 calls2 : list Call) (db : Database)
    (m : gmap string PlaidItemValues) :
  lastAccepted (calls1 ++ calls2) db m
  = lastAccepted calls2 (runAll calls1 db) (lastAccepted calls1 db m).
Proof.
  revert db m. induction calls1 as [|c calls1 IH]; intros db m; [reflexivity|].
  cbn. apply IH.
Qed.

Lemma lastAccepted_other_wallets (calls : list Call) (db : Database)
    (m : gmap string PlaidItemValues) (w : string) :
  Forall (fun c => call_walletAddress c <> w) calls ->
  lastAccepted calls db m !! w = m !! w.
Proof.
  revert db m. induction calls as [|c calls IH]; intros db m Hall; [reflexivity|].
  apply Forall_cons in Hall as [Hc Hall]. cbn. rewrite IH by exact Hall.
  destruct (accepted c db); [|reflexivity].
  now rewrite lookup_insert_ne.
Qed.

Lemma accepted_wallet (c : Call) (db : Database) (v : PlaidItemValues) :
  accepted c db = Some v -> v_wallet_address v = call_walletAddress c.
Proof.
  unfold accepted, values.
  destruct (fetchLinkedAccount _ _) as [[[[[[? ?] ?] ?] ?] ?]|]; [|discriminate].
  destruct (is_ok _); [|discriminate]. now intros [= <-].
Qed.

(** The same in terms of one call: if the database accepted the write of a
    call, and the calls after it are for other wallets, the wallet's one row
    holds that call's values. *)
Lemma accepted_call_is_the_row (before after : list Call) (c : Call)
    (v : PlaidItemValues) :
  accepted c (runAll before empty) = Some v ->
  Forall (fun c' => call_walletAddress c' <> call_walletAddress c) after ->
  exists r,
    rowsOf (call_walletAddress c) (runAll (before ++ c :: after) empty) = [r] /\
    holds r v.
Proof.
  intros Hacc Hafter.
  destruct (runAll_tracks (before ++ c :: after) empty ∅ consistent_empty tracks_empty)
    as [_ H].
  specialize (H (call_walletAddress c)).
  rewrite lastAccepted_app in H. cbn in H. rewrite Hacc in H.
  rewrite (lastAccepted_other_wallets after) in H by exact Hafter.
  now rewrite lookup_insert_eq in H.
Qed.

(** A call whose write the database rejects returns all the same and leaves
    the table as it was. *)
Lemma rejected_write_is_swallowed (c : Call) (db : Database) (v : PlaidItemValues) :
  values c = Some v ->
  is_ok (storePlaidItem (call_now c) v db) = false ->
  is_ok (fst (run c db)) = true /\ snd (run c db) = db.
Proof.
  unfold values, run, exchangePublicToken.
  destruct (fetchLinkedAccount _ _) as [[[[[[? ?] ?] ?] ?] ?]|]; [|discriminate].
  intros [= <-] Hstore. cbn.
  destruct (storePlaidItem _ _ db); [discriminate|]. split; reflexivity.
Qed.

(** C4, as stated, fails when the database rejects a write: the call
    succeeds, and the wallet is left without a row, or with the row of an
    earlier call.  First a wallet that is handed an item id already in the
    table; then a first link, and a second link, of a balance the
    [decimal(12, 2)] column cannot hold. *)
Lemma link_succeeds_without_storing :
  let huge := mkBalances (Some (10000000000 # 1)) (Some (10000000000 # 1)) in
  let sameItem :=
    Sandbox.link "item-1" (mkBalances (Some (500 # 1)) (Some (500 # 1))) 2
      Sandbox.otherWallet in
  let first := Sandbox.link "item-2" huge 1 Sandbox.wallet in
  let second := Sandbox.link "item-3" huge 2 Sandbox.wallet in
  (is_ok (fst (run sameItem Sandbox.linked)) = true /\
   rowsOf Sandbox.otherWallet (snd (run sameItem Sandbox.linked)) = []) /\
  (is_ok (fst (run first empty)) = true /\
   rowsOf Sandbox.wallet (snd (run first empty)) = []) /\
  (is_ok (fst (run second Sandbox.linked)) = true /\
   map item_id (rowsOf Sandbox.wallet (snd (run second Sandbox.linked))) = ["item-1"]).
Proof.
  vm_compute. repeat split.
Qed.

End Upsert.

(** ** The scenarios of the specification, run end to end *)

Section Scenarios.
#[local] Existing Instance Demo.web3.

(** Scenario A: a balance of 500.00 and a supply of 500; the token is created
    and the mint is reported to the server. *)
Example scenario_A :
  match fst (Demo.submit "500") with
  | Form.TokenCreated details recorded =>
    Solana.supply details = "500" /\ recorded = true
  | _ => False
  end.
Proof. vm_compute. split; reflexivity. Qed.

(** Scenario B: a supply of 600 against the same balance; nothing is minted
    and the wizard is back at the supply step. *)
Example scenario_B :
  fst (Demo.submit "600") = Form.Returned /\ Form.currentStep (snd (Demo.submit "600")) = 2.
Proof. split; reflexivity. Qed.

(** Scenario D: account information for a wallet that never linked. *)
Example scenario_D :
  Routes.statusCode
    (fst (Routes.accountInfo
            (Sandbox.plaid "item-1" (PlaidService.mkBalances None None)) 1
            (Sandbox.walletBody Sandbox.wallet) Schema.empty)) = 404.
Proof. vm_compute. reflexivity. Qed.

End Scenarios.

(** * Further properties *)

(** ** Supply texts with thousands separators *)

Section Separators.
Import JsNumber.

Variable sep : ascii.
Variable tail : list ascii.
Hypothesis Hsep : inert sep = true.

#[local] Abbreviation r := (sep :: tail).

Lemma digit_of_sep : digit_of 10 sep = None.
Proof using Hsep. by_cases_on sep Hsep; reflexivity. Qed.

Lemma scan_digits_sep (acc count : Z) (l : list ascii) :
  scan_digits 10 acc count (l ++ r)
  = (fst (scan_digits 10 acc count l),
     snd (scan_digits 10 acc count l) ++ r).
Proof using Hsep.
  revert acc count. induction l as [|c l IH]; intros acc count.
  - cbn [app scan_digits]. now rewrite digit_of_sep.
  - cbn [app scan_digits]. destruct (digit_of 10 c); [apply IH | reflexivity].
Qed.

Lemma scan_sign_sep (l : list ascii) :
  scan_sign (l ++ r) = (fst (scan_sign l), snd (scan_sign l) ++ r).
Proof using Hsep.
  destruct l as [|c l].
  - by_cases_on sep Hsep; reflexivity.
  - destruct c as [[] [] [] [] [] [] [] []]; reflexivity.
Qed.

Lemma is_prefix_sep (p l : list ascii) :
  sep ∉ p ->
  is_prefix p (l ++ r) = (fun rest => rest ++ r) <$> is_prefix p l.
Proof.
  revert l. induction p as [|a p IH]; intros l Hp; [reflexivity|].
  apply not_elem_of_cons in Hp as [Ha Hp].
  destruct l as [|c l]; cbn.
  - destruct (Ascii.eqb_spec a sep); [congruence | reflexivity].
  - destruct (Ascii.eqb a c); [now apply IH | reflexivity].
Qed.

Lemma sep_not_in_Infinity : sep ∉ list_ascii_of_string "Infinity".
Proof using Hsep.
  by_cases_on sep Hsep; cbn; rewrite !not_elem_of_cons;
    repeat split; try discriminate; apply not_elem_of_nil.
Qed.

Lemma scan_exponent_sep (l : list ascii) :
  scan_exponent (l ++ r) = (fst (scan_exponent l), snd (scan_exponent l) ++ r).
Proof using Hsep.
  destruct l as [|c l].
  - by_cases_on sep Hsep; reflexivity.
  - cbn [app scan_exponent].
    destruct (Ascii.eqb c "e" || Ascii.eqb c "E")%char; [|reflexivity].
    rewrite scan_sign_sep. destruct (scan_sign l) as [neg l'] eqn:Hs. cbn [fst snd].
    rewrite scan_digits_sep.
    destruct (scan_digits 10 0 0 l') as [[v n] rest]. cbn [fst snd].
    destruct (n =? 0); reflexivity.
Qed.

Lemma scan_decimal_literal_sep (l : list ascii) :
  scan_decimal_literal (l ++ r)
  = (fst (scan_decimal_literal l), snd (scan_decimal_literal l) ++ r).
Proof using Hsep.
  unfold scan_decimal_literal.
  rewrite scan_sign_sep. destruct (scan_sign l) as [neg body] eqn:Hs. cbn [fst snd].
  rewrite (is_prefix_sep _ _ sep_not_in_Infinity).
  destruct (is_prefix (list_ascii_of_string "Infinity") body) as [rest|]; [reflexivity|].
  cbn [fmap option_fmap option_map].
  rewrite scan_digits_sep.
  destruct (scan_digits 10 0 0 body) as [[ip ni] after_int]. cbn [fst snd].
  destruct after_int as [|c after_int'].
  - cbn [app]. by_cases_on sep Hsep; cbv iota;
      (destruct ((ni =? 0) && (0 =? 0)); reflexivity).
  - cbn [app]. destruct (ascii_dec c "."%char) as [->|Hc].
    + rewrite scan_digits_sep.
      destruct (scan_digits 10 ip 0 after_int') as [[m nf] rest]. cbn [fst snd].
      destruct ((ni =? 0) && (nf =? 0)) eqn:Hz.
      * apply andb_prop in Hz as [Hni _]. rewrite Hni. reflexivity.
      * rewrite Hz. change ("."%char :: after_int' ++ r) with (("."%char :: after_int') ++ r).
        rewrite scan_exponent_sep. now destruct (scan_exponent rest).
    + destruct c as [[] [] [] [] [] [] [] []]; try (now destruct Hc); clear Hc;
        cbv iota;
        (destruct ((ni =? 0) && (0 =? 0)); [reflexivity|]);
        match goal with
        | |- context [scan_exponent (?c :: after_int' ++ r)] =>
          change (c :: after_int' ++ r) with ((c :: after_int') ++ r);
          rewrite scan_exponent_sep; now destruct (scan_exponent (c :: after_int'))
        end.
Qed.

Lemma trim_start_sep (l : list ascii) :
  is_white_space sep = false -> trim_start (l ++ r) = trim_start l ++ r.
Proof.
  intros Hws. induction l as [|c l IH].
  - cbn. now rewrite Hws.
  - cbn [app trim_start]. destruct (is_white_space c); [exact IH | reflexivity].
Qed.

End Separators.

Lemma list_ascii_of_string_app (s t : string) :
  list_ascii_of_string (String.append s t)
  = list_ascii_of_string s ++ list_ascii_of_string t.
Proof. induction s as [|c s IH]; [reflexivity|]. simpl. f_equal. exact IH. Qed.

Lemma parseFloat_comma (s1 s2 : string) :
  JsNumber.parseFloat (s1 +:+ "," +:+ s2) = JsNumber.parseFloat s1.
Proof.
  unfold JsNumber.parseFloat. rewrite list_ascii_of_string_app.
  change (list_ascii_of_string ("," +:+ s2)) with (","%char :: list_ascii_of_string s2).
  rewrite trim_start_sep by reflexivity.
  rewrite scan_decimal_literal_sep by reflexivity. reflexivity.
Qed.

Section SupplyText.
Context `{W : Web3}.

(** X1.  Both balance checks of the wizard and the scaling of the pipeline read
    a supply text only up to its first comma: with [s1,s2] in the supply field
    they do exactly what they do with [s1]. *)
Theorem supply_is_read_up_to_the_first_comma
    (data : TokenFormData) (s1 s2 : string) (connected : bool) (st : Form.State) :
  tokenSupply data = s1 +:+ "," +:+ s2 ->
  Form.submitGate connected data st = Form.submitGate connected (setTokenSupply s1 data) st
  /\ Form.validateStep data 3 st = Form.validateStep (setTokenSupply s1 data) 3 st
  /\ Solana.initialSupply data = Solana.initialSupply (setTokenSupply s1 data).
Proof.
  intros Hs.
  unfold Form.submitGate, Form.validateStep, Solana.initialSupply.
  cbn [tokenSupply tokenDecimals setTokenSupply]. rewrite Hs, parseFloat_comma.
  repeat split.
Qed.

End SupplyText.

Section SupplyTextRun.
#[local] Existing Instance Demo.web3.

Lemma supply_is_read_up_to_the_first_comma_witness :
  let data := setTokenSupply "1,000" Demo.formData in
  Form.submitGate true data Demo.verified
  = Form.submitGate true (setTokenSupply "1" data) Demo.verified
  /\ Form.validateStep data 3 Demo.verified
     = Form.validateStep (setTokenSupply "1" data) 3 Demo.verified
  /\ Solana.initialSupply data = Solana.initialSupply (setTokenSupply "1" data).
Proof.
  exact (supply_is_read_up_to_the_first_comma
           (setTokenSupply "1,000" Demo.formData) "1" "000" true Demo.verified eq_refl).
Defined.

(** The supply step accepts a text with thousands separators as the number
    without them; the balance checks then read it as its first group. *)
Example separators_pass_the_supply_step :
  TokenUtils.validateTokenSupply "1,000,000" = None
  /\ JsNumber.parseFloat "1,000,000" = JsNumber.of_Z 1.
Proof. split; vm_compute; reflexivity. Qed.

End SupplyTextRun.

(** ** What the pipeline needs to return token details *)

Section PipelineGuards.
Context `{W : Web3}.

Lemma BigInt_ok_finite (x : float) (n : Z) :
  JsNumber.BigInt x = Ok n ->
  Prim2SF x <> S754_nan /\ (forall s, Prim2SF x <> S754_infinity s).
Proof.
  unfold JsNumber.BigInt. destruct (Prim2SF x); intros H; try discriminate;
    split; intros; discriminate.
Qed.

Lemma SFmul_nan_l (y : spec_float) : SFmul prec emax S754_nan y = S754_nan.
Proof. reflexivity. Qed.

Lemma SFmul_nan_r (x : spec_float) : SFmul prec emax x S754_nan = S754_nan.
Proof. now destruct x. Qed.

Lemma SFmul_infinity_l (s : bool) (y : spec_float) :
  SFmul prec emax (S754_infinity s) y = S754_nan
  \/ exists s', SFmul prec emax (S754_infinity s) y = S754_infinity s'.
Proof. destruct y; cbn; eauto. Qed.

Lemma pow10_nan (d : float) : is_nan d = true -> Prim2SF (JsNumber.pow10 d) = S754_nan.
Proof.
  intros Hd. unfold JsNumber.pow10.
  pose proof (proj1 (is_nan_Prim2SF d) Hd) as Hsf.
  unfold JsNumber.BigInt. rewrite Hsf, Hd. reflexivity.
Qed.

Lemma is_nan_false_Prim2SF (x : float) : is_nan x = false <-> Prim2SF x <> S754_nan.
Proof.
  rewrite <- is_nan_Prim2SF. destruct (is_nan x); split; congruence.
Qed.

Lemma initialSupply_ok (formData : TokenFormData) (n : Z) :
  Solana.initialSupply formData = Ok n ->
  is_nan (JsNumber.parseFloat (tokenSupply formData)) = false
  /\ (forall s, Prim2SF (JsNumber.parseFloat (tokenSupply formData)) <> S754_infinity s)
  /\ is_nan (JsNumber.parseInt (tokenDecimals formData)) = false.
Proof.
  unfold Solana.initialSupply. intros H.
  apply BigInt_ok_finite in H as [Hnan Hinf].
  rewrite FloatAxioms.mul_spec in Hnan.
  assert (Hinf' : forall s,
    SFmul prec emax (Prim2SF (JsNumber.parseFloat (tokenSupply formData)))
      (Prim2SF (JsNumber.pow10 (JsNumber.parseInt (tokenDecimals formData))))
    <> S754_infinity s).
  { intros s. rewrite <- FloatAxioms.mul_spec. apply Hinf. }
  split; [|split].
  - apply is_nan_false_Prim2SF. intros E. rewrite E in Hnan. now apply Hnan.
  - intros s E. rewrite E in Hnan, Hinf'.
    destruct (SFmul_infinity_l s
      (Prim2SF (JsNumber.pow10 (JsNumber.parseInt (tokenDecimals formData)))))
      as [E' | [s' E']]; [now apply Hnan | now apply (Hinf' s')].
  - destruct (is_nan (JsNumber.parseInt (tokenDecimals formData))) eqn:Hd; [|reflexivity].
    rewrite (pow10_nan _ Hd), SFmul_nan_r in Hnan. now destruct Hnan.
Qed.

Lemma createSPLToken_ok (connection : Solana.Connection) (payer : PublicKey)
    (signTransaction : Solana.Transaction -> result Solana.Transaction)
    (formData : TokenFormData) (details : Solana.TokenDetails) :
  Solana.createSPLToken connection payer signTransaction formData = Ok details ->
  exists transaction blockhash height signed signature,
    Solana.buildTransaction connection payer formData = Ok transaction /\
    Solana.getLatestBlockhash connection = Ok (blockhash, height) /\
    signTransaction
      (Solana.mkTransaction (Solana.instructions transaction) (Some payer)
         (Some blockhash) [Solana.generate connection]) = Ok signed /\
    Solana.sendRawTransaction connection signed = Ok signature /\
    Solana.confirmTransaction connection signature blockhash height = Ok None /\
    details =
      Solana.mkTokenDetails
        (toString (Solana.generate connection))
        (match mintAuthority formData with
         | transfer => toString (Solana.resolveRecipient payer formData)
         | keep => toString payer
         end)
        (if freezeAuthority formData then Some (toString payer) else None)
        (tokenSupply formData)
        (JsNumber.parseInt (tokenDecimals formData))
        signature.
Proof.
  unfold Solana.createSPLToken. intros H.
  destruct (Solana.buildTransaction connection payer formData)
    as [transaction|] eqn:Hbuild; [|discriminate].
  apply buildTransaction_ok in Hbuild as Hshape.
  destruct Hshape as (rent & decimals & ata & n & n' & amount & _ & _ & _ & _ & _ & _ & Hshape).
  assert (Hsig : Solana.signatures transaction = []) by now rewrite Hshape.
  cbn in H. rewrite Hsig in H.
  destruct (Solana.getLatestBlockhash connection) as [[blockhash height]|]; [|discriminate].
  cbn in H.
  destruct (signTransaction _) as [signed|] eqn:Hsign; [|discriminate].
  cbn in H.
  destruct (Solana.sendRawTransaction connection signed) as [signature|] eqn:Hsend;
    [|discriminate].
  cbn in H.
  destruct (Solana.confirmTransaction connection signature blockhash height)
    as [[err|]|] eqn:Hconfirm; try discriminate.
  cbn in H. injection H as <-.
  exists transaction, blockhash, height, signed, signature. repeat split; assumption.
Qed.

(** X2.  Token details are returned only for a supply text that parses to a
    finite number and a decimals text that parses to a number: a supply or
    decimals that reads as NaN, or an infinite supply, makes the pipeline
    throw, whatever the network and the wallet answer. *)
Theorem token_details_need_numeric_supply_and_decimals
    (connection : Solana.Connection) (payer : PublicKey)
    (signTransaction : Solana.Transaction -> result Solana.Transaction)
    (formData : TokenFormData) (details : Solana.TokenDetails) :
  Solana.createSPLToken connection payer signTransaction formData = Ok details ->
  is_nan (JsNumber.parseFloat (tokenSupply formData)) = false
  /\ (forall s, Prim2SF (JsNumber.parseFloat (tokenSupply formData)) <> S754_infinity s)
  /\ is_nan (Solana.decimals details) = false.
Proof.
  intros H. apply createSPLToken_ok in H
    as (transaction & blockhash & height & signed & signature & Hbuild & _ & _ & _ & _ & ->).
  apply buildTransaction_ok in Hbuild
    as (rent & decimals & ata & n & n' & amount & _ & _ & _ & Hsupply & _).
  exact (initialSupply_ok formData n Hsupply).
Qed.

(** X3.  The mint authority reported in the token details is the key that
    holds it once the transaction is through: the recipient exactly when the
    transaction carries the authority transfer, the payer otherwise; the
    reported token address is the generated mint account, the reported
    transaction id is the signature under which the signed transaction was
    sent, and the reported supply is the supply text as typed. *)
Theorem reported_details_match_the_transaction
    (connection : Solana.Connection) (payer : PublicKey)
    (signTransaction : Solana.Transaction -> result Solana.Transaction)
    (formData : TokenFormData) (details : Solana.TokenDetails) :
  Solana.createSPLToken connection payer signTransaction formData = Ok details ->
  exists transaction signed,
    Solana.buildTransaction connection payer formData = Ok transaction /\
    Solana.sendRawTransaction connection signed = Ok (Solana.transactionId details) /\
    Solana.tokenAddress details = toString (Solana.generate connection) /\
    Solana.supply details = tokenSupply formData /\
    (forall k,
       Solana.SetAuthority (Solana.generate connection) payer Solana.MintTokens (Some k)
         ∈ Solana.instructions transaction ->
       Solana.detailsMintAuthority details = toString k) /\
    ((forall mint from type k,
        Solana.SetAuthority mint from type k ∉ Solana.instructions transaction) ->
     Solana.detailsMintAuthority details = toString payer).
Proof.
  intros H. apply createSPLToken_ok in H
    as (transaction & blockhash & height & signed & signature
        & Hbuild & _ & _ & Hsend & _ & ->).
  exists transaction, signed. split; [exact Hbuild|]. split; [exact Hsend|].
  split; [reflexivity|]. split; [reflexivity|].
  apply buildTransaction_ok in Hbuild
    as (rent & decimals & ata & n & n' & amount & _ & _ & _ & _ & _ & _ & ->).
  cbn [Solana.instructions Solana.detailsMintAuthority].
  pose proof (transfersAuthority_spec payer (Solana.resolveRecipient payer formData) formData)
    as Hspec.
  destruct (Solana.transfersAuthority payer (Solana.resolveRecipient payer formData) formData).
  - destruct (proj1 Hspec eq_refl) as [-> Hne]. split.
    + intros k Hk. cbn [app] in Hk. rewrite !elem_of_cons in Hk.
      destruct Hk as [Hk|[Hk|[Hk|[Hk|[Hk|Hk]]]]]; try discriminate.
      * now injection Hk as <-.
      * now apply elem_of_nil in Hk.
    + intros Hnone. exfalso. eapply Hnone. cbn [app]. rewrite !elem_of_cons.
      do 4 right. left. reflexivity.
  - split.
    + intros k Hk. cbn [app] in Hk. rewrite !elem_of_cons in Hk.
      destruct Hk as [Hk|[Hk|[Hk|[Hk|Hk]]]]; try discriminate.
      now apply elem_of_nil in Hk.
    + intros _. destruct (mintAuthority formData) eqn:Hm; [reflexivity|].
      destruct (String.eqb_spec (toString (Solana.resolveRecipient payer formData))
                  (toString payer)) as [E | Hne]; [exact E|].
      assert (false = true) as [=]. apply Hspec. split; [reflexivity|].
      intros E. apply Hne. now rewrite E.
Qed.

End PipelineGuards.

Section PipelineGuardsRun.
#[local] Existing Instance Demo.web3.

Lemma token_details_need_numeric_supply_and_decimals_witness :
  is_nan (JsNumber.parseFloat (tokenSupply Demo.formData)) = false
  /\ (forall s, Prim2SF (JsNumber.parseFloat (tokenSupply Demo.formData)) <> S754_infinity s)
  /\ is_nan (Solana.decimals DemoToken.details) = false.
Proof.
  assert (H : Solana.createSPLToken Demo.connection Demo.payer DemoToken.sign Demo.formData
              = Ok DemoToken.details) by (vm_compute; reflexivity).
  exact (token_details_need_numeric_supply_and_decimals
           Demo.connection Demo.payer DemoToken.sign Demo.formData DemoToken.details H).
Defined.

Lemma reported_details_match_the_transaction_witness :
  exists transaction,
    Solana.buildTransaction Demo.connection Demo.payer Demo.formData = Ok transaction /\
    Solana.tokenAddress DemoToken.details = toString Demo.mint /\
    (forall k,
       Solana.SetAuthority Demo.mint Demo.payer Solana.MintTokens (Some k)
         ∈ Solana.instructions transaction ->
       Solana.detailsMintAuthority DemoToken.details = toString k).
Proof.
  assert (H : Solana.createSPLToken Demo.connection Demo.payer DemoToken.sign Demo.formData
              = Ok DemoToken.details) by (vm_compute; reflexivity).
  destruct (reported_details_match_the_transaction
              Demo.connection Demo.payer DemoToken.sign Demo.formData DemoToken.details H)
    as (transaction & signed & Hbuild & _ & Haddr & _ & Hset & _).
  exists transaction. split; [exact Hbuild|]. split; [exact Haddr | exact Hset].
Defined.

End PipelineGuardsRun.

(** ** Submitting the form *)

Section Submit.
Context `{W : Web3}.

Variable connection : Solana.Connection.
Variable apiRequest : Form.RecordMintRequest -> result ().

Lemma submitGate_proceed (connected : bool) (data : TokenFormData) (st st' : Form.State) :
  Form.submitGate connected data st = (Form.Proceed, st') ->
  connected = true /\ st' = st /\
  exists bank,
    Form.verifiedBankAccount st = Some bank /\
    JsNumber.gtb (JsNumber.parseFloat (tokenSupply data)) (availableBalance bank) = false.
Proof.
  unfold Form.submitGate. destruct connected; [|discriminate]. cbn [negb].
  destruct (Form.verifiedBankAccount st) as [bank|]; [|discriminate].
  destruct (JsNumber.gtb _ _) eqn:Hgt; [discriminate|].
  intros [= <-]. eauto.
Qed.

(** X4.  A token is created only for a connected wallet, after a bank
    snapshot was verified, and for a supply that is a number within the
    snapshot's available balance (the balance being a number); the wizard's
    state is then left as it was, the pipeline ran on the submitted data, and
    the mint reported to the server is the parsed supply of the created token
    under the wallet's address, whether or not the server accepts it. *)
Theorem token_created_only_within_verified_balance
    (publicKey : option PublicKey)
    (wallet : option (Solana.Transaction -> result Solana.Transaction))
    (data : TokenFormData) (st st' : Form.State)
    (details : Solana.TokenDetails) (recorded : bool) :
  Form.onSubmit connection publicKey wallet apiRequest data st
    = (Form.TokenCreated details recorded, st') ->
  exists payer signer bank,
    publicKey = Some payer /\ wallet = Some signer /\
    Form.verifiedBankAccount st = Some bank /\
    (is_nan (availableBalance bank) = false ->
     (JsNumber.parseFloat (tokenSupply data) <=? availableBalance bank)%float = true) /\
    st' = st /\
    is_ok (Solana.buildTransaction connection payer data) = true /\
    recorded =
      is_ok (apiRequest
               (Form.mkRecordMintRequest (toString payer)
                  (toString (Solana.generate connection))
                  (JsNumber.parseFloat (tokenSupply data))
                  (Solana.transactionId details))).
Proof.
  unfold Form.onSubmit. intros H.
  destruct publicKey as [payer|]; [|discriminate].
  destruct wallet as [signer|]; [|discriminate].
  destruct (Form.submitGate true data st) as [gate st0] eqn:Hgate.
  destruct gate; try discriminate.
  apply submitGate_proceed in Hgate as (_ & -> & bank & Hbank & Hgt).
  destruct (Solana.createSPLToken _ _ _ _) as [tokenDetails|] eqn:Hcreate; [|discriminate].
  injection H as <- <- <-.
  apply createSPLToken_ok in Hcreate
    as (transaction & blockhash & height & signed & signature & Hbuild & _ & _ & _ & _ & ->).
  pose proof Hbuild as Hshape.
  apply buildTransaction_ok in Hshape
    as (rent & decimals & ata & n & n' & amount & _ & _ & _ & Hsupply & _).
  apply initialSupply_ok in Hsupply as (Hnan & _ & _).
  exists payer, signer, bank. repeat split; try reflexivity.
  - exact Hbank.
  - intros Hb. now apply gtb_false_iff_leb.
  - now rewrite Hbuild.
Qed.

(** Whatever [onSubmit] does, it never changes the verified snapshot or the
    field errors; it moves the wizard only back to the verification step (no
    snapshot) or to the supply step (supply over the balance). *)
Lemma onSubmit_state
    (publicKey : option PublicKey)
    (wallet : option (Solana.Transaction -> result Solana.Transaction))
    (data : TokenFormData) (st : Form.State) :
  let st' := snd (Form.onSubmit connection publicKey wallet apiRequest data st) in
  Form.verifiedBankAccount st' = Form.verifiedBankAccount st
  /\ Form.errors st' = Form.errors st
  /\ (Form.currentStep st' = Form.currentStep st
      \/ (Form.currentStep st' = 3 /\ Form.verifiedBankAccount st = None)
      \/ (Form.currentStep st' = 2 /\
          exists bank, Form.verifiedBankAccount st = Some bank /\
            JsNumber.gtb (JsNumber.parseFloat (tokenSupply data)) (availableBalance bank)
            = true)).
Proof.
  cbv zeta. unfold Form.onSubmit.
  destruct publicKey as [payer|]; [|cbn; auto].
  destruct wallet as [signer|]; [|cbn; auto].
  unfold Form.submitGate. cbn [negb].
  destruct (Form.verifiedBankAccount st) as [bank|] eqn:Hbank.
  - destruct (JsNumber.gtb _ _) eqn:Hgt.
    + cbn. rewrite Hbank. split; [reflexivity|]. split; [reflexivity|].
      right. right. split; [reflexivity|]. eauto.
    + destruct (Solana.createSPLToken _ _ _ _); cbn; rewrite Hbank; auto.
  - cbn. rewrite Hbank. intuition auto.
Qed.

End Submit.

Section SubmitDemo.
#[local] Existing Instance Demo.web3.

Lemma token_created_only_within_verified_balance_witness :
  exists bank,
    Form.verifiedBankAccount (Form.forceAdvance Form.initialState) = Some bank
    /\ (JsNumber.parseFloat (tokenSupply Demo.formData) <=? availableBalance bank)%float
       = true.
Proof.
  assert (H : Form.onSubmit Demo.connection (Some Demo.payer) (Some DemoToken.sign)
                (fun _ => Ok ()) Demo.formData (Form.forceAdvance Form.initialState)
              = (Form.TokenCreated DemoToken.details true,
                 Form.forceAdvance Form.initialState)) by reflexivity.
  destruct (token_created_only_within_verified_balance _ _ _ _ _ _ _ _ _ H)
    as (payer & signer & bank & _ & _ & Hbank & Hle & _).
  exists bank. split; [exact Hbank|]. apply Hle.
  injection Hbank as <-. reflexivity.
Defined.

End SubmitDemo.

(** ** The wizard under any sequence of events *)

Section WizardRuns.
Context `{W : Web3}.

Lemma validateStep_snapshot (formData : TokenFormData) (step : Z) (st : Form.State) :
  Form.verifiedBankAccount (snd (Form.validateStep formData step st))
  = Form.verifiedBankAccount st.
Proof.
  unfold Form.validateStep.
  repeat match goal with
         | |- context [if ?b then _ else _] => destruct b
         | |- context [match Form.verifiedBankAccount st with _ => _ end] =>
           destruct (Form.verifiedBankAccount st) eqn:?
         end; cbn; congruence.
Qed.

Lemma nextStep_snapshot (formData : TokenFormData) (st : Form.State) :
  Form.verifiedBankAccount (Form.nextStep formData st) = Form.verifiedBankAccount st.
Proof.
  unfold Form.nextStep.
  pose proof (validateStep_snapshot formData (Form.currentStep st) st) as H.
  destruct (Form.validateStep formData (Form.currentStep st) st) as [[] st']; exact H.
Qed.

(** What one event does to the snapshot. *)
Lemma handle_snapshot (st : Form.State) (e : Wizard.Event) :
  Form.verifiedBankAccount (Wizard.handle st e) =
    match e with
    | Wizard.BankVerified bankInfo => Some bankInfo
    | Wizard.ForceAdvance =>
      match Form.verifiedBankAccount st with
      | None => Some fallbackBankAccount
      | Some b => Some b
      end
    | _ => Form.verifiedBankAccount st
    end.
Proof.
  destruct e; cbn [Wizard.handle].
  - apply nextStep_snapshot.
  - reflexivity.
  - apply onSubmit_state.
  - reflexivity.
  - unfold Form.forceAdvance.
    destruct (Form.verifiedBankAccount st) eqn:E; cbn; rewrite ?E; reflexivity.
Qed.

Lemma run_snoc (events : list Wizard.Event) (e : Wizard.Event) (st : Form.State) :
  Wizard.run (events ++ [e]) st = Wizard.handle (Wizard.run events st) e.
Proof. unfold Wizard.run. now rewrite foldl_app. Qed.

(** Where the snapshot held after a run comes from. *)
Lemma run_snapshot_origin
    (events : list Wizard.Event) (st : Form.State) (b : BankAccount) :
  Form.verifiedBankAccount (Wizard.run events st) = Some b ->
  Form.verifiedBankAccount st = Some b
  \/ b = fallbackBankAccount
  \/ Wizard.BankVerified b ∈ events.
Proof.
  revert b. induction events as [|e events IH] using rev_ind; intros b Hb.
  - now left.
  - rewrite run_snoc, handle_snapshot in Hb.
    assert (Hless : forall b', Form.verifiedBankAccount (Wizard.run events st) = Some b' ->
              Form.verifiedBankAccount st = Some b'
              \/ b' = fallbackBankAccount
              \/ Wizard.BankVerified b' ∈ events ++ [e]).
    { intros b' Hb'. destruct (IH b' Hb') as [H | [H | H]]; auto.
      right. right. apply elem_of_app. now left. }
    destruct e; auto.
    + injection Hb as <-. right. right. apply elem_of_app. right. apply elem_of_cons.
      now left.
    + destruct (Form.verifiedBankAccount (Wizard.run events st)) as [b'|] eqn:Hrun.
      * injection Hb as <-. now apply Hless.
      * injection Hb as <-. auto.
Qed.

(** X5.  The snapshot the wizard holds is never invented by navigation or
    submission: after any sequence of events it is the one it started with,
    one delivered by the bank-link step, or the fabricated fallback; it is
    never cleared, and without a new delivery a snapshot once held stays. *)
Theorem snapshot_comes_from_the_bank_step
    (events : list Wizard.Event) (st : Form.State) (b : BankAccount) :
  Form.verifiedBankAccount (Wizard.run events st) = Some b ->
  (Form.verifiedBankAccount st = Some b
   \/ b = fallbackBankAccount
   \/ Wizard.BankVerified b ∈ events)
  /\ (forall b0, Form.verifiedBankAccount st = Some b0 ->
        forallb (fun e => negb (Wizard.isBankVerified e)) events = true -> b = b0).
Proof.
  revert b. induction events as [|e events IH] using rev_ind; intros b Hb.
  - cbn in Hb. split; [now left|]. intros b0 H0 _. congruence.
  - rewrite run_snoc, handle_snapshot in Hb. split.
    + destruct e.
      1-3: destruct (IH b Hb) as [[H | [H | H]] _]; auto;
           right; right; apply elem_of_app; now left.
      * injection Hb as <-. right. right. apply elem_of_app. right. apply elem_of_cons.
        now left.
      * destruct (Form.verifiedBankAccount (Wizard.run events st)) as [b'|] eqn:Hrun.
        -- destruct (IH b' eq_refl) as [[H | [H | H]] _]; injection Hb as <-; auto.
           right; right; apply elem_of_app; now left.
        -- injection Hb as <-. auto.
    + intros b0 H0 Hall. rewrite forallb_app in Hall.
      apply andb_prop in Hall as [Hall He].
      destruct e; try discriminate.
      1-3: exact (proj2 (IH b Hb) b0 H0 Hall).
      destruct (Form.verifiedBankAccount (Wizard.run events st)) as [b'|] eqn:Hrun.
      * injection Hb as <-. exact (proj2 (IH b' eq_refl) b0 H0 Hall).
      * exfalso. clear IH Hb He.
        revert Hrun Hall. induction events as [|e events IH] using rev_ind; intros Hrun Hall.
        -- cbn in Hrun. congruence.
        -- rewrite run_snoc, handle_snapshot in Hrun. rewrite forallb_app in Hall.
           apply andb_prop in Hall as [Hall He].
           destruct e; try discriminate; auto.
           destruct (Form.verifiedBankAccount (Wizard.run events st)); discriminate.
Qed.

Lemma validateStep_step (formData : TokenFormData) (step : Z) (st : Form.State) :
  let r := Form.validateStep formData step st in
  (fst r = true -> Form.currentStep (snd r) = Form.currentStep st
                   /\ (step = 3 -> is_Some (Form.verifiedBankAccount st)))
  /\ (fst r = false -> Form.currentStep (snd r) = Form.currentStep st
                       \/ Form.currentStep (snd r) = 2).
Proof.
  cbv zeta. unfold Form.validateStep.
  destruct (step =? 1) eqn:E1.
  { cbn. split; intros _; [split; [reflexivity | lia] | now left]. }
  destruct (step =? 2) eqn:E2.
  { cbn. split; intros _; [split; [reflexivity | lia] | now left]. }
  destruct (step =? 3) eqn:E3.
  { destruct (Form.verifiedBankAccount st) eqn:Hb.
    - destruct (JsNumber.gtb _ _); cbn; split; try discriminate; intros _.
      + now right.
      + split; [reflexivity | eauto].
    - cbn. split; [discriminate | now left]. }
  destruct (step =? 4) eqn:E4.
  { cbn. split; intros _; [split; [reflexivity | lia] | now left]. }
  cbn. split; intros _; [split; [reflexivity | lia] | now left].
Qed.

(** X6.  From the initial state, whatever the sequence of events, the wizard
    is past the verification step only while it holds a snapshot. *)
Theorem past_verification_only_with_a_snapshot (events : list Wizard.Event) :
  let st := Wizard.run events Form.initialState in
  Form.currentStep st <= 3 \/ is_Some (Form.verifiedBankAccount st).
Proof.
  cbv zeta. induction events as [|e events IH] using rev_ind.
  - left. cbn. lia.
  - rewrite run_snoc. set (st := Wizard.run events Form.initialState) in *.
    pose proof (handle_snapshot st e) as Hsnap.
    destruct e; cbn [Wizard.handle] in *.
    + rewrite Hsnap. unfold Form.nextStep.
      pose proof (validateStep_step formData (Form.currentStep st) st) as Hv.
      destruct (Form.validateStep formData (Form.currentStep st) st) as [[] st'];
        cbn [fst snd] in Hv; destruct Hv as [Ht Hf].
      * destruct (Ht eq_refl) as [_ H3]. cbn.
        destruct IH as [IH | IH]; [|now right].
        destruct (decide (Form.currentStep st = 3)) as [E | E]; [right; auto | left; lia].
      * cbn. destruct (Hf eq_refl) as [E | E]; rewrite E; [exact IH | left; lia].
    + rewrite Hsnap. cbn. destruct IH as [IH | IH]; [left; lia | now right].
    + rewrite Hsnap.
      destruct IH as [IH | IH]; [|now right].
      destruct (onSubmit_state connection apiRequest publicKey wallet data st)
        as (_ & _ & [E | [[E _] | [E _]]]); rewrite E; left; lia.
    + right. rewrite Hsnap. eauto.
    + right. rewrite Hsnap. destruct (Form.verifiedBankAccount st); eauto.
Qed.

End WizardRuns.

Section WizardRunsDemo.
#[local] Existing Instance Demo.web3.

Lemma snapshot_comes_from_the_bank_step_witness :
  let bank := mkBankAccount "First Platypus Bank" "Plaid Checking" "0000"
                (JsNumber.of_Z 500) (JsNumber.of_Z 500) in
  let events := [Wizard.ForceAdvance; Wizard.ClickPrev; Wizard.BankVerified bank;
                 Wizard.ForceAdvance] in
  (Form.verifiedBankAccount Form.initialState = Some bank
   \/ bank = fallbackBankAccount
   \/ Wizard.BankVerified bank ∈ events)
  /\ (forall b0, Form.verifiedBankAccount Form.initialState = Some b0 ->
        forallb (fun e => negb (Wizard.isBankVerified e)) events = true -> bank = b0).
Proof.
  intros bank events.
  exact (snapshot_comes_from_the_bank_step events Form.initialState bank eq_refl).
Defined.

End WizardRunsDemo.

(** ** The bank-link step under any sequence of events *)

Section LinkRuns.
Context {S : Type}.
Variable onBankVerified : BankAccount -> S -> result S.
Variable forceAdvance : option (S -> S).

#[local] Abbreviation Page := (PlaidLink.Page (S := S)).
#[local] Abbreviation handle := (LinkEvents.handle onBankVerified forceAdvance).
#[local] Abbreviation run := (LinkEvents.run onBankVerified forceAdvance).

Lemma notify_component (b : BankAccount) (p : Page) :
  PlaidLink.component (PlaidLink.notify onBankVerified forceAdvance b p)
  = PlaidLink.component p
  /\ PlaidLink.requests (PlaidLink.notify onBankVerified forceAdvance b p)
     = PlaidLink.requests p.
Proof.
  unfold PlaidLink.notify.
  destruct (onBankVerified b (PlaidLink.parent p)); [now split|].
  destruct forceAdvance; now split.
Qed.

Lemma link_run_snoc (events : list LinkEvents.Event) (e : LinkEvents.Event) (p : Page) :
  run (events ++ [e]) p = handle (run events p) e.
Proof. unfold LinkEvents.run. now rewrite foldl_app. Qed.

(** What one event does to the two flags and to the list of requests. *)
Lemma handle_flags (p : Page) (e : LinkEvents.Event) :
  let c := PlaidLink.component p in
  let c' := PlaidLink.component (handle p e) in
  (PlaidLink.success c = true -> PlaidLink.success c' = true)
  /\ PlaidLink.fallbackMode c' = PlaidLink.fallbackMode c || LinkEvents.failed e
  /\ PlaidLink.requests (handle p e)
     = PlaidLink.requests p ++ option_list (LinkEvents.request e).
Proof.
  cbv zeta. destruct e as [pk r | pk tok r | err | | pk r]; cbn [LinkEvents.handle].
  - unfold PlaidLink.getLinkToken. destruct pk as [w|].
    + destruct r as [| status | | link_token]; cbn;
        try destruct (String.eqb link_token ""); cbn;
        rewrite ?orb_true_r, ?orb_false_r; auto.
    + cbn. rewrite orb_false_r, app_nil_r. auto.
  - unfold PlaidLink.handleSuccess. destruct pk as [w|].
    + destruct r as [| | [] [b|]]; cbn;
        rewrite ?orb_true_r, ?orb_false_r; auto.
      match goal with
      | |- context [PlaidLink.notify _ _ ?b ?q] =>
        destruct (notify_component b q) as [-> ->]
      end.
      cbn. auto.
    + cbn. rewrite orb_false_r, app_nil_r. auto.
  - unfold PlaidLink.handleExit. destruct err; cbn; rewrite orb_false_r, app_nil_r; auto.
  - unfold PlaidLink.handleFallbackVerification.
    match goal with
    | |- context [PlaidLink.notify _ _ ?b ?q] =>
      destruct (notify_component b q) as [-> ->]
    end.
    cbn. rewrite orb_false_r, app_nil_r. auto.
  - unfold PlaidLink.tryAgain. destruct pk as [w|].
    + destruct r as [| status | | link_token]; cbn;
        try destruct (String.eqb link_token ""); cbn;
        rewrite ?orb_true_r, ?orb_false_r; auto.
    + cbn. rewrite orb_false_r, app_nil_r. auto.
Qed.

(** X7.  The success screen is final: once the component has shown it, no
    later callback or button takes it away. *)
Theorem success_screen_is_final (events : list LinkEvents.Event) (p : Page) :
  PlaidLink.success (PlaidLink.component p) = true ->
  PlaidLink.view (PlaidLink.component (run events p)) = PlaidLink.SuccessView.
Proof.
  intros H.
  assert (Hs : PlaidLink.success (PlaidLink.component (run events p)) = true).
  { induction events as [|e events IH] using rev_ind; [exact H|].
    rewrite link_run_snoc. now apply handle_flags. }
  unfold PlaidLink.view. now rewrite Hs.
Qed.

(** X8.  The fallback mode is entered exactly by a failed request - a link
    token that could not be obtained, on mount or on retry, or an exchange
    that failed - made with a wallet connected; it is never left again, so
    the plain error screen with its retry button does not come back. *)
Theorem fallback_mode_iff_a_request_failed (events : list LinkEvents.Event) (p : Page) :
  PlaidLink.fallbackMode (PlaidLink.component (run events p))
  = PlaidLink.fallbackMode (PlaidLink.component p) || existsb LinkEvents.failed events.
Proof.
  induction events as [|e events IH] using rev_ind.
  - cbn. now rewrite orb_false_r.
  - rewrite link_run_snoc, existsb_app. cbn [existsb].
    destruct (handle_flags (run events p) e) as (_ & -> & _).
    rewrite IH, orb_false_r. now rewrite orb_assoc.
Qed.

(** X9.  The requests the component sends are exactly those of its events, in
    order: one link-token request per mount or retry and one exchange per
    Plaid success, each under the wallet connected at that moment; without a
    wallet, on exit and on the fallback button nothing is sent. *)
Theorem requests_follow_the_events (events : list LinkEvents.Event) (p : Page) :
  PlaidLink.requests (run events p)
  = PlaidLink.requests p ++ omap LinkEvents.request events.
Proof.
  induction events as [|e events IH] using rev_ind.
  - cbn. now rewrite app_nil_r.
  - rewrite link_run_snoc.
    destruct (handle_flags (run events p) e) as (_ & _ & ->).
    rewrite IH, omap_app, <- app_assoc. cbn.
    now destruct (LinkEvents.request e).
Qed.

End LinkRuns.

Section LinkRunsDemo.

Lemma success_screen_is_final_witness :
  PlaidLink.view
    (PlaidLink.component
       (LinkEvents.run BankStep.onBankVerified BankStep.forceAdvance
          [LinkEvents.LinkExited true;
           LinkEvents.TryAgain None PlaidLink.LinkFetchRejected]
          (BankStep.handleFallbackVerification (BankStep.mount Form.initialState))))
  = PlaidLink.SuccessView.
Proof.
  apply (success_screen_is_final BankStep.onBankVerified BankStep.forceAdvance).
  reflexivity.
Defined.

End LinkRunsDemo.

(** ** The snapshot the bank-link step hands to the wizard *)

Section Delivered.

Lemma or_else_nonempty (a b : string) : b <> "" -> or_else a b <> "".
Proof.
  intros Hb. unfold or_else. destruct (String.eqb_spec a ""); assumption.
Qed.

Lemma parsedBalance_is_number (j : PlaidLink.JsonBalance) :
  LinkEvents.parsedBalance j = true -> is_nan (PlaidLink.coerceBalance j) = false.
Proof.
  intros Hj. apply coerceBalance_is_number. intros x ->. cbn in Hj.
  now destruct (is_nan x).
Qed.

Lemma fallbackBankAccount_wellFormed : wellFormed fallbackBankAccount.
Proof. repeat split; cbn; try discriminate; vm_compute; reflexivity. Qed.

Lemma coerceName_nonempty (j : PlaidLink.JsonName) (fallback : string) :
  LinkEvents.textualName j = true -> fallback <> "" ->
  PlaidLink.coerceName j fallback <> "".
Proof.
  destruct j as [|s|text]; cbn; intros Hj Hfallback.
  - exact Hfallback.
  - now apply or_else_nonempty.
  - discriminate.
Qed.

(** X10.  Whatever the answers of the server (as JSON can carry them), the
    snapshot the mounted bank-link step leaves in the wizard is one the wizard
    already held or one whose balances are numbers; its institution, account
    name and mask are non-empty as well when the name fields of every
    exchange answer were strings or absent, as the exchange route sends
    them. *)
Theorem delivered_snapshot_is_well_formed
    (events : list LinkEvents.Event) (p : BankStep.Page) (b : BankAccount) :
  forallb LinkEvents.parsed events = true ->
  Form.verifiedBankAccount
    (PlaidLink.parent
       (LinkEvents.run BankStep.onBankVerified BankStep.forceAdvance events p)) = Some b ->
  Form.verifiedBankAccount (PlaidLink.parent p) = Some b
  \/ (is_nan (currentBalance b) = false /\ is_nan (availableBalance b) = false
      /\ (forallb LinkEvents.textual events = true -> wellFormed b)).
Proof.
  revert b. induction events as [|e events IH] using rev_ind; intros b Hall Hb.
  - now left.
  - rewrite forallb_app in Hall. apply andb_prop in Hall as [Hall He].
    cbn [forallb] in He. rewrite andb_true_r in He.
    rewrite link_run_snoc in Hb.
    set (q := LinkEvents.run BankStep.onBankVerified BankStep.forceAdvance events p) in *.
    assert (Hkept : Form.verifiedBankAccount (PlaidLink.parent q) = Some b ->
      Form.verifiedBankAccount (PlaidLink.parent p) = Some b
      \/ (is_nan (currentBalance b) = false /\ is_nan (availableBalance b) = false
          /\ (forallb LinkEvents.textual (events ++ [e]) = true -> wellFormed b))).
    { intros Hq. destruct (IH b Hall Hq) as [Hheld | (Hc & Ha & Hnames)]; [now left|].
      right. split; [exact Hc|]. split; [exact Ha|].
      rewrite forallb_app. intros Ht. apply andb_prop in Ht as [Ht _]. now apply Hnames. }
    destruct e as [pk r | pk tok r | err | | pk r]; cbn [LinkEvents.handle] in Hb.
    + apply Hkept. revert Hb. unfold PlaidLink.getLinkToken.
      destruct pk; [|exact id].
      destruct r as [| status | | link_token]; try exact id.
      destruct (String.eqb link_token ""); exact id.
    + unfold PlaidLink.handleSuccess in Hb. destruct pk as [w|]; [|now apply Hkept].
      destruct r as [| | [] [eb|]]; try (now apply Hkept).
      cbn in Hb. injection Hb as <-. right.
      cbn in He. apply andb_prop in He as [Hc Ha].
      cbn [currentBalance availableBalance].
      split; [now apply parsedBalance_is_number|].
      split; [now apply parsedBalance_is_number|].
      rewrite forallb_app. intros Ht. apply andb_prop in Ht as [_ Ht].
      cbn in Ht. rewrite andb_true_r in Ht.
      apply andb_prop in Ht as [Ht Hmask]. apply andb_prop in Ht as [Hinstitution Hname].
      repeat split; cbn [institutionName accountName accountMask currentBalance
                         availableBalance].
      1-3: apply coerceName_nonempty; [assumption | discriminate].
      * now apply parsedBalance_is_number.
      * now apply parsedBalance_is_number.
    + apply Hkept. revert Hb. unfold PlaidLink.handleExit.
      destruct err; exact id.
    + cbn in Hb. injection Hb as <-. right.
      destruct fallbackBankAccount_wellFormed as (H1 & H2 & H3 & H4 & H5).
      split; [exact H4|]. split; [exact H5|]. intros _. now repeat split.
    + apply Hkept. revert Hb. unfold PlaidLink.tryAgain.
      destruct pk; [|exact id].
      destruct r as [| status | | link_token]; try exact id.
      destruct (String.eqb link_token ""); exact id.
Qed.

Lemma delivered_snapshot_is_well_formed_witness :
  let events :=
    [LinkEvents.Mounted (Some "7xKXtg2CW87d97TXJSDpbD5jBkheTqA83TZRuJosgAsU")
       (PlaidLink.LinkBody "link-sandbox-token");
     LinkEvents.LinkSucceeded (Some "7xKXtg2CW87d97TXJSDpbD5jBkheTqA83TZRuJosgAsU")
       "public-sandbox-token"
       (PlaidLink.ExchangeBody true
          (Some (PlaidLink.mkExchangeBankAccount
                   (PlaidLink.NameText "First Platypus Bank") (PlaidLink.NameText "")
                   PlaidLink.NameAbsent
                   (PlaidLink.BalanceText "500.00") PlaidLink.BalanceAbsent)))] in
  let b := mkBankAccount "First Platypus Bank" "Bank Account" "0000"
             (JsNumber.of_Z 500) PrimFloat.zero in
  Form.verifiedBankAccount
    (PlaidLink.parent
       (LinkEvents.run BankStep.onBankVerified BankStep.forceAdvance events
          (BankStep.mount Form.initialState))) = Some b
  /\ forallb LinkEvents.textual events = true
  /\ (Form.verifiedBankAccount (PlaidLink.parent (BankStep.mount Form.initialState)) = Some b
      \/ (is_nan (currentBalance b) = false /\ is_nan (availableBalance b) = false
          /\ wellFormed b)).
Proof.
  intros events b.
  assert (Hrun : Form.verifiedBankAccount
            (PlaidLink.parent
               (LinkEvents.run BankStep.onBankVerified BankStep.forceAdvance events
                  (BankStep.mount Form.initialState))) = Some b)
    by (vm_compute; reflexivity).
  split; [exact Hrun|]. split; [reflexivity|].
  destruct (delivered_snapshot_is_well_formed events (BankStep.mount Form.initialState) b)
    as [Hheld | (Hc & Ha & Hnames)]; [reflexivity | exact Hrun | now left |].
  right. split; [exact Hc|]. split; [exact Ha|]. now apply Hnames.
Defined.

(** A name field that holds an empty array is truthy, so the default is not
    taken, and its text is empty: the snapshot delivered then has an empty
    institution name. *)
Example empty_array_name_is_delivered :
  let events :=
    [LinkEvents.Mounted (Some "7xKXtg2CW87d97TXJSDpbD5jBkheTqA83TZRuJosgAsU")
       (PlaidLink.LinkBody "link-sandbox-token");
     LinkEvents.LinkSucceeded (Some "7xKXtg2CW87d97TXJSDpbD5jBkheTqA83TZRuJosgAsU")
       "public-sandbox-token"
       (PlaidLink.ExchangeBody true
          (Some (PlaidLink.mkExchangeBankAccount
                   (PlaidLink.NameOther "") (PlaidLink.NameText "Plaid Checking")
                   (PlaidLink.NameText "0000")
                   (PlaidLink.BalanceNumber (JsNumber.of_Z 500))
                   (PlaidLink.BalanceNumber (JsNumber.of_Z 500)))))] in
  forallb LinkEvents.parsed events = true /\
  institutionName <$>
    Form.verifiedBankAccount
      (PlaidLink.parent
         (LinkEvents.run BankStep.onBankVerified BankStep.forceAdvance events
            (BankStep.mount Form.initialState)))
  = Some "".
Proof. split; vm_compute; reflexivity. Qed.

End Delivered.

(** ** The server under any sequence of requests *)

Section ServerRuns.
Import Schema PlaidService Routes Server.

Lemma unique_ok_items (rows : list PlaidItem) :
  unique_ok rows = true -> NoDup (map item_id rows).
Proof.
  unfold unique_ok. rewrite andb_true_iff, !bool_decide_eq_true. tauto.
Qed.

Lemma elem_of_map_1 {A B : Type} (f : A -> B) (l : list A) (x : A) :
  x ∈ l -> f x ∈ map f l.
Proof. intros H. change (map f l) with (f <$> l). now apply list_elem_of_fmap_2. Qed.

Lemma elem_of_map_inv {A B : Type} (f : A -> B) (l : list A) (y : B) :
  y ∈ map f l -> exists x, y = f x /\ x ∈ l.
Proof. change (map f l) with (f <$> l). apply list_elem_of_fmap_1. Qed.

Lemma selectPlaidItem_head (db : Database) (w : string) (r : PlaidItem)
    (rest : list PlaidItem) :
  selectPlaidItem db w = r :: rest -> r ∈ plaid_items db /\ wallet_address r = w.
Proof.
  unfold selectPlaidItem. intros H.
  assert (Hr : r ∈ filter (fun r => wallet_address r = w) (plaid_items db)).
  { destruct (filter _ _) as [|x l]; [discriminate|]. cbn in H. injection H as -> _.
    now left. }
  now apply list_elem_of_filter in Hr as [Hw Hr].
Qed.

(** Rewriting rows in place, keeping ids and wallets, keeps the tables sound
    as long as the item index still holds. *)
Lemma sound_rewrite (g : PlaidItem -> PlaidItem) (db : Database) :
  sound db ->
  (forall r, r ∈ plaid_items db -> id (g r) = id r /\ wallet_address (g r) = wallet_address r) ->
  NoDup (map item_id (map g (plaid_items db))) ->
  sound (mkDatabase (map g (plaid_items db)) (plaid_items_id_seq db)
           (stablecoin_mints db) (stablecoin_mints_id_seq db)).
Proof.
  intros [Hw Hi Hid Hseq Hmid Hmseq Href Hdone] Hg Hnd.
  assert (Hids : map id (map g (plaid_items db)) = map id (plaid_items db)).
  { rewrite map_map. apply map_ext_in. intros r Hr. apply Hg. now apply list_elem_of_In. }
  assert (Hws : map wallet_address (map g (plaid_items db))
                = map wallet_address (plaid_items db)).
  { rewrite map_map. apply map_ext_in. intros r Hr. apply Hg. now apply list_elem_of_In. }
  constructor; cbn; try assumption.
  - now rewrite Hws.
  - now rewrite Hids.
  - intros r' Hr'. apply elem_of_map_inv in Hr' as (r & -> & Hr).
    rewrite (proj1 (Hg r Hr)). now apply Hseq.
  - intros m Hm. destruct (Href m Hm) as (r & Hr & Hpid & Hwal).
    exists (g r). destruct (Hg r Hr) as [E1 E2].
    split; [now apply elem_of_map_1|]. rewrite E1, E2. now split.
Qed.

Lemma storePlaidItem_sound (now : Z) (v : PlaidItemValues) (db db' : Database) :
  sound db -> storePlaidItem now v db = Ok db' ->
  sound db' /\ stablecoin_mints db' = stablecoin_mints db.
Proof.
  intros Hs Hstore. unfold storePlaidItem in Hstore.
  destruct (selectPlaidItem db (v_wallet_address v)) as [|existing rest] eqn:Hsel.
  - unfold insertPlaidItem in Hstore.
    apply to_numeric_opt_inv in Hstore as (c & Hc & Hstore).
    apply to_numeric_opt_inv in Hstore as (a & Ha & Hstore).
    destruct (unique_ok _) eqn:Hu; [|discriminate].
    injection Hstore as <-. split; [|reflexivity].
    destruct Hs as [Hw Hi Hid Hseq Hmid Hmseq Href Hdone].
    constructor; cbn; try assumption.
    + now apply unique_ok_wallets.
    + now apply unique_ok_items.
    + rewrite map_app. cbn. apply NoDup_app. split; [exact Hid|].
      split; [|apply NoDup_singleton].
      intros i Hi1 Hi2. apply list_elem_of_singleton in Hi2 as ->.
      apply elem_of_map_inv in Hi1 as (r & Hr1 & Hr2).
      apply Hseq in Hr2. lia.
    + intros r Hr. apply elem_of_app in Hr as [Hr | Hr].
      * apply Hseq in Hr. lia.
      * apply list_elem_of_singleton in Hr as ->. cbn. lia.
    + intros m Hm. destruct (Href m Hm) as (r & Hr & Hrest).
      exists r. split; [apply elem_of_app; now left | exact Hrest].
  - apply selectPlaidItem_head in Hsel as [Hex Hexw].
    unfold updatePlaidItem in Hstore.
    apply to_numeric_opt_inv in Hstore as (c & Hc & Hstore).
    apply to_numeric_opt_inv in Hstore as (a & Ha & Hstore).
    destruct (unique_ok _) eqn:Hu; [|discriminate].
    injection Hstore as <-. split; [|reflexivity].
    apply (sound_rewrite
             (fun r => if bool_decide (id r = id existing) then setPlaidItem v c a r else r));
      [exact Hs | | now apply unique_ok_items].
    intros r Hr. destruct (bool_decide_reflect (id r = id existing)) as [E | E];
      [|now split].
    cbn. split; [reflexivity|].
    assert (r = existing) as ->
      by (apply (same_id_same_row (plaid_items db)); try assumption;
          exact (sound_ids _ Hs)).
    now rewrite Hexw.
Qed.

Lemma exchangePublicToken_sound (plaid : PlaidApi) (now : Z)
    (publicToken walletAddress : string) (db : Database) :
  sound db ->
  let db' := snd (exchangePublicToken plaid now publicToken walletAddress db) in
  sound db' /\ stablecoin_mints db' = stablecoin_mints db.
Proof.
  intros Hs. cbv zeta. unfold exchangePublicToken.
  destruct (fetchLinkedAccount plaid publicToken) as [[[[[[at_ it] ii] iname] acc] bal]|];
    [|now split].
  cbn [snd].
  destruct (storePlaidItem _ _ db) as [db'|] eqn:Hstore; [|now split].
  exact (storePlaidItem_sound _ _ _ _ Hs Hstore).
Qed.

Lemma updateBalances_sound (i : Z) (c a : option Q) (now : Z) (db db' : Database) :
  sound db -> updateBalances i c a now db = Ok db' ->
  sound db' /\ stablecoin_mints db' = stablecoin_mints db.
Proof.
  intros Hs H. unfold updateBalances in H.
  apply to_numeric_opt_inv in H as (c' & Hc & H).
  apply to_numeric_opt_inv in H as (a' & Ha & H).
  injection H as <-. split; [|reflexivity].
  match goal with
  | |- sound (mkDatabase (map ?g _) _ _ _) => apply (sound_rewrite g)
  end; [exact Hs | |].
  - intros r _. cbv beta. destruct (bool_decide (id r = i)); split; reflexivity.
  - rewrite map_map. erewrite map_ext; [exact (sound_items _ Hs)|].
    intros r. cbn. now destruct (bool_decide (id r = i)).
Qed.

Lemma getBankAccountInfo_sound (plaid : PlaidApi) (now : Z) (walletAddress : string)
    (db : Database) :
  sound db ->
  let db' := snd (getBankAccountInfo plaid now walletAddress db) in
  sound db' /\ stablecoin_mints db' = stablecoin_mints db.
Proof.
  intros Hs. cbv zeta. unfold getBankAccountInfo.
  destruct (selectPlaidItem db walletAddress) as [|item rest]; [now split|].
  destruct (accountsBalanceGet plaid _ _ ≫= firstBalances) as [bal|]; [|now split].
  cbn [snd].
  destruct (updateBalances _ _ _ now db) as [db'|] eqn:Hup; [|now split].
  exact (updateBalances_sound _ _ _ _ _ _ Hs Hup).
Qed.

Lemma round_hundredths_nonneg (q : Q) : 0 < Qnum q -> 0 <= round_hundredths q.
Proof.
  intros Hq. unfold round_hundredths.
  rewrite Z.sgn_pos by lia. rewrite Z.mul_1_l.
  apply Z.div_pos; lia.
Qed.

Lemma recordMint_sound (now : Z) (body : Body) (db : Database) :
  sound db -> sound (snd (recordMint now body db)).
Proof.
  intros Hs. unfold recordMint.
  destruct (mintStablecoinSchema body) as [[[[w t] q] tx]|] eqn:Hschema; [|exact Hs].
  destruct (recordStablecoinMint now w t q "completed" tx db) as [db'|] eqn:Hrec;
    [|exact Hs].
  cbn [snd]. unfold recordStablecoinMint in Hrec.
  destruct (selectPlaidItem db w) as [|item rest] eqn:Hsel; [discriminate|].
  apply selectPlaidItem_head in Hsel as [Hitem Hwal].
  apply insertStablecoinMint_ok in Hrec as (amount & Hamount & ->).
  cbn in Hamount. apply to_numeric_ok in Hamount as [-> Hfit].
  assert (Hpos : 0 < Qnum q).
  { unfold mintStablecoinSchema in Hschema.
    destruct (addressField (walletAddress body)); [|discriminate]. cbn in Hschema.
    destruct (addressField (tokenAddress body)); [|discriminate]. cbn in Hschema.
    unfold positiveField in Hschema.
    destruct (amount body) as [| | |q'| |]; try discriminate.
    destruct (Z.ltb_spec 0 (Qnum q')); [|discriminate]. cbn in Hschema.
    destruct (optionalStringField (transactionId body)); [|discriminate].
    cbn in Hschema. now injection Hschema as _ _ <- _. }
  destruct Hs as [Hw Hi Hid Hseq Hmid Hmseq Href Hdone].
  constructor; cbn; try assumption.
  - rewrite map_app. cbn. apply NoDup_app. split; [exact Hmid|].
    split; [|apply NoDup_singleton].
    intros i Hi1 Hi2. apply list_elem_of_singleton in Hi2 as ->.
    apply elem_of_map_inv in Hi1 as (m & Hm1 & Hm2). apply Hmseq in Hm2. lia.
  - intros m Hm. apply elem_of_app in Hm as [Hm | Hm].
    + apply Hmseq in Hm. lia.
    + apply list_elem_of_singleton in Hm as ->. cbn. lia.
  - intros m Hm. apply elem_of_app in Hm as [Hm | Hm]; [now apply Href|].
    apply list_elem_of_singleton in Hm as ->. cbn. exists item. now repeat split.
  - intros m Hm. apply elem_of_app in Hm as [Hm | Hm]; [now apply Hdone|].
    apply list_elem_of_singleton in Hm as ->. cbn.
    split; [reflexivity|]. split; [eauto|].
    pose proof (round_hundredths_nonneg q Hpos). lia.
Qed.

Lemma handle_sound (db : Database) (r : Request) :
  sound db -> sound (snd (handle db r)).
Proof.
  intros Hs. destruct r as [plaid now body | plaid now body | now body | body];
    cbn [handle snd].
  - unfold exchangeToken.
    destruct (exchangeTokenSchema body) as [[w t]|]; [|exact Hs].
    pose proof (exchangePublicToken_sound plaid now t w db Hs) as [H _].
    destruct (exchangePublicToken plaid now t w db) as [[res|] db']; exact H.
  - unfold accountInfo.
    destruct (walletAddressSchema body) as [w|]; [|exact Hs].
    pose proof (getBankAccountInfo_sound plaid now w db Hs) as [H _].
    destruct (getBankAccountInfo plaid now w db) as [[[info|]|] db']; exact H.
  - now apply recordMint_sound.
  - exact Hs.
Qed.

Lemma sound_empty : sound empty.
Proof.
  constructor; cbn; try apply NoDup_nil_2; intros x Hx; inversion Hx.
Qed.

Lemma serve_snoc (requests : list Request) (r : Request) (db : Database) :
  serve (requests ++ [r]) db = snd (handle (serve requests db) r).
Proof. unfold serve. now rewrite foldl_app. Qed.

(** X11.  Whatever requests reach the four bank routes, in whatever order and
    whatever the aggregator answers, the two tables stay sound: one link row
    per wallet and per item, and every mint record is a completed one that
    references the link row of its own wallet and holds a non-negative amount
    that fits its column. *)
Theorem tables_stay_sound (requests : list Request) :
  sound (serve requests empty).
Proof.
  induction requests as [|r requests IH] using rev_ind.
  - exact sound_empty.
  - rewrite serve_snoc. now apply handle_sound.
Qed.

End ServerRuns.

(** ** What the routes leave behind *)

Section ServerEffects.
Import Schema PlaidService Routes Server.

(** X12.  A request that is not answered with 200 leaves both tables as they
    were: an invalid body (400), a wallet without a link (404), and every
    failure answered with 500. *)
Theorem rejected_requests_change_nothing (db : Database) (r : Request) :
  statusCode (fst (handle db r)) <> 200 -> snd (handle db r) = db.
Proof.
  destruct r as [plaid now body | plaid now body | now body | body];
    cbn [handle fst snd]; [| | |reflexivity].
  - unfold exchangeToken.
    destruct (exchangeTokenSchema body) as [[w t]|]; [|reflexivity].
    unfold exchangePublicToken.
    destruct (fetchLinkedAccount plaid t) as [[[[[[at_ it] ii] iname] acc] bal]|];
      cbn; [congruence | reflexivity].
  - unfold accountInfo.
    destruct (walletAddressSchema body) as [w|]; [|reflexivity].
    unfold getBankAccountInfo.
    destruct (selectPlaidItem db w) as [|item rest]; [reflexivity|].
    destruct (accountsBalanceGet plaid _ _ ≫= firstBalances) as [bal|];
      cbn; [congruence | reflexivity].
  - unfold recordMint.
    destruct (mintStablecoinSchema body) as [[[[w t] q] tx]|]; [|reflexivity].
    destruct (recordStablecoinMint now w t q "completed" tx db);
      cbn; [congruence | reflexivity].
Qed.

Lemma rejected_requests_change_nothing_witness :
  snd (handle Sandbox.linked (PostRecordMint 2 (Sandbox.mintBody Sandbox.otherWallet (600 # 1))))
  = Sandbox.linked.
Proof.
  apply rejected_requests_change_nothing. vm_compute. discriminate.
Defined.

Lemma map_id_rewrite (g : PlaidItem -> PlaidItem) (rows : list PlaidItem) :
  (forall r, id (g r) = id r) -> map id (map g rows) = map id rows.
Proof. intros Hg. rewrite map_map. now apply map_ext. Qed.

Lemma storePlaidItem_shape (now : Z) (v : PlaidItemValues) (db db' : Database) :
  storePlaidItem now v db = Ok db' ->
  stablecoin_mints db' = stablecoin_mints db
  /\ map id (plaid_items db) `prefix_of` map id (plaid_items db').
Proof.
  unfold storePlaidItem, insertPlaidItem, updatePlaidItem. intros H.
  destruct (selectPlaidItem db (v_wallet_address v)) as [|existing rest].
  - apply to_numeric_opt_inv in H as (c & Hc & H).
    apply to_numeric_opt_inv in H as (a & Ha & H).
    destruct (unique_ok _); [|discriminate]. injection H as <-. cbn.
    split; [reflexivity|]. rewrite map_app. now apply prefix_app_r.
  - apply to_numeric_opt_inv in H as (c & Hc & H).
    apply to_numeric_opt_inv in H as (a & Ha & H).
    destruct (unique_ok _); [|discriminate]. injection H as <-. cbn.
    split; [reflexivity|]. rewrite map_id_rewrite; [reflexivity|].
    intros r. now destruct (bool_decide _).
Qed.

Lemma updateBalances_shape (i : Z) (c a : option Q) (now : Z) (db db' : Database) :
  updateBalances i c a now db = Ok db' ->
  stablecoin_mints db' = stablecoin_mints db
  /\ map id (plaid_items db) `prefix_of` map id (plaid_items db').
Proof.
  unfold updateBalances. intros H.
  apply to_numeric_opt_inv in H as (c' & Hc & H).
  apply to_numeric_opt_inv in H as (a' & Ha & H).
  injection H as <-. cbn. split; [reflexivity|].
  rewrite map_id_rewrite; [reflexivity|]. intros r. now destruct (bool_decide _).
Qed.

(** What one request does to the mint records and to the ids of the link rows. *)
Lemma handle_shape (db : Database) (r : Request) :
  (exists new, stablecoin_mints (snd (handle db r)) = stablecoin_mints db ++ new)
  /\ map id (plaid_items db) `prefix_of` map id (plaid_items (snd (handle db r))).
Proof.
  assert (Hsame : forall db' : Database,
    stablecoin_mints db' = stablecoin_mints db
    /\ map id (plaid_items db) `prefix_of` map id (plaid_items db') ->
    (exists new, stablecoin_mints db' = stablecoin_mints db ++ new)
    /\ map id (plaid_items db) `prefix_of` map id (plaid_items db')).
  { intros db' [Hm Hi]. split; [exists []; now rewrite app_nil_r | exact Hi]. }
  assert (Hrefl : stablecoin_mints db = stablecoin_mints db
    /\ map id (plaid_items db) `prefix_of` map id (plaid_items db)) by now split.
  destruct r as [plaid now body | plaid now body | now body | body]; cbn [handle fst snd].
  - apply Hsame. unfold exchangeToken.
    destruct (exchangeTokenSchema body) as [[w t]|]; [|exact Hrefl].
    unfold exchangePublicToken.
    destruct (fetchLinkedAccount plaid t) as [[[[[[at_ it] ii] iname] acc] bal]|];
      [|exact Hrefl].
    cbn. destruct (storePlaidItem _ _ db) as [db'|] eqn:Hstore; [|exact Hrefl].
    exact (storePlaidItem_shape _ _ _ _ Hstore).
  - apply Hsame. unfold accountInfo.
    destruct (walletAddressSchema body) as [w|]; [|exact Hrefl].
    unfold getBankAccountInfo.
    destruct (selectPlaidItem db w) as [|item rest]; [exact Hrefl|].
    destruct (accountsBalanceGet plaid _ _ ≫= firstBalances) as [bal|]; [|exact Hrefl].
    cbn. destruct (updateBalances _ _ _ now db) as [db'|] eqn:Hup; [|exact Hrefl].
    exact (updateBalances_shape _ _ _ _ _ _ Hup).
  - unfold recordMint.
    destruct (mintStablecoinSchema body) as [[[[w t] q] tx]|]; [|now apply Hsame].
    destruct (recordStablecoinMint now w t q "completed" tx db) as [db'|] eqn:Hrec;
      [|now apply Hsame].
    unfold recordStablecoinMint in Hrec.
    destruct (selectPlaidItem db w) as [|item rest]; [discriminate|].
    apply insertStablecoinMint_ok in Hrec as (amount & _ & ->). cbn.
    split; [eexists; reflexivity | reflexivity].
  - now apply Hsame.
Qed.

(** X13.  Mint records are append-only: no sequence of requests changes or
    removes a record that is in the table, and link rows are never removed -
    the ids in [plaid_items] only grow at the end. *)
Theorem mint_records_are_append_only (requests : list Request) (db : Database) :
  stablecoin_mints db `prefix_of` stablecoin_mints (serve requests db)
  /\ map id (plaid_items db) `prefix_of` map id (plaid_items (serve requests db)).
Proof.
  induction requests as [|r requests IH] using rev_ind.
  - split; reflexivity.
  - rewrite serve_snoc. destruct IH as [IHm IHi].
    destruct (handle_shape (serve requests db) r) as [(new & ->) Hi]. split.
    + etransitivity; [exact IHm | now apply prefix_app_r].
    + etransitivity; [exact IHi | exact Hi].
Qed.

End ServerEffects.

(** ** The mint history *)

Section History.
Import Schema PlaidService Routes.

#[local] Abbreviation older := (fun a b : StablecoinMint => mint_created_at a <= mint_created_at b).

Lemma insert_by_created_at_perm (r : StablecoinMint) (l : list StablecoinMint) :
  insert_by_created_at r l ≡ₚ r :: l.
Proof.
  induction l as [|x l IH]; cbn; [reflexivity|].
  destruct (mint_created_at r <? mint_created_at x); [reflexivity|].
  rewrite IH. apply Permutation_swap.
Qed.

Lemma insert_by_created_at_sorted (r : StablecoinMint) (l : list StablecoinMint) :
  StronglySorted older l -> StronglySorted older (insert_by_created_at r l).
Proof.
  induction l as [|x l IH]; intros Hl; cbn.
  - repeat constructor.
  - apply StronglySorted_inv in Hl as [Hl Hx].
    destruct (Z.ltb_spec (mint_created_at r) (mint_created_at x)) as [Hlt | Hge].
    + constructor; [now constructor|].
      constructor; [cbv beta; lia|].
      eapply Forall_impl; [exact Hx|]. cbv beta. intros y Hy. lia.
    + constructor; [now apply IH|].
      rewrite (insert_by_created_at_perm r l). now constructor.
Qed.

Lemma orderBy_created_at_spec (l : list StablecoinMint) :
  orderBy_created_at l ≡ₚ l /\ StronglySorted older (orderBy_created_at l).
Proof.
  unfold orderBy_created_at.
  assert (H : forall l', foldr insert_by_created_at [] l' ≡ₚ l'
                         /\ StronglySorted older (foldr insert_by_created_at [] l')).
  { induction l' as [|x l' [IHp IHs]]; cbn; [split; [reflexivity | constructor]|].
    split; [now rewrite insert_by_created_at_perm, IHp
           | now apply insert_by_created_at_sorted]. }
  destruct (H (rev l)) as [Hp Hs]. split; [|exact Hs].
  rewrite Hp, rev_alt. apply reverse_Permutation.
Qed.

(** X14.  For a well-formed wallet address the mint-history route answers
    200 with exactly the records stored under that wallet - each of them
    once, none of another wallet - ordered by creation time, oldest first. *)
Theorem mint_history_is_the_wallets_records_in_order (body : Body) (db : Database)
    (w : string) :
  walletAddressSchema body = Some w ->
  exists history,
    mintHistory body db = mkResponse 200 (HistoryPayload history)
    /\ history ≡ₚ filter (fun r => mint_wallet_address r = w) (stablecoin_mints db)
    /\ StronglySorted (fun a b => mint_created_at a <= mint_created_at b) history.
Proof.
  intros Hw. unfold mintHistory. rewrite Hw. eexists. split; [reflexivity|].
  apply orderBy_created_at_spec.
Qed.

Lemma mint_history_is_the_wallets_records_in_order_witness :
  mint_created_at <$> stablecoin_mints Minted.database = [7; 4; 9; 5] /\
  mint_wallet_address <$> stablecoin_mints Minted.database
    = [Sandbox.wallet; Sandbox.otherWallet; Sandbox.wallet; Sandbox.wallet] /\
  exists history,
    mintHistory (Sandbox.walletBody Sandbox.wallet) Minted.database
      = mkResponse 200 (HistoryPayload history)
    /\ history ≡ₚ filter (fun r => mint_wallet_address r = Sandbox.wallet)
                    (stablecoin_mints Minted.database)
    /\ StronglySorted (fun a b => mint_created_at a <= mint_created_at b) history
    /\ mint_created_at <$> history = [5; 7; 9]
    /\ amount_minted <$> history = [12500; 25000; 5000].
Proof.
  split; [vm_compute; reflexivity|]. split; [vm_compute; reflexivity|].
  destruct (mint_history_is_the_wallets_records_in_order
              (Sandbox.walletBody Sandbox.wallet) Minted.database Sandbox.wallet eq_refl)
    as (history & Hreply & Hperm & Hsorted).
  exists history. do 3 (split; [assumption|]).
  vm_compute in Hreply. injection Hreply as <-.
  split; reflexivity.
Defined.

End History.

(** ** Storing a number in a [decimal(12, 2)] column *)

Section Columns.
Import Schema.

Lemma round_hundredths_bound (q : Q) :
  Z.abs (2 * (Qnum q * 100) - 2 * round_hundredths q * Zpos (Qden q)) <= Zpos (Qden q).
Proof.
  unfold round_hundredths.
  set (n := Qnum q * 100). set (d := Zpos (Qden q)).
  assert (Hd : 0 < d) by (unfold d; lia).
  pose proof (Z.div_mod (2 * Z.abs n + d) (2 * d) ltac:(lia)) as Hdiv.
  pose proof (Z.mod_pos_bound (2 * Z.abs n + d) (2 * d) ltac:(lia)) as Hmod.
  set (k := (2 * Z.abs n + d) / (2 * d)) in *.
  destruct (Z.sgn_spec n) as [[Hn ->] | [[Hn ->] | [Hn ->]]]; nia.
Qed.

(** X15.  What a [decimal(12, 2)] column does to an accepted value: the
    stored number is within half a hundredth of the one written, and reading
    it back and writing it again stores the same. *)
Theorem stored_value_is_within_half_a_cent (q : Q) (c : numeric) :
  to_numeric q = Ok c ->
  (numeric_value c - (1 # 200) <= q <= numeric_value c + (1 # 200))%Q
  /\ to_numeric (numeric_value c) = Ok c.
Proof.
  intros H. apply to_numeric_ok in H as [-> Hfit]. split.
  - pose proof (round_hundredths_bound q) as Hb.
    set (c := round_hundredths q) in *.
    unfold numeric_value, Qle, Qminus, Qplus, Qopp. cbn [Qnum Qden].
    destruct q as [n d]. cbn [Qnum Qden] in *.
    rewrite ?Pos2Z.inj_mul. split; lia.
  - apply to_numeric_ok.
    assert (E : round_hundredths (numeric_value (round_hundredths q)) = round_hundredths q)
      by (apply round_hundredths_exact; reflexivity).
    rewrite E. now split.
Qed.

Lemma stored_value_is_within_half_a_cent_witness :
  (numeric_value 0%Z - (1 # 200) <= 1 # 1000 <= numeric_value 0%Z + (1 # 200))%Q
  /\ to_numeric (numeric_value 0) = Ok 0.
Proof.
  apply stored_value_is_within_half_a_cent. reflexivity.
Defined.

End Columns.

(** ** The exchange and the account it picks *)

Section Exchange.
Import Schema PlaidService Routes.

(** X16.  What [exchangePublicToken] returns is decided by the aggregator
    alone: the same public token gives the same answer whatever the tables
    hold, whichever wallet asks and whenever; it fails exactly when the
    aggregator's part fails, never because of the database. *)
Theorem exchange_answer_ignores_the_database
    (plaid : PlaidApi) (now now' : Z) (publicToken w w' : string) (db db' : Database) :
  fst (exchangePublicToken plaid now publicToken w db)
  = fst (exchangePublicToken plaid now' publicToken w' db')
  /\ is_ok (fst (exchangePublicToken plaid now publicToken w db))
     = is_ok (fetchLinkedAccount plaid publicToken).
Proof.
  unfold exchangePublicToken.
  destruct (fetchLinkedAccount plaid publicToken)
    as [[[[[[at_ it] ii] iname] acc] bal]|]; split; reflexivity.
Qed.

Lemma find_split (accounts : list Account) (a : Account) :
  find isCheckingOrSavings accounts = Some a ->
  isCheckingOrSavings a = true /\
  exists before after,
    accounts = before ++ a :: after /\ Forall (fun x => isCheckingOrSavings x = false) before.
Proof.
  induction accounts as [|x accounts IH]; [discriminate|]. cbn.
  destruct (isCheckingOrSavings x) eqn:Hx.
  - intros [= ->]. split; [exact Hx|]. exists [], accounts. split; [reflexivity | constructor].
  - intros H. destruct (IH H) as (Ha & before & after & -> & Hb).
    split; [exact Ha|]. exists (x :: before), after. split; [reflexivity|].
    now constructor.
Qed.

Lemma find_none (accounts : list Account) :
  find isCheckingOrSavings accounts = None ->
  Forall (fun x => isCheckingOrSavings x = false) accounts.
Proof.
  induction accounts as [|x accounts IH]; [constructor|]. cbn.
  destruct (isCheckingOrSavings x) eqn:Hx; [discriminate|].
  intros H. constructor; [exact Hx | now apply IH].
Qed.

(** X17.  The account the exchange links is the first depository checking or
    savings account of the list; only when the list has none is it the first
    account of any kind, and only an empty list yields no account. *)
Theorem picked_account_is_the_first_checking_or_savings (accounts : list Account) :
  match pickAccount accounts with
  | None => accounts = []
  | Some a =>
    exists before after,
      accounts = before ++ a :: after
      /\ Forall (fun x => isCheckingOrSavings x = false) before
      /\ (isCheckingOrSavings a = true
          \/ (before = [] /\ Forall (fun x => isCheckingOrSavings x = false) accounts))
  end.
Proof.
  unfold pickAccount.
  destruct (find isCheckingOrSavings accounts) as [a|] eqn:Hfind.
  - apply find_split in Hfind as (Ha & before & after & -> & Hb).
    exists before, after. auto.
  - apply find_none in Hfind. destruct accounts as [|a accounts]; [reflexivity|].
    cbn. exists [], accounts. split; [reflexivity|]. split; [constructor|]. right. auto.
Qed.

End Exchange.

(** ** Refreshing the balances *)

Section Refresh.
Import Schema PlaidService Routes.

Lemma sameLink_refl (r : PlaidItem) : sameLink r r.
Proof. repeat split. Qed.

Lemma Forall2_map_self {A : Type} (P : A -> A -> Prop) (g : A -> A) (l : list A) :
  (forall x, x ∈ l -> P x (g x)) -> Forall2 P l (map g l).
Proof.
  induction l as [|x l IH]; intros H; cbn; constructor.
  - apply H. now left.
  - apply IH. intros y Hy. apply H. now right.
Qed.

(** X18.  [getBankAccountInfo] is a refresh: it adds and removes no row,
    leaves the mint records alone, and changes nothing but the balances and
    the update time of the row it looked up - rows of other wallets stay as
    they are. *)
Theorem account_info_refreshes_only_balances
    (plaid : PlaidApi) (now : Z) (w : string) (db : Database) :
  NoDup (map id (plaid_items db)) ->
  let db' := snd (getBankAccountInfo plaid now w db) in
  stablecoin_mints db' = stablecoin_mints db
  /\ Forall2 (fun r r' => sameLink r r' /\ (wallet_address r <> w -> r' = r))
       (plaid_items db) (plaid_items db').
Proof.
  intros Hnd. cbv zeta.
  assert (Hrefl : stablecoin_mints db = stablecoin_mints db
    /\ Forall2 (fun r r' => sameLink r r' /\ (wallet_address r <> w -> r' = r))
         (plaid_items db) (plaid_items db)).
  { split; [reflexivity|]. rewrite <- (map_id (plaid_items db)) at 2.
    apply Forall2_map_self. intros r _. split; [apply sameLink_refl | reflexivity]. }
  unfold getBankAccountInfo.
  destruct (selectPlaidItem db w) as [|item rest] eqn:Hsel; [exact Hrefl|].
  destruct (accountsBalanceGet plaid _ _ ≫= firstBalances) as [bal|]; [|exact Hrefl].
  cbn [snd].
  destruct (updateBalances _ _ _ now db) as [db'|] eqn:Hup; [|exact Hrefl].
  apply selectPlaidItem_head in Hsel as [Hitem Hwal].
  unfold updateBalances in Hup.
  apply to_numeric_opt_inv in Hup as (c' & Hc & Hup).
  apply to_numeric_opt_inv in Hup as (a' & Ha & Hup).
  injection Hup as <-. cbn. split; [reflexivity|].
  apply Forall2_map_self.
  intros r Hr. destruct (bool_decide_reflect (id r = id item)) as [E | E].
  - split; [repeat split|]. intros Hne. destruct Hne.
    assert (r = item) as -> by (apply (same_id_same_row (plaid_items db)); assumption).
    exact Hwal.
  - split; [apply sameLink_refl | reflexivity].
Qed.

Lemma account_info_refreshes_only_balances_witness :
  let db' :=
    snd (getBankAccountInfo
           (Sandbox.plaid "item-1" (mkBalances (Some (750 # 1)) None)) 2
           Sandbox.wallet Sandbox.linked) in
  stablecoin_mints db' = stablecoin_mints Sandbox.linked
  /\ Forall2 (fun r r' => sameLink r r' /\ (wallet_address r <> Sandbox.wallet -> r' = r))
       (plaid_items Sandbox.linked) (plaid_items db').
Proof.
  apply account_info_refreshes_only_balances.
  apply (bool_decide_unpack _). vm_compute. exact I.
Defined.

End Refresh.

(** ** From the link-token route to the bank-link step *)

Section LinkTokenFlow.
Import LinkToken.

Lemma createLinkToken_inr (answer : string -> Answer) (w t : string) :
  createLinkToken answer w = inr t <-> answer w = Resolved (Some (Some t)) /\ t <> "".
Proof.
  unfold createLinkToken, PlaidService.truthy_string.
  destruct (answer w) as [[[t0|]|]|e]; try (split; [discriminate | intros [[=] _]]).
  destruct (String.eqb_spec t0 ""); cbn.
  - split; [discriminate|]. intros [[= ->] H]. now destruct H.
  - split; [intros [= ->]; now split | intros [[= ->] _]; reflexivity].
Qed.

(** X19.  End to end, the mounted bank-link step shows its main screen with
    a link token [t] exactly when the server is configured, the wallet
    address is well-formed, and [t] is the non-empty token of the first
    answer of the aggregator or - the first answer carrying none - of the
    second; in every other case the component offers the fallback. *)
Theorem mount_shows_the_first_token_issued
    (env : Env) (linkTokenCreate : nat -> string -> Answer)
    (walletAddress : string) (st : Form.State) :
  let c := PlaidLink.component (mounted env linkTokenCreate walletAddress st) in
  (forall t,
     PlaidLink.view c = PlaidLink.MainView /\ PlaidLink.token c = t
     <->
     t <> "" /\ configured env = true
     /\ Routes.walletAddressSchema (posted walletAddress) = Some walletAddress
     /\ (linkTokenCreate 0%nat walletAddress = Resolved (Some (Some t))
         \/ ((forall t0, linkTokenCreate 0%nat walletAddress = Resolved (Some (Some t0)) ->
                         t0 = "")
             /\ linkTokenCreate 1%nat walletAddress = Resolved (Some (Some t)))))
  /\ (PlaidLink.view c = PlaidLink.MainView \/ PlaidLink.view c = PlaidLink.FallbackOffered).
Proof.
  cbv zeta. unfold mounted, route.
  assert (Hschema : Routes.walletAddressSchema (posted walletAddress) = Some walletAddress
                    \/ Routes.walletAddressSchema (posted walletAddress) = None).
  { unfold Routes.walletAddressSchema, posted, Routes.addressField. cbn.
    destruct (_ && _); auto. }
  destruct Hschema as [-> | ->].
  2:{ split; [|right; reflexivity]. intros t. split; [intros [[=] _] | intros (_ & _ & [=] & _)]. }
  destruct (configured env); cbn [negb].
  2:{ split; [|right; reflexivity]. intros t. split; [intros [[=] _] | intros (_ & [=] & _)]. }
  destruct (createLinkToken (linkTokenCreate 0%nat) walletAddress) as [e | t1] eqn:Hfirst.
  - assert (Hnone : forall t0, linkTokenCreate 0%nat walletAddress = Resolved (Some (Some t0)) ->
                               t0 = "").
    { intros t0 H0. destruct (String.eqb_spec t0 "") as [E | E]; [exact E|].
      assert (createLinkToken (linkTokenCreate 0%nat) walletAddress = inr t0) as H
        by (apply createLinkToken_inr; now split).
      congruence. }
    destruct (linkTokenCreate 1%nat walletAddress) as [[[t2|]|]|err] eqn:Hsecond.
    + cbn. destruct (String.eqb_spec t2 "") as [-> | Hne]; cbn.
      * split; [|right; reflexivity]. intros t. split; [intros [[=] _]|].
        intros (Ht & _ & _ & [H | [_ H]]).
        -- apply Hnone in H. contradiction.
        -- injection H as <-. contradiction.
      * split; [|left; reflexivity]. intros t. split.
        -- intros [_ <-]. repeat split; auto.
        -- intros (Ht & _ & _ & [H | [_ H]]).
           ++ apply Hnone in H. contradiction.
           ++ injection H as <-. split; reflexivity.
    + cbn. split; [|right; reflexivity]. intros t. split; [intros [[=] _]|].
      intros (Ht & _ & _ & [H | [_ [=]]]). apply Hnone in H. contradiction.
    + cbn. split; [|right; reflexivity]. intros t. split; [intros [[=] _]|].
      intros (Ht & _ & _ & [H | [_ [=]]]). apply Hnone in H. contradiction.
    + assert (Hfail : forall text,
        PlaidLink.view (PlaidLink.component
          (PlaidLink.getLinkToken (Some walletAddress)
             (received (mkReply 500 (ErrorBody text))) (BankStep.mount st)))
        = PlaidLink.FallbackOffered) by reflexivity.
      destruct (failure_data err) as [d|]; rewrite Hfail;
        (split; [|right; reflexivity]); intros t;
        (split; [intros [[=] _]|]);
        intros (Ht & _ & _ & [H | [_ [=]]]); apply Hnone in H; contradiction.
  - apply createLinkToken_inr in Hfirst as [Hfirst Hne].
    cbn. destruct (String.eqb_spec t1 "") as [E | _]; [contradiction|]. cbn.
    split; [|left; reflexivity]. intros t. split.
    + intros [_ <-]. repeat split; auto.
    + intros (Ht & _ & _ & [H | [H _]]).
      * rewrite Hfirst in H. injection H as <-. split; reflexivity.
      * apply H in Hfirst. contradiction.
Qed.

End LinkTokenFlow.

(** ** The number the validator sees and the number the gate reads *)

Section ValidatedSupply.
Import JsNumber.

Lemma white_space_inert (c : ascii) : is_white_space c = true -> inert c = true.
Proof.
  destruct c as [[] [] [] [] [] [] [] []]; vm_compute; intros H; congruence.
Qed.

Lemma trim_start_split (l : list ascii) :
  exists ws, l = ws ++ trim_start l /\ Forall (fun c => is_white_space c = true) ws.
Proof.
  induction l as [|c l (ws & Hl & Hws)]; [exists []; split; [reflexivity | constructor]|].
  cbn [trim_start]. destruct (is_white_space c) eqn:Hc.
  - exists (c :: ws). split; [cbn; now rewrite <- Hl | now constructor].
  - exists []. split; [reflexivity | constructor].
Qed.

Lemma trim_end_split (l : list ascii) :
  exists ws, l = trim_end l ++ ws /\ Forall (fun c => is_white_space c = true) ws.
Proof.
  unfold trim_end. destruct (trim_start_split (rev l)) as (ws & Hl & Hws).
  exists (rev ws). split.
  - rewrite <- rev_app_distr, <- Hl. now rewrite rev_involutive.
  - apply Forall_forall. intros c Hc. rewrite Forall_forall in Hws. apply Hws.
    apply elem_of_reverse. rewrite rev_alt in Hc. exact Hc.
Qed.

Lemma scan_decimal_literal_white_space (l ws : list ascii) :
  Forall (fun c => is_white_space c = true) ws ->
  fst (scan_decimal_literal (l ++ ws)) = fst (scan_decimal_literal l).
Proof.
  intros Hws. destruct ws as [|c tail]; [now rewrite app_nil_r|].
  apply Forall_cons in Hws as [Hc _].
  now rewrite (scan_decimal_literal_sep c tail (white_space_inert c Hc)).
Qed.

(** [Number] on a text that is no hexadecimal, octal or binary literal. *)
Lemma Number_decimal (s : string) :
  radixPrefixed s = false ->
  Number s =
    match trim_end (trim_start (list_ascii_of_string s)) with
    | [] => PrimFloat.zero
    | cs => match scan_decimal_literal cs with
            | (l, []) => literal_value l
            | _ => nan
            end
    end.
Proof.
  unfold Number, radixPrefixed.
  destruct (trim_end (trim_start (list_ascii_of_string s))) as [|c cs1]; [reflexivity|].
  destruct (ascii_dec c "0"%char) as [-> | Hc].
  - destruct cs1 as [|x cs']; [reflexivity|]. cbn [existsb list_ascii_of_string].
    rewrite !orb_false_iff. intros (Hx & HX & Ho & HO & Hb & HB & _).
    now rewrite Hx, HX, Ho, HO, Hb, HB.
  - intros _. destruct c as [[] [] [] [] [] [] [] []]; try (now destruct Hc); reflexivity.
Qed.

Lemma remove_commas_none (s : string) :
  ","%char ∉ list_ascii_of_string s -> TokenUtils.remove_commas s = s.
Proof.
  intros H. unfold TokenUtils.remove_commas.
  rewrite <- (string_of_list_ascii_of_string s) at 2. f_equal.
  induction (list_ascii_of_string s) as [|c l IH]; [reflexivity|].
  apply not_elem_of_cons in H as [Hc Hl].
  rewrite filter_cons_True by congruence. now rewrite IH.
Qed.

(** X20.  For a supply text without commas that is no hexadecimal, octal or
    binary literal, the number the supply step validates is the number the
    balance checks and the pipeline read: [parseFloat] and [Number] agree on
    every text the validator accepts. *)
Theorem validated_supply_is_the_number_read (supply : string) :
  TokenUtils.validateTokenSupply supply = None ->
  ","%char ∉ list_ascii_of_string supply ->
  radixPrefixed supply = false ->
  parseFloat supply = Number supply
  /\ is_nan (parseFloat supply) = false
  /\ (parseFloat supply <=? PrimFloat.zero)%float = false
  /\ gtb (parseFloat supply) MAX_SAFE_INTEGER = false.
Proof.
  intros Hvalid Hcommas Hradix.
  unfold TokenUtils.validateTokenSupply in Hvalid.
  rewrite (remove_commas_none supply Hcommas) in Hvalid.
  destruct (String.eqb supply ""); [discriminate|].
  destruct (is_nan (Number supply)) eqn:Hnan; [discriminate|].
  destruct (Number supply <=? PrimFloat.zero)%float eqn:Hpos; [discriminate|].
  destruct (gtb (Number supply) MAX_SAFE_INTEGER) eqn:Hmax; [discriminate|].
  assert (E : parseFloat supply = Number supply).
  { rewrite (Number_decimal supply Hradix) in Hnan, Hpos |- *.
    unfold parseFloat.
    destruct (trim_end_split (trim_start (list_ascii_of_string supply)))
      as (ws & Hsplit & Hws).
    rewrite Hsplit at 1.
    rewrite (scan_decimal_literal_white_space _ ws Hws).
    destruct (trim_end (trim_start (list_ascii_of_string supply))) as [|c cs].
    - discriminate Hpos.
    - destruct (scan_decimal_literal (c :: cs)) as [lit [|x rest]]; [reflexivity|].
      discriminate Hnan. }
  rewrite E. auto.
Qed.

Lemma validated_supply_is_the_number_read_witness :
  parseFloat " 2500.50 " = Number " 2500.50 "
  /\ is_nan (parseFloat " 2500.50 ") = false
  /\ (parseFloat " 2500.50 " <=? PrimFloat.zero)%float = false
  /\ gtb (parseFloat " 2500.50 ") MAX_SAFE_INTEGER = false.
Proof.
  apply validated_supply_is_the_number_read.
  - vm_compute. reflexivity.
  - apply (bool_decide_unpack _). vm_compute. exact I.
  - reflexivity.
Defined.

(** Where the two part ways: the validator takes [0x10] for sixteen and
    [,5] for five; the checks read zero and no number at all. *)
Example validated_but_read_differently :
  TokenUtils.validateTokenSupply "0x10" = None
  /\ parseFloat "0x10" = PrimFloat.zero
  /\ TokenUtils.validateTokenSupply ",5" = None
  /\ is_nan (parseFloat ",5") = true.
Proof. repeat split; vm_compute; reflexivity. Qed.

End ValidatedSupply.

(** ** The field validators *)

Section Validators.
Import JsNumber TokenUtils.

Lemma upper_alnum_not_white_space (c : ascii) :
  is_upper_alnum c = true -> is_white_space c = false.
Proof.
  destruct c as [[] [] [] [] [] [] [] []]; vm_compute; congruence.
Qed.

Lemma trim_start_head (c : ascii) (l : list ascii) :
  is_white_space c = false -> trim_start (c :: l) = c :: l.
Proof. intros H. cbn. now rewrite H. Qed.

Lemma trim_end_last (l : list ascii) (c : ascii) :
  is_white_space c = false -> trim_end (l ++ [c]) = l ++ [c].
Proof.
  intros H. unfold trim_end. rewrite rev_app_distr. cbn [rev app].
  rewrite trim_start_head by exact H. cbn [rev]. now rewrite rev_involutive.
Qed.

(** A text of symbol characters is its own trim. *)
Lemma trim_upper_alnum (s : string) :
  forallb is_upper_alnum (list_ascii_of_string s) = true -> trim s = s.
Proof.
  intros H. unfold trim. rewrite <- (string_of_list_ascii_of_string s) at 2. f_equal.
  destruct (list_ascii_of_string s) as [|c l]; [reflexivity|].
  cbn [forallb] in H. apply andb_prop in H as [Hc Hl].
  rewrite trim_start_head by now apply upper_alnum_not_white_space.
  destruct (exists_last (l := c :: l) ltac:(discriminate)) as (l' & c' & E).
  rewrite E. apply trim_end_last. apply upper_alnum_not_white_space.
  assert (Hall : forallb is_upper_alnum (c :: l) = true) by (cbn; now rewrite Hc, Hl).
  rewrite E, forallb_app in Hall. apply andb_prop in Hall as [_ Hall].
  cbn in Hall. now rewrite andb_true_r in Hall.
Qed.

(** X21.  The symbol validator accepts exactly the texts of one to ten
    characters, each an uppercase letter or a digit; in particular an accepted
    symbol has no blank anywhere and is its own trim. *)
Theorem symbol_accepted_iff (symbol : string) :
  validateTokenSymbol symbol = None <->
  1 <= TokenUtils.length symbol <= 10
  /\ forallb is_upper_alnum (list_ascii_of_string symbol) = true.
Proof.
  unfold validateTokenSymbol. split.
  - destruct (String.eqb_spec (trim symbol) "") as [E | E]; [discriminate|].
    destruct (Z.ltb_spec 10 (TokenUtils.length symbol)); [discriminate|].
    destruct (forallb is_upper_alnum (list_ascii_of_string symbol)) eqn:Hall;
      [|discriminate].
    intros _. split; [|reflexivity]. split; [|lia].
    unfold TokenUtils.length. destruct symbol as [|a symbol]; [now destruct E|].
    change (String.length (String a symbol)) with (S (String.length symbol)). lia.
  - intros [[Hlo Hhi] Hall]. rewrite (trim_upper_alnum symbol Hall).
    destruct (String.eqb_spec symbol "") as [-> | _];
      [unfold TokenUtils.length in Hlo; cbn in Hlo; lia|].
    destruct (Z.ltb_spec 10 (TokenUtils.length symbol)); [lia|].
    now rewrite Hall.
Qed.

End Validators.

(** ** The wallet session under any sequence of events *)

Section WalletRuns.
Context `{W : Web3}.
Import WalletSession.

(** X22.  From the provider's initial state, whatever the extension does and
    answers: while the session holds a public key it also holds the wallet
    and counts as connected, and no handler leaves it in the connecting
    state.  (The form's test [!publicKey || !wallet] is therefore decided by
    the key alone.) *)
Theorem session_key_implies_wallet_and_connected (events : list Event) :
  let st := run events initialState in
  match publicKey st with
  | Some _ => wallet st = true /\ connected st = true
  | None => True
  end
  /\ connecting st = false.
Proof.
  cbv zeta. induction events as [|e events IH] using rev_ind; [now split|].
  unfold run in *. rewrite foldl_app. cbn [foldl].
  destruct (foldl handle initialState events) as [w pk c cg err ts].
  cbn in IH. destruct IH as [IHk ->].
  destruct e as [solana | args | | before response after | answer]; cbn [handle].
  - destruct solana as [[[] [k|] []]|]; cbn; split; auto;
      destruct pk; intuition auto.
  - unfold onConnect. destruct w; cbn; [|now split].
    destruct args as [[text|]|]; [destruct (newPublicKey text)| |]; cbn; split; auto;
      destruct pk; intuition auto.
  - unfold onDisconnect. destruct w; cbn; now split.
  - unfold connect. destruct w; cbn; [|now split].
    destruct before as [k|]; [now split|].
    destruct response as [[k|]|e]; [| destruct after as [k|] |]; cbn; split; auto;
      destruct pk; intuition auto.
  - unfold disconnect. destruct w; cbn; [|now split].
    destruct answer; cbn; now split.
Qed.

End WalletRuns.

Section WalletRunsDemo.
#[local] Existing Instance Demo.web3.
Import WalletSession.

(** The converse fails: a [connect] event without a key marks the session
    connected while it holds no key. *)
Example connected_without_a_key :
  let st := run [Mounted (Some (mkPhantom true None false)); ConnectEvent None]
              initialState in
  connected st = true /\ publicKey st = None.
Proof. split; reflexivity. Qed.

End WalletRunsDemo.

(** ** Listing the wallet's tokens *)

Section TokenList.
Context `{W : Web3}.
Import Tokens.

Lemma all_ok {A B : Type} (f : A -> result B) (l : list A) (ys : list B) :
  all f l = Ok ys -> Forall2 (fun x y => f x = Ok y) l ys.
Proof.
  revert ys. induction l as [|x l IH]; intros ys H; cbn in H.
  - injection H as <-. constructor.
  - destruct (f x) as [y|] eqn:Hx; [|discriminate]. cbn in H.
    destruct (all f l) as [ys'|]; [|discriminate]. cbn in H. injection H as <-.
    constructor; [exact Hx | now apply IH].
Qed.

Lemma describe_some (chain : Chain) (storage : Storage) (today : string)
    (account : TokenAccount) (t : TokenData) :
  describe chain storage today account = Ok (Some t) ->
  exists k info,
    newPublicKey (mint account) = Ok k /\ getMint chain k = Ok info
    /\ is_ok (storedTokens storage) = true
    /\ address t = toString k
    /\ totalSupply t = or_else (default "" (uiAmountString <$> tokenAmount account)) "0"
    /\ decimals t = mintDecimals info.
Proof.
  unfold describe. destruct (newPublicKey (mint account)) as [k|]; [|discriminate].
  cbn. destruct (getMint chain k) as [info|] eqn:Hinfo; [|discriminate]. cbn.
  destruct (storedTokens storage) as [registry|]; [|discriminate]. cbn.
  destruct (registry !! toString k); intros [= <-]; exists k, info;
    repeat split; assumption || reflexivity.
Qed.

Lemma describe_none (chain : Chain) (storage : Storage) (today : string)
    (account : TokenAccount) :
  describe chain storage today account = Ok None ->
  exists k, newPublicKey (mint account) = Ok k
            /\ (is_ok (getMint chain k) && is_ok (storedTokens storage) = false).
Proof.
  unfold describe. destruct (newPublicKey (mint account)) as [k|]; [|discriminate].
  cbn. exists k. split; [reflexivity|].
  destruct (getMint chain k) as [info|]; [|reflexivity]. cbn.
  destruct (storedTokens storage) as [registry|]; [|reflexivity]. cbn in *.
  destruct (registry !! toString k); discriminate.
Qed.

(** X23.  When [fetchWalletTokens] returns, its list holds exactly the token
    accounts with a positive balance whose mint could be read: every entry
    is such an account, listed under the mint's address with the wallet's own
    balance as its supply text, and every such account has its entry.  An
    account with a zero or missing amount is never listed, and every positive
    account's mint text was accepted as a public key - one that is not makes
    the whole call fail. *)
Theorem listed_tokens_are_the_positive_holdings
    (chain : Chain) (storage : Storage) (today : string) (walletAddress : PublicKey)
    (tokens : list TokenData) :
  fetchWalletTokens chain storage today walletAddress = Ok tokens ->
  exists accounts,
    getParsedTokenAccountsByOwner chain walletAddress = Ok accounts
    /\ (forall t, t ∈ tokens ->
          exists account k,
            account ∈ accounts /\ positive account = true
            /\ newPublicKey (mint account) = Ok k /\ address t = toString k
            /\ is_ok (getMint chain k) = true
            /\ totalSupply t
               = or_else (default "" (uiAmountString <$> tokenAmount account)) "0")
    /\ (forall account,
          account ∈ accounts -> positive account = true ->
          exists k,
            newPublicKey (mint account) = Ok k
            /\ (is_ok (getMint chain k) = true -> is_ok (storedTokens storage) = true ->
                exists t, t ∈ tokens /\ address t = toString k)).
Proof.
  unfold fetchWalletTokens. intros H.
  destruct (getParsedTokenAccountsByOwner chain walletAddress) as [accounts|];
    [|discriminate].
  cbn in H. exists accounts. split; [reflexivity|].
  destruct (all _ _) as [results|] eqn:Hall; [|discriminate].
  cbn in H. injection H as <-.
  apply all_ok in Hall.
  remember (filter (fun a => positive a = true) accounts) as held eqn:Hheld.
  assert (Hin : forall a, a ∈ held <-> positive a = true /\ a ∈ accounts)
    by (intros a; subst held;
        exact (list_elem_of_filter (fun a => positive a = true) accounts a)).
  clear Hheld. split.
  - intros t Ht. apply list_elem_of_omap in Ht as (o & Ho & Hsome). subst o.
    apply list_elem_of_lookup in Ho as (i & Hi).
    destruct (Forall2_lookup_r _ _ _ _ _ Hall Hi) as (account & Ha & Hdesc).
    apply describe_some in Hdesc as (k & info & Hk & Hinfo & _ & Haddr & Hsupply & _).
    apply list_elem_of_lookup_2, Hin in Ha as [Hpos Ha].
    exists account, k. repeat split; try assumption. now rewrite Hinfo.
  - intros account Ha Hpos.
    assert (Hheld : account ∈ held) by (apply Hin; now split).
    apply list_elem_of_lookup in Hheld as (i & Hi).
    destruct (Forall2_lookup_l _ _ _ _ _ Hall Hi) as ([t|] & Ho & Hdesc).
    + apply describe_some in Hdesc as (k & info & Hk & _ & _ & Haddr & _).
      exists k. split; [exact Hk|]. intros _ _. exists t. split; [|exact Haddr].
      apply list_elem_of_omap. exists (Some t). split; [|reflexivity].
      now apply list_elem_of_lookup_2 in Ho.
    + apply describe_none in Hdesc as (k & Hk & Hfail).
      exists k. split; [exact Hk|]. intros H1 H2. rewrite H1, H2 in Hfail. discriminate.
Qed.

End TokenList.

Section TokenRegistry.
Context `{W : Web3}.
Import Tokens.

Lemma fetch_entry (chain : Chain) (storage : Storage) (today : string)
    (walletAddress : PublicKey) (accounts : list TokenAccount) (tokens : list TokenData)
    (account : TokenAccount) :
  getParsedTokenAccountsByOwner chain walletAddress = Ok accounts ->
  fetchWalletTokens chain storage today walletAddress = Ok tokens ->
  account ∈ accounts -> positive account = true ->
  exists o, describe chain storage today account = Ok o
            /\ forall t, o = Some t -> t ∈ tokens.
Proof.
  unfold fetchWalletTokens. intros -> H Ha Hpos. cbn in H.
  destruct (all _ _) as [results|] eqn:Hall; [|discriminate].
  cbn in H. injection H as <-. apply all_ok in Hall.
  assert (Hheld : account ∈ filter (fun a => positive a = true) accounts)
    by (apply (list_elem_of_filter (fun a => positive a = true) accounts account);
        now split).
  apply list_elem_of_lookup in Hheld as (i & Hi).
  destruct (Forall2_lookup_l _ _ _ _ _ Hall Hi) as (o & Ho & Hdesc).
  exists o. split; [exact Hdesc|]. intros t ->.
  apply list_elem_of_omap. exists (Some t). split; [|reflexivity].
  now apply list_elem_of_lookup_2 in Ho.
Qed.

(** X24.  A token made by [createSPLToken] is listed under the name and the
    symbol entered in the form: once the pipeline has returned and written
    its registry entry (the stored item being absent or a registry), a later
    [fetchWalletTokens] that finds a positive holding of the new mint, and
    can read the mint, lists it with the form's name and symbol. *)
Theorem created_token_is_listed_under_its_form_name
    (connection : Solana.Connection) (payer : PublicKey)
    (signTransaction : Solana.Transaction -> result Solana.Transaction)
    (formData : TokenFormData) (day : string) (storage storage' : Storage)
    (details : Solana.TokenDetails)
    (chain : Chain) (today : string) (walletAddress : PublicKey)
    (accounts : list TokenAccount) (account : TokenAccount) (tokens : list TokenData) :
  createSPLToken connection payer signTransaction formData day storage
    = (Ok details, storage') ->
  storage <> Garbage ->
  getParsedTokenAccountsByOwner chain walletAddress = Ok accounts ->
  account ∈ accounts -> positive account = true ->
  mint account = Solana.tokenAddress details ->
  is_ok (getMint chain (Solana.generate connection)) = true ->
  fetchWalletTokens chain storage' today walletAddress = Ok tokens ->
  exists t,
    t ∈ tokens /\ address t = Solana.tokenAddress details
    /\ name t = tokenName formData /\ symbol t = tokenSymbol formData.
Proof.
  unfold createSPLToken. intros Hcreate Hstorage Haccounts Ha Hpos Hmint Hread Hfetch.
  destruct (Solana.createSPLToken connection payer signTransaction formData)
    as [d|] eqn:Hpipe; [|discriminate].
  injection Hcreate as -> <-.
  apply createSPLToken_ok in Hpipe
    as (transaction & blockhash & height & signed & signature & _ & _ & _ & _ & _ & ->).
  cbn [Solana.tokenAddress] in *.
  destruct (fetch_entry _ _ _ _ _ _ _ Haccounts Hfetch Ha Hpos) as (o & Hdesc & Hin).
  unfold describe in Hdesc. rewrite Hmint, newPublicKey_toString in Hdesc. cbn in Hdesc.
  destruct (getMint chain (Solana.generate connection)) as [info|]; [|discriminate].
  cbn in Hdesc.
  assert (Hreg : exists registry,
    storedTokens storage = Ok registry
    /\ remember day formData (toString (Solana.generate connection)) storage
       = Registry (<[toString (Solana.generate connection) :=
                       mkStoredToken (tokenName formData) (tokenSymbol formData)
                         (JsNumber.parseInt (tokenDecimals formData)) day]> registry)).
  { unfold remember. destruct storage as [| |entries]; [| now destruct Hstorage |];
      eexists; split; reflexivity. }
  destruct Hreg as (registry & _ & Hreg). rewrite Hreg in Hdesc. cbn in Hdesc.
  rewrite lookup_insert_eq in Hdesc. cbn in Hdesc. injection Hdesc as <-.
  eexists. split; [apply Hin; reflexivity|]. repeat split.
Qed.

End TokenRegistry.

Section TokenListDemo.
#[local] Existing Instance Demo.web3.
Import Tokens.

Lemma demo_listing :
  fetchWalletTokens DemoTokens.chain DemoTokens.storage "2024-05-02" Demo.payer
  = Ok [DemoTokens.listed].
Proof. vm_compute. reflexivity. Qed.

Lemma listed_tokens_are_the_positive_holdings_witness :
  exists accounts,
    getParsedTokenAccountsByOwner DemoTokens.chain Demo.payer = Ok accounts
    /\ forall t, t ∈ [DemoTokens.listed] ->
         exists account k,
           account ∈ accounts /\ positive account = true
           /\ newPublicKey (mint account) = Ok k /\ address t = toString k.
Proof.
  assert (H : fetchWalletTokens DemoTokens.chain DemoTokens.storage "2024-05-02" Demo.payer
              = Ok [DemoTokens.listed]) by (vm_compute; reflexivity).
  destruct (listed_tokens_are_the_positive_holdings _ _ _ _ _ H)
    as (accounts & Haccounts & Hsound & _).
  exists accounts. split; [exact Haccounts|].
  intros t Ht. destruct (Hsound t Ht) as (account & k & Ha & Hpos & Hk & Haddr & _).
  exists account, k. auto.
Defined.

Lemma created_token_is_listed_under_its_form_name_witness :
  exists t,
    t ∈ [DemoTokens.listed] /\ address t = Solana.tokenAddress DemoToken.details
    /\ name t = "Munin Dollar" /\ symbol t = "MUSD".
Proof.
  assert (Hpipe : Solana.createSPLToken Demo.connection Demo.payer DemoToken.sign
                    Demo.formData = Ok DemoToken.details) by (vm_compute; reflexivity).
  assert (Hcreate : createSPLToken Demo.connection Demo.payer DemoToken.sign Demo.formData
                      "2024-05-01" Absent = (Ok DemoToken.details, DemoTokens.storage)).
  { unfold DemoTokens.storage, createSPLToken. rewrite Hpipe. reflexivity. }
  assert (Hfetch : fetchWalletTokens DemoTokens.chain DemoTokens.storage "2024-05-02"
                     Demo.payer = Ok [DemoTokens.listed]) by (vm_compute; reflexivity).
  refine (created_token_is_listed_under_its_form_name
            Demo.connection Demo.payer DemoToken.sign Demo.formData "2024-05-01"
            Absent DemoTokens.storage DemoToken.details
            DemoTokens.chain "2024-05-02" Demo.payer _
            (mkTokenAccount "So11111111111111111111111111111111111111112"
               (Some (mkTokenAmount (Some (JsNumber.of_Z 5000)) "5000")))
            [DemoTokens.listed] Hcreate _ eq_refl _ _ eq_refl eq_refl Hfetch).
  - discriminate.
  - apply list_elem_of_here.
  - vm_compute. reflexivity.
Defined.

End TokenListDemo.

(** ** Every created token is backed *)

Section Backed.
Context `{W : Web3}.

(** X25.  Whatever happened in the wizard before, a submission creates a
    token only against a snapshot that the bank-link step delivered or that is
    the fabricated fallback, and only for a supply that is a number and is
    not above that snapshot's available balance. *)
Theorem every_created_token_is_backed
    (events : list Wizard.Event)
    (connection : Solana.Connection) (publicKey : option PublicKey)
    (wallet : option (Solana.Transaction -> result Solana.Transaction))
    (apiRequest : Form.RecordMintRequest -> result ())
    (data : TokenFormData) (st' : Form.State)
    (details : Solana.TokenDetails) (recorded : bool) :
  Form.onSubmit connection publicKey wallet apiRequest data
    (Wizard.run events Form.initialState)
    = (Form.TokenCreated details recorded, st') ->
  exists bank,
    Form.verifiedBankAccount (Wizard.run events Form.initialState) = Some bank
    /\ (bank = fallbackBankAccount \/ Wizard.BankVerified bank ∈ events)
    /\ is_nan (JsNumber.parseFloat (tokenSupply data)) = false
    /\ JsNumber.gtb (JsNumber.parseFloat (tokenSupply data)) (availableBalance bank) = false
    /\ Wizard.run (events ++ [Wizard.SubmitForm connection publicKey wallet apiRequest data])
         Form.initialState
       = Wizard.run events Form.initialState.
Proof.
  intros H. pose proof H as Hrun.
  unfold Form.onSubmit in H.
  destruct publicKey as [payer|]; [|discriminate].
  destruct wallet as [signer|]; [|discriminate].
  destruct (Form.submitGate true data _) as [gate st0] eqn:Hgate.
  destruct gate; try discriminate.
  apply submitGate_proceed in Hgate as (_ & -> & bank & Hbank & Hgt).
  destruct (Solana.createSPLToken _ _ _ _) as [tokenDetails|] eqn:Hcreate; [|discriminate].
  injection H as _ _ Hst.
  apply createSPLToken_ok in Hcreate
    as (transaction & blockhash & height & signed & signature & Hbuild & _).
  apply buildTransaction_ok in Hbuild
    as (rent & decimals & ata & n & n' & amount & _ & _ & _ & Hsupply & _).
  apply initialSupply_ok in Hsupply as (Hnan & _ & _).
  exists bank. split; [exact Hbank|]. split.
  - destruct (run_snapshot_origin events Form.initialState bank Hbank) as [Hinit | Horigin];
      [discriminate Hinit | exact Horigin].
  - split; [exact Hnan|]. split; [exact Hgt|].
    rewrite run_snoc. cbn [Wizard.handle]. rewrite Hrun. cbn. now rewrite Hst.
Qed.

End Backed.

Section BackedDemo.
#[local] Existing Instance Demo.web3.

Lemma every_created_token_is_backed_witness :
  exists bank,
    Form.verifiedBankAccount
      (Wizard.run [Wizard.ForceAdvance; Wizard.ClickNext Demo.formData] Form.initialState)
      = Some bank
    /\ (bank = fallbackBankAccount
        \/ Wizard.BankVerified bank ∈ [Wizard.ForceAdvance; Wizard.ClickNext Demo.formData])
    /\ is_nan (JsNumber.parseFloat (tokenSupply Demo.formData)) = false.
Proof.
  assert (H : Form.onSubmit Demo.connection (Some Demo.payer) (Some DemoToken.sign)
                (fun _ => Ok ()) Demo.formData
                (Wizard.run [Wizard.ForceAdvance; Wizard.ClickNext Demo.formData]
                   Form.initialState)
              = (Form.TokenCreated DemoToken.details true,
                 Wizard.run [Wizard.ForceAdvance; Wizard.ClickNext Demo.formData]
                   Form.initialState)) by reflexivity.
  destruct (every_created_token_is_backed _ _ _ _ _ _ _ _ _ H)
    as (bank & Hbank & Horigin & Hnan & _).
  exists bank. auto.
Defined.

End BackedDemo.

(** ** Linking again *)

Section Relink.
Import Schema PlaidService Server.

Lemma filter_wallet_none (w : string) (rows : list PlaidItem) :
  w ∉ map wallet_address rows -> filter (fun r => wallet_address r = w) rows = [].
Proof.
  induction rows as [|x rows IH]; intros Hw; [reflexivity|].
  cbn in Hw. apply not_elem_of_cons in Hw as [Hx Hrows].
  rewrite filter_cons_False by congruence. now apply IH.
Qed.

Lemma filter_wallet_unique (w : string) (rows : list PlaidItem) (r : PlaidItem) :
  NoDup (map wallet_address rows) -> r ∈ rows -> wallet_address r = w ->
  filter (fun r => wallet_address r = w) rows = [r].
Proof.
  induction rows as [|x rows IH]; intros Hnd Hr Hw; [inversion Hr|].
  cbn in Hnd. apply NoDup_cons in Hnd as [Hx Hnd].
  apply elem_of_cons in Hr as [<- | Hr].
  - rewrite filter_cons_True by exact Hw. f_equal.
    apply filter_wallet_none. now rewrite <- Hw.
  - rewrite filter_cons_False; [now apply IH|].
    intros Hxw. apply Hx. rewrite Hxw, <- Hw. now apply elem_of_map_1.
Qed.

(** X26.  Linking a wallet again rewrites its row in place: the row keeps its
    id - so the mint records that reference it still do - and keeps its
    creation time and also its last-updated time, while every column the
    exchange assembles takes the new values. *)
Theorem relink_rewrites_the_row_in_place
    (now : Z) (v : PlaidItemValues) (db db' : Database) (r : PlaidItem)
    (rest : list PlaidItem) :
  sound db ->
  selectPlaidItem db (v_wallet_address v) = r :: rest ->
  storePlaidItem now v db = Ok db' ->
  exists r',
    Links.rowsOf (v_wallet_address v) db' = [r']
    /\ Links.holds r' v
    /\ id r' = id r /\ created_at r' = created_at r /\ last_updated r' = last_updated r
    /\ length (plaid_items db') = length (plaid_items db)
    /\ stablecoin_mints db' = stablecoin_mints db.
Proof.
  intros Hs Hsel Hstore. unfold storePlaidItem in Hstore. rewrite Hsel in Hstore.
  apply selectPlaidItem_head in Hsel as [Hr Hw].
  unfold updatePlaidItem in Hstore.
  apply to_numeric_opt_inv in Hstore as (c & Hc & Hstore).
  apply to_numeric_opt_inv in Hstore as (a & Ha & Hstore).
  destruct (unique_ok _) eqn:Hu; [|discriminate].
  injection Hstore as <-.
  exists (setPlaidItem v c a r). unfold Links.rowsOf. cbn [plaid_items stablecoin_mints].
  split; [|split; [now apply holds_setPlaidItem|]].
  - apply filter_wallet_unique; [now apply unique_ok_wallets | | reflexivity].
    pose proof (elem_of_map_1
                  (fun r0 => if bool_decide (id r0 = id r) then setPlaidItem v c a r0 else r0)
                  (plaid_items db) r Hr) as Hin.
    cbv beta in Hin. rewrite bool_decide_eq_true_2 in Hin by reflexivity. exact Hin.
  - repeat split. now rewrite length_map.
Qed.

Lemma sound_linked : sound Sandbox.linked.
Proof.
  unfold Sandbox.linked, Links.runAll, Links.run. cbn [foldl].
  apply exchangePublicToken_sound, sound_empty.
Qed.

Lemma relink_rewrites_the_row_in_place_witness :
  exists r',
    Links.rowsOf Sandbox.wallet Relinked.database = [r']
    /\ Links.holds r' Relinked.values
    /\ id r' = 1 /\ created_at r' = 1 /\ last_updated r' = 1.
Proof.
  assert (Hsel : selectPlaidItem Sandbox.linked (v_wallet_address Relinked.values)
                 = [Relinked.row]) by (vm_compute; reflexivity).
  assert (Hstore : storePlaidItem 2 Relinked.values Sandbox.linked = Ok Relinked.database)
    by (vm_compute; reflexivity).
  destruct (relink_rewrites_the_row_in_place 2 Relinked.values Sandbox.linked
              Relinked.database Relinked.row [] sound_linked Hsel Hstore)
    as (r' & Hrows & Hholds & Hid & Hcreated & Hlast & _).
  exists r'. auto.
Defined.

End Relink.

(** ** The history against the link rows *)

Section HistoryReferences.
Import Schema PlaidService Routes Server.

(** X27.  After any sequence of requests, every record the mint-history
    route returns for a wallet is a completed mint of that wallet that
    references the one link row the wallet has. *)
Theorem history_records_reference_the_wallets_row
    (requests : list Request) (body : Body) (w : string) :
  walletAddressSchema body = Some w ->
  exists history,
    mintHistory body (serve requests empty) = mkResponse 200 (HistoryPayload history)
    /\ forall m, m ∈ history ->
         mint_wallet_address m = w /\ status m = "completed"
         /\ exists r, Links.rowsOf w (serve requests empty) = [r]
                      /\ plaid_item_id m = Some (id r).
Proof.
  intros Hw. unfold mintHistory. rewrite Hw. eexists. split; [reflexivity|].
  intros m Hm. unfold selectMints in Hm.
  apply (proj1 (elem_of_orderBy_created_at _ _)) in Hm.
  apply (proj1 (list_elem_of_filter (fun r => mint_wallet_address r = w) _ _)) in Hm
    as [Hwallet Hm].
  assert (Hs : sound (serve requests empty)).
  { clear. induction requests as [|r requests IH] using rev_ind; [exact sound_empty|].
    rewrite serve_snoc. now apply handle_sound. }
  destruct (sound_references _ Hs m Hm) as (r & Hr & Hid & Hrw).
  destruct (sound_completed _ Hs m Hm) as (Hstatus & _).
  split; [exact Hwallet|]. split; [exact Hstatus|].
  exists r. split; [|exact Hid].
  unfold Links.rowsOf. apply filter_wallet_unique; [exact (sound_wallets _ Hs) | exact Hr|].
  now rewrite Hrw.
Qed.

Lemma history_records_reference_the_wallets_row_witness :
  exists history,
    mintHistory (Sandbox.walletBody Sandbox.wallet)
      (serve [PostExchangeToken
                (Sandbox.plaid "item-1" (mkBalances (Some (500 # 1)) (Some (500 # 1)))) 1
                (mkBody (JString Sandbox.wallet) (JString "public-sandbox-token")
                   JUndefined JUndefined JUndefined);
              PostRecordMint 2 (Sandbox.mintBody Sandbox.wallet (250 # 1))]
         empty)
    = mkResponse 200 (HistoryPayload history)
    /\ history <> [].
Proof.
  destruct (history_records_reference_the_wallets_row
              [PostExchangeToken
                 (Sandbox.plaid "item-1" (mkBalances (Some (500 # 1)) (Some (500 # 1)))) 1
                 (mkBody (JString Sandbox.wallet) (JString "public-sandbox-token")
                    JUndefined JUndefined JUndefined);
               PostRecordMint 2 (Sandbox.mintBody Sandbox.wallet (250 # 1))]
              (Sandbox.walletBody Sandbox.wallet) Sandbox.wallet eq_refl)
    as (history & Hreply & _).
  exists history. split; [exact Hreply|].
  intros ->. vm_compute in Hreply. discriminate Hreply.
Defined.

End HistoryReferences.
